(** * supabase-bridge.js: a shallow embedding and its specification

    The bridge is browser glue: six asynchronous operations that talk to a
    backend client found at [window.supabase], mirror the answers into
    [localStorage] through the [LS] helper and dispatch the document event
    [sb:admin-synced].  The embedding keeps the shape of the source:

    - JavaScript values are the inductive [JSValue]; numbers are IEEE 754
      doubles ([PrimFloat.float]), objects are association lists in
      insertion order, arrays are lists;
    - the browser is the record [World]: the stored strings, the events
      dispatched so far, the assignments made to [location.href], the
      number of clock readings and the requests sent to the backend;
    - an [async function] is a function from [World] to an [Outcome] (the
      promise is fulfilled with a value, or rejected with what was thrown)
      and the world it leaves behind;
    - what the script takes from the JavaScript runtime and does not define
      (JSON, number/string conversion, the clock, the storage quota) is the
      class [Runtime]. *)

From Stdlib Require Import Floats.
From stdpp Require Import gmap strings list pretty.

Local Open Scope string_scope.
Set Warnings "-register-all".

(** ** Values *)

Inductive JSValue : Type :=
| VUndef
| VNull
| VBool (b : bool)
| VNum (x : float)
| VStr (s : string)
| VArr (l : list JSValue)
| VObj (fs : list (string * JSValue)).

(** What a [throw] carries: a value of the program (the backend's [error]
    object, a rejection reason) or one of the runtime's own errors. *)
Inductive Exn : Type :=
| ExnValue (v : JSValue)
| TypeError
| SyntaxError
| SecurityError
| QuotaExceededError.

Inductive Outcome (A : Type) : Type :=
| Ret (a : A)
| Throw (e : Exn).
Arguments Ret {A} a.
Arguments Throw {A} e.

Definition obind {A B} (o : Outcome A) (k : A -> Outcome B) : Outcome B :=
  match o with
  | Ret a => k a
  | Throw e => Throw e
  end.

Notation "'let?' x ':=' c1 'in' c2" := (obind c1 (fun x => c2))
  (at level 10, x name, c1 at level 100, c2 at level 200).

(** ** The runtime the script relies on *)

Class Runtime : Type := {
  (** [StringToNumber] of ECMA-262, the string case of [Number(v)]. *)
  StringToNumber : string -> float;
  (** [Number::toString], the number case of [String(v)]. *)
  NumberToString : float -> string;
  (** [JSON.parse]: a value, or a [SyntaxError]. *)
  JSON_parse : string -> Outcome JSValue;
  (** [JSON.stringify]: a text, [undefined] (here [None]), or a throw. *)
  JSON_stringify : JSValue -> Outcome (option string);
  (** [Date.prototype.toISOString] of a time value. *)
  toISOString : float -> string;
  (** The time value the clock shows at its n-th reading. *)
  clock : nat -> float;
  (** Whether [localStorage] can be reached at all. *)
  storage_available : bool;
  (** Whether the store, holding [m], accepts [k := s] (quota). *)
  storage_fits : gmap string string -> string -> string -> bool;
  (** The text [null] is the JSON value null. *)
  JSON_parse_null : JSON_parse "null" = Ret VNull
}.

(** ** Requests to the backend client

    A query is the table named by [from] and the chain of builder calls
    made on it, in source order. *)

Inductive QStep : Type :=
| q_select (cols : string)
| q_insert (rows : JSValue)
| q_update (fields : JSValue)
| q_delete
| q_eq (col : string) (v : JSValue)
| q_order (col : string) (ascending : bool)
| q_limit (n : nat)
| q_single.

Inductive Request : Type :=
| Query (table : string) (steps : list QStep)
| Rpc (fn : string) (args : JSValue)
| GetSession.

(** What awaiting a request gives. *)
Inductive Await : Type :=
| Fulfilled (v : JSValue)
| Rejected (e : Exn).

(** The client answers a request knowing the requests made before it. *)
Record Client : Type := { respond : list Request -> Request -> Await }.

Record World : Type := mkWorld {
  supabase : option Client;          (* window.supabase, None when falsy *)
  storage : gmap string string;      (* localStorage *)
  events : list string;              (* document.dispatchEvent, oldest first *)
  redirects : list JSValue;          (* assignments to location.href *)
  ticks : nat;                       (* clock readings so far *)
  requests : list Request            (* requests awaited, oldest first *)
}.

(** The elementary changes of the world. *)
Definition log_request (q : Request) (w : World) : World :=
  mkWorld (supabase w) (storage w) (events w) (redirects w) (ticks w)
          (requests w ++ [q]).

Definition store_item (k s : string) (w : World) : World :=
  mkWorld (supabase w) (<[k := s]> (storage w)) (events w) (redirects w)
          (ticks w) (requests w).

Definition emit (name : string) (w : World) : World :=
  mkWorld (supabase w) (storage w) (events w ++ [name]) (redirects w)
          (ticks w) (requests w).

Definition navigate (url : JSValue) (w : World) : World :=
  mkWorld (supabase w) (storage w) (events w) (redirects w ++ [url])
          (ticks w) (requests w).

Definition tick (w : World) : World :=
  mkWorld (supabase w) (storage w) (events w) (redirects w) (S (ticks w))
          (requests w).

(** ** The monad of the script: state and exceptions *)

Definition M (A : Type) : Type := World -> Outcome A * World.

Definition ret {A} (a : A) : M A := fun w => (Ret a, w).
Definition throw {A} (e : Exn) : M A := fun w => (Throw e, w).
Definition bind {A B} (m : M A) (k : A -> M B) : M B :=
  fun w => match m w with
           | (Ret a, w') => k a w'
           | (Throw e, w') => (Throw e, w')
           end.
Definition lift {A} (o : Outcome A) : M A := fun w => (o, w).
Definition try_catch {A} (m : M A) (h : M A) : M A :=
  fun w => match m w with
           | (Ret a, w') => (Ret a, w')
           | (Throw _, w') => h w'
           end.

Notation "'let!' x ':=' c1 'in' c2" := (bind c1 (fun x => c2))
  (at level 10, x name, c1 at level 100, c2 at level 200).
Notation "c1 '>>' c2" := (bind c1 (fun _ => c2))
  (at level 100, c2 at level 200, right associativity).

(** ** Operators of the language *)

Definition is_nullish (v : JSValue) : bool :=
  match v with
  | VUndef | VNull => true
  | _ => false
  end.

(** [ToBoolean]. *)
Definition truthy (v : JSValue) : bool :=
  match v with
  | VUndef | VNull => false
  | VBool b => b
  | VNum x => negb (PrimFloat.is_zero x || PrimFloat.is_nan x)
  | VStr s => negb (String.eqb s "")
  | VArr _ | VObj _ => true
  end.

(** [a || b], [a ?? b] and [!!a]. *)
Definition js_or (a b : JSValue) : JSValue := if truthy a then a else b.
Definition js_coalesce (a b : JSValue) : JSValue := if is_nullish a then b else a.
Definition js_bool (a : JSValue) : JSValue := VBool (truthy a).

(** A parameter default applies to [undefined] only. *)
Definition default_arg (a d : JSValue) : JSValue :=
  match a with
  | VUndef => d
  | _ => a
  end.

Fixpoint obj_lookup (fs : list (string * JSValue)) (k : string) : option JSValue :=
  match fs with
  | [] => None
  | (k', v) :: fs' => if String.eqb k' k then Some v else obj_lookup fs' k
  end.

Definition obj_get (fs : list (string * JSValue)) (k : string) : JSValue :=
  default VUndef (obj_lookup fs k).

(** Assignment to a property keeps the position of a key already there. *)
Fixpoint obj_set (fs : list (string * JSValue)) (k : string) (v : JSValue)
  : list (string * JSValue) :=
  match fs with
  | [] => [(k, v)]
  | (k', v') :: fs' =>
      if String.eqb k' k then (k, v) :: fs' else (k', v') :: obj_set fs' k v
  end.

(** [v.k] for the property names the script reads.  None of them is
    inherited by a string, a number, a boolean or an array, so only
    objects answer with something other than [undefined]; reading a
    property of [null] or [undefined] is a [TypeError]. *)
Definition getprop (v : JSValue) (k : string) : Outcome JSValue :=
  match v with
  | VUndef | VNull => Throw TypeError
  | VObj fs => Ret (obj_get fs k)
  | _ => Ret VUndef
  end.

(** [k in v]: a [TypeError] unless [v] is an object (arrays are objects). *)
Definition hasprop (k : string) (v : JSValue) : Outcome bool :=
  match v with
  | VObj fs => Ret (bool_decide (is_Some (obj_lookup fs k)))
  | VArr _ => Ret false
  | _ => Throw TypeError
  end.

(** The own enumerable properties an object spread [{...v}] copies. *)
Definition own_props (v : JSValue) : list (string * JSValue) :=
  match v with
  | VObj fs => fs
  | VArr l => imap (fun i x => (pretty i, x)) l
  | VStr s => imap (fun i c => (pretty i, VStr (String c ""))) (String.list_ascii_of_string s)
  | _ => []
  end.

Definition obj_assign (target src : list (string * JSValue)) : list (string * JSValue) :=
  fold_left (fun acc kv => obj_set acc kv.1 kv.2) src target.

Section Bridge.
Context {rt : Runtime}.

(** [String(v)].  An array joins its elements with commas, [null] and
    [undefined] elements giving the empty string. *)
Fixpoint ToString (v : JSValue) : string :=
  match v with
  | VUndef => "undefined"
  | VNull => "null"
  | VBool true => "true"
  | VBool false => "false"
  | VNum x => NumberToString x
  | VStr s => s
  | VArr l =>
      String.concat ","
        (List.map (fun x => if is_nullish x then "" else ToString x) l)
  | VObj _ => "[object Object]"
  end.

(** [Number(v)].  Arrays and objects go through their string. *)
Definition ToNumber (v : JSValue) : float :=
  match v with
  | VUndef => PrimFloat.nan
  | VNull => 0%float
  | VBool true => 1%float
  | VBool false => 0%float
  | VNum x => x
  | VStr s => StringToNumber s
  | VArr _ | VObj _ => StringToNumber (ToString v)
  end.

(** [Number(v) || d]. *)
Definition number_or (v : JSValue) (d : float) : JSValue :=
  js_or (VNum (ToNumber v)) (VNum d).

(** [a + b] where [a] is a string. *)
Definition str_plus (a : string) (b : JSValue) : JSValue :=
  VStr (a ++ ToString b).

(** ** The browser *)

Definition get_supabase : M (option Client) := fun w => (Ret (supabase w), w).

(** [await] of a request made on the client: the request is sent, and
    the caller resumes with the answer or throws the rejection. *)
Definition await (c : Client) (q : Request) : M JSValue :=
  fun w =>
    match respond c (requests w) q with
    | Fulfilled v => (Ret v, log_request q w)
    | Rejected e => (Throw e, log_request q w)
    end.

(** [localStorage.getItem(k)]: the stored string, or [null]. *)
Definition getItem (k : string) : M JSValue :=
  fun w =>
    if storage_available
    then (Ret (from_option VStr VNull (storage w !! k)), w)
    else (Throw SecurityError, w).

(** [localStorage.setItem(k, s)]. *)
Definition setItem (k s : string) : M unit :=
  fun w =>
    if storage_available then
      if storage_fits (storage w) k s
      then (Ret tt, store_item k s w)
      else (Throw QuotaExceededError, w)
    else (Throw SecurityError, w).

(** [document.dispatchEvent(new Event(name))]. *)
Definition dispatchEvent (name : string) : M unit :=
  fun w => (Ret tt, emit name w).

(** [location.href = url]. *)
Definition set_location_href (url : JSValue) : M unit :=
  fun w => (Ret tt, navigate url w).

(** [Date.now()]: one reading of the clock. *)
Definition Date_now : M JSValue :=
  fun w => (Ret (VNum (clock (ticks w))), tick w).

(** ** LocalStorage helpers (safe JSON) *)

(** [LS.get(k, def)]:
    [try{ return JSON.parse(localStorage.getItem(k)) ?? def; }catch{ return def; }].
    [JSON.parse] takes the string of its argument, so a missing key is
    parsed as the text [null]. *)
Definition LS_get (k : string) (def : JSValue) : M JSValue :=
  try_catch
    (let! item := getItem k in
     let! v := lift (JSON_parse (ToString item)) in
     ret (js_coalesce v def))
    (ret def).

(** [LS.set(k, v)]:
    [try{ localStorage.setItem(k, JSON.stringify(v)); }catch{}].
    [setItem] stores the string of what it is given. *)
Definition LS_set (k : string) (v : JSValue) : M unit :=
  try_catch
    (let! s := lift (JSON_stringify v) in
     setItem k (ToString (from_option VStr VUndef s)))
    (ret tt).

(** [nowISO = () => new Date().toISOString()]. *)
Definition nowISO : M JSValue :=
  let! t := Date_now in
  ret (VStr (toISOString (ToNumber t))).

(** [fireSyncedEvent()]. *)
Definition fireSyncedEvent : M unit :=
  try_catch (dispatchEvent "sb:admin-synced") (ret tt).

(** ** Array methods with callbacks that may throw *)

Fixpoint mapM {A B} (f : A -> M B) (l : list A) : M (list B) :=
  match l with
  | [] => ret []
  | x :: l' =>
      let! y := f x in
      let! ys := mapM f l' in
      ret (y :: ys)
  end.

Fixpoint filterO {A} (p : A -> Outcome bool) (l : list A) : Outcome (list A) :=
  match l with
  | [] => Ret []
  | x :: l' =>
      let? b := p x in
      let? r := filterO p l' in
      Ret (if b then x :: r else r)
  end.

(** The index of the first element satisfying [p]; [None] is -1. *)
Fixpoint findIndexO {A} (p : A -> Outcome bool) (l : list A) : Outcome (option nat) :=
  match l with
  | [] => Ret None
  | x :: l' =>
      let? b := p x in
      if b then Ret (Some 0)
      else let? r := findIndexO p l' in Ret (S <$> r)
  end.

(** [v.map(f)], [v.filter(p)], [v.findIndex(p)], [v.unshift(x)]: on
    anything but an array the method is missing and the call is a
    [TypeError]. *)
Definition array_map (f : JSValue -> M JSValue) (v : JSValue) : M JSValue :=
  match v with
  | VArr l => let! l' := mapM f l in ret (VArr l')
  | _ => throw TypeError
  end.

Definition array_filter (p : JSValue -> Outcome bool) (v : JSValue) : Outcome JSValue :=
  match v with
  | VArr l => let? l' := filterO p l in Ret (VArr l')
  | _ => Throw TypeError
  end.

Definition array_findIndex (p : JSValue -> Outcome bool) (v : JSValue)
  : Outcome (option nat) :=
  match v with
  | VArr l => findIndexO p l
  | _ => Throw TypeError
  end.

Definition array_unshift (x : JSValue) (v : JSValue) : Outcome JSValue :=
  match v with
  | VArr l => Ret (VArr (x :: l))
  | _ => Throw TypeError
  end.

(** [if (r.error) throw r.error;] *)
Definition throw_if_error (r : JSValue) : M unit :=
  let! e := lift (getprop r "error") in
  if truthy e then throw (ExnValue e) else ret tt.

(** ** PUBLIC: catalog for the front site *)

(** The column list of the select; [desc] is quoted in the source. *)
Definition dquote : string := String (Ascii.ascii_of_nat 34) EmptyString.

Definition menu_items_columns : string :=
  "id,name," ++ dquote ++ "desc" ++ dquote
  ++ ",price,img,cat_id,available,fresh,rating_avg,rating_count,created_at".

Definition categories_query : Request :=
  Query "categories" [q_select "id,name,sort"; q_order "sort" true].

Definition menu_items_query : Request :=
  Query "menu_items"
    [q_select menu_items_columns; q_eq "available" (VBool true);
     q_order "created_at" false].

(** The callback of [items.data.map]. *)
Definition adapt_item (it : JSValue) : Outcome JSValue :=
  let? id := getprop it "id" in
  let? name := getprop it "name" in
  let? desc := getprop it "desc" in
  let? desc' := getprop it "desc" in
  let? price := getprop it "price" in
  let? img := getprop it "img" in
  let? cat_id := getprop it "cat_id" in
  let? available := getprop it "available" in
  let? fresh := getprop it "fresh" in
  let? rating_avg := getprop it "rating_avg" in
  let? rating_count := getprop it "rating_count" in
  let? created_at := getprop it "created_at" in
  Ret (VObj
    [("id", id);
     ("name", name);
     ("desc", js_coalesce (js_coalesce desc desc') (VStr ""));
     ("price", number_or price 0);
     ("img", js_or img (VStr ""));
     ("cat_id", js_or cat_id VNull);
     ("available", js_bool available);
     ("fresh", js_bool fresh);
     ("rating_avg", number_or rating_avg 0);
     ("rating_count", number_or rating_count 0);
     ("created_at", created_at)]).

Definition syncPublicCatalogToLocal : M JSValue :=
  let! sb := get_supabase in
  match sb with
  | None => ret VUndef
  | Some sb =>
      let! cats := await sb categories_query in
      throw_if_error cats >>
      let! items := await sb menu_items_query in
      throw_if_error items >>
      let! items_data := lift (getprop items "data") in
      let! adapted :=
        array_map (fun it => lift (adapt_item it)) (js_or items_data (VArr [])) in
      let! cats_data := lift (getprop cats "data") in
      LS_set "categories" (js_or cats_data (VArr [])) >>
      LS_set "menuItemsVisible" adapted >>
      let! cats_data' := lift (getprop cats "data") in
      ret (VObj [("categories", js_or cats_data' (VArr [])); ("items", adapted)])
  end.

(** ** AUTH / ADMIN GUARDS *)

(** [sb.m(...)] where [sb] was read from [window.supabase]: a call on a
    missing client is a [TypeError]. *)
Definition await_global (q : Request) : M JSValue :=
  let! sb := get_supabase in
  match sb with
  | None => throw TypeError
  | Some sb => await sb q
  end.

Definition isCurrentUserAdminRPC (uid : JSValue) : M JSValue :=
  try_catch
    (let! r := await_global (Rpc "is_admin" (VObj [("u", uid)])) in
     let! data := lift (getprop r "data") in
     let! error := lift (getprop r "error") in
     if truthy error then ret (VBool false)
     else ret (js_bool data))
    (ret (VBool false)).

Definition probe_query : Request :=
  Query "reservations" [q_select "id"; q_limit 1].

Definition probeAdminBySelect : M JSValue :=
  try_catch
    (let! r := await_global probe_query in
     let! error := lift (getprop r "error") in
     ret (VBool (negb (truthy error))))
    (ret (VBool false)).

(** [a?.k]. *)
Definition optprop (v : JSValue) (k : string) : Outcome JSValue :=
  if is_nullish v then Ret VUndef else getprop v k.

(** [try{ location.href = loginUrl; }catch{} return false;] *)
Definition redirect_to (loginUrl : JSValue) : M JSValue :=
  try_catch (set_location_href loginUrl) (ret tt) >>
  ret (VBool false).

Definition requireAdminOrRedirect (loginUrl : JSValue) : M JSValue :=
  let loginUrl := default_arg loginUrl (VStr "login.html") in
  let! sb := get_supabase in
  match sb with
  | None => ret (VBool false)
  | Some sb =>
      let! r := await sb GetSession in
      let! data := lift (getprop r "data") in
      let! session := lift (getprop data "session") in
      let! user := lift (optprop session "user") in
      let! id := lift (optprop user "id") in
      if negb (truthy id) then redirect_to loginUrl
      else
        let! user' := lift (getprop session "user") in
        let! uid := lift (getprop user' "id") in
        let! rpc := isCurrentUserAdminRPC uid in
        let! ok := (if truthy rpc then ret rpc else probeAdminBySelect) in
        if negb (truthy ok) then redirect_to loginUrl
        else ret (VBool true)
  end.

(** ** ADMIN SYNC: pull server data into LS for the UI *)

Definition reservations_columns : string :=
  "id,name,phone,date,people,status,notes,table_no,duration_minutes".

Definition reservations_query : Request :=
  Query "reservations" [q_select reservations_columns; q_order "date" true].

(** The callback of [rs.data.map]; [nowISO()] is read once per row. *)
Definition adapt_reservation (r : JSValue) : M JSValue :=
  let! id := lift (getprop r "id") in
  let! name := lift (getprop r "name") in
  let! phone := lift (getprop r "phone") in
  let! date := lift (getprop r "date") in
  let! people := lift (getprop r "people") in
  let! status := lift (getprop r "status") in
  let! notes := lift (getprop r "notes") in
  let! table_no := lift (getprop r "table_no") in
  let! duration_minutes := lift (getprop r "duration_minutes") in
  let! now := nowISO in
  ret (VObj
    [("id", id);
     ("name", name);
     ("phone", js_or phone (VStr ""));
     ("date", date);
     ("people", number_or people 1);
     ("status", js_or status (VStr "new"));
     ("notes", js_or notes (VStr ""));
     ("table", js_or table_no (VStr ""));
     ("duration", number_or duration_minutes 90);
     ("updatedAt", now)]).

Definition syncAdminDataToLocal : M JSValue :=
  let! sb := get_supabase in
  match sb with
  | None => ret VUndef
  | Some sb =>
      let! rs := await sb reservations_query in
      throw_if_error rs >>
      let! rs_data := lift (getprop rs "data") in
      let! reservations := array_map adapt_reservation (js_or rs_data (VArr [])) in
      LS_set "reservations" reservations >>
      fireSyncedEvent >>
      ret (VObj [("reservations", reservations)])
  end.

(** ** RESERVATIONS CRUD *)

Definition insert_query (row : JSValue) : Request :=
  Query "reservations" [q_insert (VArr [row])].

(** The parameter is destructured, with its defaults, when the function is
    entered: before the client is looked up. *)
Definition createReservationSB (payload : JSValue) : M JSValue :=
  let! name := lift (getprop payload "name") in
  let! phone := lift (getprop payload "phone") in
  let! iso := lift (getprop payload "iso") in
  let! people := lift (getprop payload "people") in
  let! kind := lift (getprop payload "kind") in
  let kind := default_arg kind (VStr "table") in
  let! table := lift (getprop payload "table") in
  let table := default_arg table (VStr "") in
  let! notes := lift (getprop payload "notes") in
  let notes := default_arg notes (VStr "") in
  let! duration_minutes := lift (getprop payload "duration_minutes") in
  let duration_minutes := default_arg duration_minutes (VNum 90) in
  let! sb := get_supabase in
  match sb with
  | None => ret VUndef
  | Some sb =>
      let! ins := await sb (insert_query (VObj
        [("name", name); ("phone", phone); ("date", iso); ("people", people);
         ("kind", kind); ("table_no", table);
         ("duration_minutes", duration_minutes); ("notes", notes)])) in
      throw_if_error ins >>
      let! list := LS_get "reservations" (VArr []) in
      let! stamp := Date_now in
      let! now := nowISO in
      let optimistic := VObj
        [("id", str_plus "tmp_" stamp);
         ("name", name); ("phone", phone); ("date", iso); ("people", people);
         ("status", VStr "new"); ("notes", js_or notes (VStr ""));
         ("table", js_or table (VStr ""));
         ("duration", number_or duration_minutes 90);
         ("updatedAt", now)] in
      let! list := lift (array_unshift optimistic list) in
      LS_set "reservations" list >>
      fireSyncedEvent >>
      ret (VBool true)
  end.

Definition update_query (id fields : JSValue) : Request :=
  Query "reservations"
    [q_update fields; q_eq "id" id; q_select reservations_columns; q_single].

(** [r => String(r.id) === String(id)] *)
Definition same_id (id : JSValue) (r : JSValue) : Outcome bool :=
  let? rid := getprop r "id" in
  Ret (String.eqb (ToString rid) (ToString id)).

(** [if (k in f) patch.k' = f.k;] *)
Definition patch_field (f : JSValue) (k k' : string)
    (patch : list (string * JSValue)) : Outcome (list (string * JSValue)) :=
  let? present := hasprop k f in
  if present then let? v := getprop f k in Ret (obj_set patch k' v)
  else Ret patch.

Definition build_patch (f : JSValue) : Outcome (list (string * JSValue)) :=
  let patch := [] in
  let? patch := patch_field f "name" "name" patch in
  let? patch := patch_field f "phone" "phone" patch in
  let? patch := patch_field f "date" "date" patch in
  let? patch := patch_field f "people" "people" patch in
  let? patch := patch_field f "status" "status" patch in
  let? patch := patch_field f "notes" "notes" patch in
  let? patch := patch_field f "table_no" "table" patch in
  let? patch := patch_field f "duration_minutes" "duration" patch in
  Ret patch.

Definition updateReservationSB (id fields : JSValue) : M JSValue :=
  let fields := default_arg fields (VObj []) in
  let! sb := get_supabase in
  match sb with
  | None => ret VUndef
  | Some sb =>
      let! up := await sb (update_query id fields) in
      throw_if_error up >>
      let! list := LS_get "reservations" (VArr []) in
      let! i := lift (array_findIndex (same_id id) list) in
      match i, list with
      | Some i, VArr l =>
          let f := js_or fields (VObj []) in
          let! patch := lift (build_patch f) in
          let! now := nowISO in
          let entry := VObj
            (obj_set (obj_assign (own_props (default VUndef (l !! i))) patch)
                     "updatedAt" now) in
          LS_set "reservations" (VArr (<[i := entry]> l)) >>
          fireSyncedEvent
      | _, _ => ret tt
      end >>
      lift (getprop up "data")
  end.

Definition delete_query (id : JSValue) : Request :=
  Query "reservations" [q_delete; q_eq "id" id].

(** [r => String(r.id) !== String(id)] *)
Definition other_id (id : JSValue) (r : JSValue) : Outcome bool :=
  let? rid := getprop r "id" in
  Ret (negb (String.eqb (ToString rid) (ToString id))).

Definition deleteReservationSB (id : JSValue) : M JSValue :=
  let! sb := get_supabase in
  match sb with
  | None => ret VUndef
  | Some sb =>
      let! del := await sb (delete_query id) in
      throw_if_error del >>
      let! list := LS_get "reservations" (VArr []) in
      let! next := lift (array_filter (other_id id) list) in
      LS_set "reservations" next >>
      fireSyncedEvent >>
      ret (VBool true)
  end.

(** ** What the helpers compute, as functions of the world *)

(** The value [LS.get(k, def)] returns. *)
Definition LS_read (k : string) (def : JSValue) (w : World) : JSValue :=
  if storage_available then
    match JSON_parse (ToString (from_option VStr VNull (storage w !! k))) with
    | Ret v => js_coalesce v def
    | Throw _ => def
    end
  else def.

(** The world [LS.set(k, v)] leaves. *)
Definition LS_store (k : string) (v : JSValue) (w : World) : World :=
  match JSON_stringify v with
  | Ret s =>
      let text := ToString (from_option VStr VUndef s) in
      if storage_available && storage_fits (storage w) k text
      then store_item k text w
      else w
  | Throw _ => w
  end.

(** [v.k] when [v] is known not to be null or undefined. *)
Definition field (v : JSValue) (k : string) : JSValue :=
  match getprop v k with
  | Ret x => x
  | Throw _ => VUndef
  end.

(** The entry [adapt_reservation] builds from [r] when the clock shows [t]. *)
Definition reservation_of_row (r : JSValue) (t : float) : JSValue :=
  VObj
    [("id", field r "id");
     ("name", field r "name");
     ("phone", js_or (field r "phone") (VStr ""));
     ("date", field r "date");
     ("people", number_or (field r "people") 1);
     ("status", js_or (field r "status") (VStr "new"));
     ("notes", js_or (field r "notes") (VStr ""));
     ("table", js_or (field r "table_no") (VStr ""));
     ("duration", number_or (field r "duration_minutes") 90);
     ("updatedAt", VStr (toISOString t))].

Fixpoint tick_n (n : nat) (w : World) : World :=
  match n with
  | 0 => w
  | S n' => tick_n n' (tick w)
  end.

(** The item [adapt_item] builds from the row [it]. *)
Definition item_of_row (it : JSValue) : JSValue :=
  VObj
    [("id", field it "id");
     ("name", field it "name");
     ("desc", js_coalesce (js_coalesce (field it "desc") (field it "desc")) (VStr ""));
     ("price", number_or (field it "price") 0);
     ("img", js_or (field it "img") (VStr ""));
     ("cat_id", js_or (field it "cat_id") VNull);
     ("available", js_bool (field it "available"));
     ("fresh", js_bool (field it "fresh"));
     ("rating_avg", number_or (field it "rating_avg") 0);
     ("rating_count", number_or (field it "rating_count") 0);
     ("created_at", field it "created_at")].

(** The row [createReservationSB] sends, and the entry it puts in the
    cache when [Date.now()] gives [stamp] and [nowISO()] reads [now]. *)
Definition insert_row (payload : JSValue) : JSValue :=
  VObj
    [("name", field payload "name");
     ("phone", field payload "phone");
     ("date", field payload "iso");
     ("people", field payload "people");
     ("kind", default_arg (field payload "kind") (VStr "table"));
     ("table_no", default_arg (field payload "table") (VStr ""));
     ("duration_minutes", default_arg (field payload "duration_minutes") (VNum 90));
     ("notes", default_arg (field payload "notes") (VStr ""))].

Definition optimistic_entry (payload : JSValue) (stamp now : float) : JSValue :=
  VObj
    [("id", str_plus "tmp_" (VNum stamp));
     ("name", field payload "name");
     ("phone", field payload "phone");
     ("date", field payload "iso");
     ("people", field payload "people");
     ("status", VStr "new");
     ("notes", js_or (default_arg (field payload "notes") (VStr "")) (VStr ""));
     ("table", js_or (default_arg (field payload "table") (VStr "")) (VStr ""));
     ("duration",
      number_or (default_arg (field payload "duration_minutes") (VNum 90)) 90);
     ("updatedAt", VStr (toISOString now))].

(** The server column a cache field is patched from. *)
Definition server_column (k : string) : option string :=
  if String.eqb k "name" then Some "name"
  else if String.eqb k "phone" then Some "phone"
  else if String.eqb k "date" then Some "date"
  else if String.eqb k "people" then Some "people"
  else if String.eqb k "status" then Some "status"
  else if String.eqb k "notes" then Some "notes"
  else if String.eqb k "table" then Some "table_no"
  else if String.eqb k "duration" then Some "duration_minutes"
  else None.

(** The patch [build_patch] makes from the fields [ffs] of an object. *)
Definition patch_one (ffs : list (string * JSValue)) (k k' : string)
    (patch : list (string * JSValue)) : list (string * JSValue) :=
  match obj_lookup ffs k with
  | Some v => obj_set patch k' v
  | None => patch
  end.

Definition patch_of (ffs : list (string * JSValue)) : list (string * JSValue) :=
  patch_one ffs "duration_minutes" "duration"
    (patch_one ffs "table_no" "table"
      (patch_one ffs "notes" "notes"
        (patch_one ffs "status" "status"
          (patch_one ffs "people" "people"
            (patch_one ffs "date" "date"
              (patch_one ffs "phone" "phone"
                (patch_one ffs "name" "name" []))))))).

(** [a?.k], as a value. *)
Definition opt_field (v : JSValue) (k : string) : JSValue :=
  if is_nullish v then VUndef else field v k.

(** The ways [LS.set(k, v)] can fail in the world [w]. *)
Definition set_fails (k : string) (v : JSValue) (w : World) : Prop :=
  (exists e, JSON_stringify v = Throw e) \/
  storage_available = false \/
  (exists s, JSON_stringify v = Ret s /\
     storage_fits (storage w) k (ToString (from_option VStr VUndef s)) = false).

(** ** The cache and the event log across a computation *)

Definition cache_untouched (w w' : World) : Prop :=
  storage w' = storage w /\ events w' = events w.

(** [m] neither writes to the store nor dispatches, however it ends. *)
Definition preserves_cache {A} (m : M A) : Prop :=
  forall w o w', m w = (o, w') -> cache_untouched w w'.

(** Whenever [m] throws, it has neither written nor dispatched. *)
Definition throws_before_write {A} (m : M A) : Prop :=
  forall w e w', m w = (Throw e, w') -> cache_untouched w w'.

Definition never_throws {A} (m : M A) : Prop :=
  forall w, exists a w', m w = (Ret a, w').

(** ** Answers of the backend *)

(** The answer carries no error: [r.error] is falsy. *)
Definition ok_response (r : JSValue) : Prop :=
  exists e, getprop r "error" = Ret e /\ truthy e = false.

(** The answer reports the error [e]: [r.error] is [e] and truthy. *)
Definition reports_error (r e : JSValue) : Prop :=
  getprop r "error" = Ret e /\ truthy e = true.

(** The privileged check affirms: answered, no error, truthy data. *)
Definition rpc_affirms (a : Await) : bool :=
  match a with
  | Fulfilled r =>
      match getprop r "data", getprop r "error" with
      | Ret d, Ret e => negb (truthy e) && truthy d
      | _, _ => false
      end
  | Rejected _ => false
  end.

(** The restricted read went through: answered, no error. *)
Definition probe_succeeds (a : Await) : bool :=
  match a with
  | Fulfilled r =>
      match getprop r "error" with
      | Ret e => negb (truthy e)
      | Throw _ => false
      end
  | Rejected _ => false
  end.

(** ** What a computation may touch *)

(** The parts of the world a computation is allowed to change. *)
Record Footprint : Type := {
  may_request : bool;
  may_store : string -> bool;
  may_emit : bool;
  may_redirect : bool;
  may_tick : bool
}.

(** [w'] differs from [w] at most where [fp] allows; the client is never
    replaced. *)
Definition within (fp : Footprint) (w w' : World) : Prop :=
  supabase w' = supabase w /\
  (may_request fp = false -> requests w' = requests w) /\
  (forall k, may_store fp k = false -> storage w' !! k = storage w !! k) /\
  (may_emit fp = false -> events w' = events w) /\
  (may_redirect fp = false -> redirects w' = redirects w) /\
  (may_tick fp = false -> ticks w' = ticks w).

Definition stays_within {A} (fp : Footprint) (m : M A) : Prop :=
  forall w o w', m w = (o, w') -> within fp w w'.

(** Requests only. *)
Definition fp_requests : Footprint :=
  {| may_request := true; may_store := fun _ => false; may_emit := false;
     may_redirect := false; may_tick := false |}.

(** Everything but requests. *)
Definition fp_local : Footprint :=
  {| may_request := false; may_store := fun _ => true; may_emit := true;
     may_redirect := true; may_tick := true |}.

(** The reservation operations: requests, the key [reservations], the
    event and the clock. *)
Definition fp_reservations : Footprint :=
  {| may_request := true; may_store := fun k => String.eqb k "reservations";
     may_emit := true; may_redirect := false; may_tick := true |}.

(** The catalog sync: requests and its two keys. *)
Definition fp_catalog : Footprint :=
  {| may_request := true;
     may_store := fun k => String.eqb k "categories" || String.eqb k "menuItemsVisible";
     may_emit := false; may_redirect := false; may_tick := false |}.

(** Two worlds that look the same to a computation that does not read
    the store: same client, same requests sent, same clock. *)
Definition same_view (w1 w2 : World) : Prop :=
  supabase w1 = supabase w2 /\ requests w1 = requests w2 /\ ticks w1 = ticks w2.


(** [Array.isArray(v)]. *)
Definition is_array (v : JSValue) : bool :=
  match v with
  | VArr _ => true
  | _ => false
  end.

End Bridge.

(** ** A sample runtime, to run the model on concrete inputs *)

Module Sample.

Definition digit_float (c : Ascii.ascii) : option float :=
  match (Ascii.nat_of_ascii c - 48)%nat, Nat.ltb (Ascii.nat_of_ascii c) 48 with
  | _, true => None
  | 0, _ => Some 0%float
  | 1, _ => Some 1%float
  | 2, _ => Some 2%float
  | 3, _ => Some 3%float
  | 4, _ => Some 4%float
  | 5, _ => Some 5%float
  | 6, _ => Some 6%float
  | 7, _ => Some 7%float
  | 8, _ => Some 8%float
  | 9, _ => Some 9%float
  | _, _ => None
  end.

Fixpoint digits_float (s : string) (acc : float) : float :=
  match s with
  | EmptyString => acc
  | String c s' =>
      match digit_float c with
      | Some d => digits_float s' (acc * 10 + d)%float
      | None => PrimFloat.nan
      end
  end.

(** Decimal digits only; the empty string is 0 and the rest is NaN. *)
Definition string_to_number (s : string) : float := digits_float s 0%float.

(** Integers are printed in decimal; a fraction is cut off. *)
Definition number_to_string (x : float) : string :=
  match Prim2SF x with
  | S754_zero _ => "0"
  | S754_infinity false => "Infinity"
  | S754_infinity true => "-Infinity"
  | S754_nan => "NaN"
  | S754_finite sgn m e =>
      let z := if (0 <=? e)%Z then (Z.pos m * 2 ^ e)%Z
               else (Z.pos m / 2 ^ (- e))%Z in
      (if sgn then "-" else "") ++ pretty z
  end.

Definition quoted (s : string) : string := dquote ++ s ++ dquote.

(** A printer in the manner of [JSON.stringify] (strings are not escaped);
    [None] is its [undefined]. *)
Fixpoint stringify (v : JSValue) : option string :=
  match v with
  | VUndef => None
  | VNull => Some "null"
  | VBool true => Some "true"
  | VBool false => Some "false"
  | VNum x =>
      match Prim2SF x with
      | S754_nan | S754_infinity _ => Some "null"
      | _ => Some (number_to_string x)
      end
  | VStr s => Some (quoted s)
  | VArr l =>
      Some ("[" ++ String.concat "," (List.map (fun x => default "null" (stringify x)) l)
                ++ "]")
  | VObj fs =>
      Some ("{" ++ String.concat ","
                     (List.flat_map
                        (fun kv => match stringify kv.2 with
                                   | Some t => [quoted kv.1 ++ ":" ++ t]
                                   | None => []
                                   end) fs)
                ++ "}")
  end.

(** The texts the sample parser knows: those printed from [known]. *)
Fixpoint parse_among (known : list JSValue) (s : string) : Outcome JSValue :=
  match known with
  | [] => Throw SyntaxError
  | v :: known' =>
      if bool_decide (stringify v = Some s) then Ret v else parse_among known' s
  end.

Definition reservation_fields (id name status : string) : list (string * JSValue) :=
  [("id", VStr id); ("name", VStr name); ("phone", VStr "555");
   ("date", VStr "2024-01-01T10:00:00Z"); ("people", VNum 2);
   ("status", VStr status); ("notes", VStr ""); ("table", VStr "T1");
   ("duration", VNum 90); ("updatedAt", VStr "2024-01-01T09:00:00.000Z")].

Definition reservation (id name status : string) : JSValue :=
  VObj (reservation_fields id name status).

Definition cached_list : list JSValue :=
  [reservation "r1" "Ann" "new"; reservation "r2" "Bob" "new";
   reservation "r3" "Cyd" "confirmed"].

Definition known_values : list JSValue :=
  [VNull; VBool false; VNum 0; VStr ""; VArr []; VArr cached_list].

Definition clock_at (n : nat) : float :=
  match n with
  | 0 => 1700000000000%float
  | 1 => 1700000000001%float
  | 2 => 1700000000002%float
  | _ => 1700000000003%float
  end.

(** Storage of [capacity] characters per item. *)
Definition runtime (available : bool) (capacity : nat) : Runtime := {|
  StringToNumber := string_to_number;
  NumberToString := number_to_string;
  JSON_parse := parse_among known_values;
  JSON_stringify := fun v => Ret (stringify v);
  toISOString := fun t => "T" ++ number_to_string t;
  clock := clock_at;
  storage_available := available;
  storage_fits := fun _ _ s => Nat.leb (String.length s) capacity;
  JSON_parse_null := eq_refl
|}.

(** Answers of a backend, and clients that give them. *)
Definition answer (data : JSValue) : JSValue :=
  VObj [("data", data); ("error", VNull)].

Definition refusal : JSValue := VObj [("message", VStr "permission denied")].

Definition answer_error : JSValue := VObj [("data", VNull); ("error", refusal)].

Definition client_ok (data : JSValue) : Client :=
  {| respond := fun _ _ => Fulfilled (answer data) |}.

(** Answers [n] requests, then reports an error. *)
Definition client_failing_after (n : nat) (data : JSValue) : Client :=
  {| respond := fun sent _ =>
       if Nat.ltb (length sent) n then Fulfilled (answer data)
       else Fulfilled answer_error |}.

Definition session_of (uid : string) : JSValue :=
  VObj [("user", VObj [("id", VStr uid)])].

(** A client for the guard: the session it holds, what [is_admin] gives,
    and whether [reservations] can be read. *)
Definition guard_client (session : JSValue) (is_admin : Await) (readable : bool)
  : Client :=
  {| respond := fun _ q =>
       match q with
       | GetSession => Fulfilled (answer (VObj [("session", session)]))
       | Rpc _ _ => is_admin
       | Query _ _ =>
           Fulfilled (if readable then answer (VArr []) else answer_error)
       end |}.

Definition stored_text : string := default "" (stringify (VArr cached_list)).

Definition stored : gmap string string := {[ "reservations" := stored_text ]}.

Definition world (c : option Client) (m : gmap string string) : World :=
  mkWorld c m [] [] 0 [].

Definition menu_rows : list JSValue :=
  [VObj [("id", VNum 1); ("name", VStr "Soup"); ("desc", VStr "hot");
         ("price", VStr "12"); ("img", VStr "soup.png"); ("cat_id", VNum 3);
         ("available", VBool true); ("fresh", VNum 1);
         ("rating_avg", VNum 4); ("rating_count", VNum 10);
         ("created_at", VStr "2024-01-01")];
   VObj [("id", VNum 2); ("name", VStr "Tea"); ("desc", VNull);
         ("price", VStr "n/a"); ("available", VBool true)]].

Definition reservation_rows : list JSValue :=
  [VObj [("id", VNum 7); ("name", VStr "Ann"); ("phone", VStr "555");
         ("date", VStr "2024-01-01T10:00:00Z"); ("people", VNum 4);
         ("status", VStr "confirmed"); ("notes", VStr "window");
         ("table_no", VStr "T4"); ("duration_minutes", VNum 60)];
   VObj [("id", VNum 8); ("name", VStr "Bob");
         ("date", VStr "2024-01-02T10:00:00Z")]].

Definition payload : JSValue :=
  VObj [("name", VStr "A"); ("phone", VStr "1");
        ("iso", VStr "2024-01-01T10:00:00Z"); ("people", VNum 2)].

Definition confirm : list (string * JSValue) := [("status", VStr "confirmed")].

(** Sample worlds: the guard's four situations, the catalog, and the
    reservation operations on a cache of three entries. *)
Definition w_guest : World :=
  world (Some (guard_client VNull (Rejected TypeError) true)) stored.
Definition w_admin : World :=
  world (Some (guard_client (session_of "u1") (Fulfilled (answer (VBool true))) false))
        stored.
Definition w_probe : World :=
  world (Some (guard_client (session_of "u1") (Fulfilled answer_error) true)) stored.
Definition w_denied : World :=
  world (Some (guard_client (session_of "u1") (Fulfilled (answer (VBool false))) false))
        stored.
Definition w_catalog : World := world (Some (client_ok (VArr menu_rows))) ∅.
Definition w_rows : World := world (Some (client_ok (VArr reservation_rows))) ∅.
Definition w_known : World :=
  world (Some (client_ok (reservation "r2" "Bob" "confirmed"))) stored.
Definition w_unknown : World :=
  world (Some (client_ok (reservation "r9" "Zed" "confirmed"))) stored.
Definition w_create : World := world (Some (client_ok VNull)) stored.
Definition w_failing : World :=
  world (Some (client_failing_after 0 VNull)) stored.
Definition w_failing_second : World :=
  world (Some (client_failing_after 1 (VArr []))) stored.

(** More sample worlds: a client that rejects every request, a store
    that holds a number where the list should be, the reservation rows
    with a cache already there. *)
Definition client_rejecting : Client :=
  {| respond := fun _ _ => Rejected (ExnValue refusal) |}.
Definition w_rejecting : World := world (Some client_rejecting) stored.
Definition w_corrupt : World :=
  world (Some (client_ok VNull)) {[ "reservations" := "0" ]}.

(** The entry [createReservationSB] makes of [payload] at the first two
    readings of the sample clock. *)
Definition new_entry : JSValue :=
  VObj [("id", VStr "tmp_1700000000000"); ("name", VStr "A");
        ("phone", VStr "1"); ("date", VStr "2024-01-01T10:00:00Z");
        ("people", VNum 2); ("status", VStr "new"); ("notes", VStr "");
        ("table", VStr ""); ("duration", VNum 90);
        ("updatedAt", VStr "T1700000000001")].

(** The sample runtime with a parser that knows the texts of [known]. *)
Definition runtime_knowing (known : list JSValue) (available : bool)
    (capacity : nat) : Runtime := {|
  StringToNumber := string_to_number;
  NumberToString := number_to_string;
  JSON_parse := parse_among (VNull :: known);
  JSON_stringify := fun v => Ret (stringify v);
  toISOString := fun t => "T" ++ number_to_string t;
  clock := clock_at;
  storage_available := available;
  storage_fits := fun _ _ s => Nat.leb (String.length s) capacity;
  JSON_parse_null := eq_refl
|}.

Definition rt_create : Runtime :=
  runtime_knowing [VArr (new_entry :: cached_list); VArr cached_list] true 4000.

(** A browser with room in its store, one with nearly none, and one
    whose store cannot be reached. *)
Definition rt0 : Runtime := runtime true 4000.
Definition rt_small : Runtime := runtime true 3.
Definition rt_off : Runtime := runtime false 4000.

End Sample.

(** ** Loading the script

    What the script does when it is loaded, besides defining its
    functions: it warns on the console when [window.supabase] is
    missing, and publishes [LS] and the six operations on [window]:
[[
    window.LS = window.LS || LS;
    window.supabaseBridge = Object.assign({}, window.supabaseBridge || {}, {...});
]]
    What other scripts have put on [window] is of a type [Foreign] the
    script knows nothing of.  Of the value found at
    [window.supabaseBridge], [Object.assign] and [||] use two things
    only: whether it is truthy, and its own enumerable properties.
    Assigning to a property of [window] does not throw, so the [try]
    around the two statements has nothing to catch. *)

Module Page.

Inductive Operation : Type :=
| op_syncPublicCatalogToLocal
| op_requireAdminOrRedirect
| op_syncAdminDataToLocal
| op_createReservationSB
| op_updateReservationSB
| op_deleteReservationSB.

Fixpoint get {V} (fs : list (string * V)) (k : string) : option V :=
  match fs with
  | [] => None
  | (k', v) :: fs' => if String.eqb k' k then Some v else get fs' k
  end.

Fixpoint put {V} (fs : list (string * V)) (k : string) (v : V) : list (string * V) :=
  match fs with
  | [] => [(k, v)]
  | (k', v') :: fs' =>
      if String.eqb k' k then (k, v) :: fs' else (k', v') :: put fs' k v
  end.

(** [Object.assign(target, src)] on the properties. *)
Definition assign {V} (target src : list (string * V)) : list (string * V) :=
  fold_left (fun acc kv => put acc kv.1 kv.2) src target.

Section Page.
Variable Foreign : Type.

(** A property of the bridge object: a function of this script, or
    something else. *)
Inductive Exposed : Type :=
| theirs (x : Foreign)
| ours (op : Operation).

(** What [window.LS] holds: this script's helper, or something else. *)
Inductive Helper : Type :=
| their_LS (x : Foreign)
| our_LS.

Record Bridge : Type := {
  bridge_truthy : bool;
  bridge_props : list (string * Exposed)
}.

Record Window : Type := {
  has_supabase : bool;          (* window.supabase is truthy *)
  win_LS : option Helper;       (* window.LS, None when falsy *)
  win_supabaseBridge : Bridge;  (* window.supabaseBridge *)
  console : list string         (* console.warn, oldest first *)
}.

Definition warning : string :=
  "[supabase-bridge] Supabase client is missing. Add it in <head> first.".

(** The object literal of the six functions, in source order. *)
Definition operations : list (string * Exposed) :=
  [("syncPublicCatalogToLocal", ours op_syncPublicCatalogToLocal);
   ("requireAdminOrRedirect", ours op_requireAdminOrRedirect);
   ("syncAdminDataToLocal", ours op_syncAdminDataToLocal);
   ("createReservationSB", ours op_createReservationSB);
   ("updateReservationSB", ours op_updateReservationSB);
   ("deleteReservationSB", ours op_deleteReservationSB)].

(** [x || {}], as properties. *)
Definition props_or_empty (b : Bridge) : list (string * Exposed) :=
  if bridge_truthy b then bridge_props b else [].

Definition load (win : Window) : Window :=
  {| has_supabase := has_supabase win;
     win_LS := Some (default our_LS (win_LS win));
     win_supabaseBridge :=
       {| bridge_truthy := true;
          bridge_props :=
            assign (assign [] (props_or_empty (win_supabaseBridge win))) operations |};
     console := if has_supabase win then console win
                else (console win ++ [warning])%list |}.

End Page.

Arguments theirs {Foreign} x.
Arguments ours {Foreign} op.
Arguments their_LS {Foreign} x.
Arguments our_LS {Foreign}.
Arguments bridge_truthy {Foreign} b.
Arguments bridge_props {Foreign} b.
Arguments has_supabase {Foreign} w.
Arguments win_LS {Foreign} w.
Arguments win_supabaseBridge {Foreign} w.
Arguments console {Foreign} w.
Arguments operations {Foreign}.
Arguments props_or_empty {Foreign} b.
Arguments load {Foreign} win.

End Page.

Module SamplePage.

(** A page on which another script has left a bridge object and a
    helper. *)
Definition page : Page.Window string :=
  {| Page.has_supabase := false;
     Page.win_LS := Some (Page.their_LS "older-LS");
     Page.win_supabaseBridge :=
       {| Page.bridge_truthy := true;
          Page.bridge_props :=
            [("version", Page.theirs "v1");
             ("deleteReservationSB", Page.theirs "older-delete")] |};
     Page.console := [] |}.

End SamplePage.

(** * Properties *)

Section Properties.
Context {rt : Runtime}.

(** ** The helpers, as equations on worlds *)

Lemma LS_get_spec (k : string) (def : JSValue) (w : World) :
  LS_get k def w = (Ret (LS_read k def w), w).
Proof.
  unfold LS_get, LS_read, try_catch, bind, getItem, lift, ret.
  destruct storage_available; [|reflexivity].
  destruct (JSON_parse _); reflexivity.
Qed.

Lemma LS_set_spec (k : string) (v : JSValue) (w : World) :
  LS_set k v w = (Ret tt, LS_store k v w).
Proof.
  unfold LS_set, LS_store, try_catch, bind, setItem, lift, ret.
  destruct (JSON_stringify v) as [s|e]; [|reflexivity].
  destruct storage_available; [|reflexivity].
  cbn [andb]. destruct (storage_fits _ _ _); reflexivity.
Qed.

Lemma fireSyncedEvent_spec (w : World) :
  fireSyncedEvent w = (Ret tt, emit "sb:admin-synced" w).
Proof. reflexivity. Qed.

Lemma nowISO_spec (w : World) :
  nowISO w = (Ret (VStr (toISOString (clock (ticks w)))), tick w).
Proof. reflexivity. Qed.

Lemma getprop_field (v : JSValue) (k : string) :
  is_nullish v = false -> getprop v k = Ret (field v k).
Proof. destruct v; cbn; intros; try reflexivity; discriminate. Qed.

Lemma throw_if_error_ok (r : JSValue) (w : World) :
  ok_response r -> throw_if_error r w = (Ret tt, w).
Proof.
  intros (e & He & Hf). unfold throw_if_error, bind, lift.
  rewrite He, Hf. reflexivity.
Qed.

Lemma throw_if_error_reported (r e : JSValue) (w : World) :
  reports_error r e -> throw_if_error r w = (Throw (ExnValue e), w).
Proof.
  intros (He & Hf). unfold throw_if_error, bind, lift.
  rewrite He, Hf. reflexivity.
Qed.

Lemma ok_response_not_nullish (r : JSValue) :
  ok_response r -> is_nullish r = false.
Proof. intros (e & He & _). destruct r; cbn in *; congruence. Qed.

(** The storage after [LS.set]: either the text went in, or nothing changed. *)
Lemma LS_store_cases (k : string) (v : JSValue) (w : World) :
  LS_store k v w = w \/ exists s, LS_store k v w = store_item k s w.
Proof.
  unfold LS_store. destruct (JSON_stringify v); [|by left].
  cbn zeta. destruct (_ && _); [right; eauto | by left].
Qed.

Lemma LS_store_events (k : string) (v : JSValue) (w : World) :
  events (LS_store k v w) = events w.
Proof. destruct (LS_store_cases k v w) as [-> | [s ->]]; reflexivity. Qed.

Lemma LS_store_requests (k : string) (v : JSValue) (w : World) :
  requests (LS_store k v w) = requests w.
Proof. destruct (LS_store_cases k v w) as [-> | [s ->]]; reflexivity. Qed.

(** C8: [LS.get(key, default)] never throws, and answers the default when
    nothing is stored under the key, when the stored text does not parse,
    and when the store cannot be reached; [LS.set(key, value)] never
    throws, and a set that fails (the value cannot be serialised, the
    store is out of reach or refuses the text) leaves the world as it
    was, so that a [get] after a failed set of a key never stored still
    answers the default. *)
Theorem LS_never_throws (k : string) (def v : JSValue) (w : World) :
  (exists r, LS_get k def w = (Ret r, w)) /\
  (storage w !! k = None -> LS_get k def w = (Ret def, w)) /\
  (forall s e, storage w !! k = Some s -> JSON_parse s = Throw e ->
     LS_get k def w = (Ret def, w)) /\
  (storage_available = false -> LS_get k def w = (Ret def, w)) /\
  (exists w', LS_set k v w = (Ret tt, w')) /\
  (set_fails k v w -> LS_set k v w = (Ret tt, w)) /\
  (set_fails k v w -> storage w !! k = None ->
     forall w', LS_set k v w = (Ret tt, w') -> LS_get k def w' = (Ret def, w')).
Proof.
  assert (Habsent : storage w !! k = None -> LS_get k def w = (Ret def, w)).
  { intros H0. rewrite LS_get_spec. unfold LS_read. rewrite H0. cbn.
    rewrite JSON_parse_null. destruct storage_available; reflexivity. }
  assert (Hfail : set_fails k v w -> LS_set k v w = (Ret tt, w)).
  { rewrite LS_set_spec. unfold LS_store.
    intros [[e He] | [Ha | (s & Hs & Hf)]].
    - rewrite He. reflexivity.
    - rewrite Ha. destruct (JSON_stringify v); reflexivity.
    - rewrite Hs. cbn zeta. rewrite Hf, andb_false_r. reflexivity. }
  repeat split.
  - eexists. apply LS_get_spec.
  - apply Habsent.
  - intros s e Hs He. rewrite LS_get_spec. unfold LS_read. rewrite Hs. cbn.
    rewrite He. destruct storage_available; reflexivity.
  - intros Ha. rewrite LS_get_spec. unfold LS_read. rewrite Ha. reflexivity.
  - eexists. apply LS_set_spec.
  - apply Hfail.
  - intros Hf Hn w'. rewrite (Hfail Hf). intros [= <-]. apply Habsent, Hn.
Qed.

(** C10: when the stored text parses to null, [LS.get] answers the
    default, as it does after [LS.set(key, null)] went through; a stored
    false, 0 or empty string is answered as it is, like every parsed
    value other than null and undefined. *)
Theorem LS_get_null_is_default (k s : string) (def : JSValue) (w : World) :
  storage_available = true ->
  storage w !! k = Some s ->
  (JSON_parse s = Ret VNull -> LS_get k def w = (Ret def, w)) /\
  (JSON_parse s = Ret (VBool false) -> LS_get k def w = (Ret (VBool false), w)) /\
  (JSON_parse s = Ret (VNum 0) -> LS_get k def w = (Ret (VNum 0), w)) /\
  (JSON_parse s = Ret (VStr "") -> LS_get k def w = (Ret (VStr ""), w)) /\
  (forall v, JSON_parse s = Ret v -> is_nullish v = false ->
     LS_get k def w = (Ret v, w)) /\
  (forall w0 w1, JSON_stringify VNull = Ret (Some "null") ->
     storage_fits (storage w0) k "null" = true ->
     LS_set k VNull w0 = (Ret tt, w1) ->
     LS_get k def w1 = (Ret def, w1)).
Proof.
  intros Ha Hs.
  assert (Hv : forall v, JSON_parse s = Ret v ->
            LS_get k def w = (Ret (js_coalesce v def), w)).
  { intros v Hp. rewrite LS_get_spec. unfold LS_read. rewrite Ha, Hs. cbn.
    rewrite Hp. reflexivity. }
  repeat split.
  - intros Hp. apply (Hv _ Hp).
  - intros Hp. apply (Hv _ Hp).
  - intros Hp. apply (Hv _ Hp).
  - intros Hp. apply (Hv _ Hp).
  - intros v Hp Hn. rewrite (Hv _ Hp). unfold js_coalesce. rewrite Hn. reflexivity.
  - intros w0 w1 Hj Hfit. rewrite LS_set_spec. intros [= <-].
    rewrite LS_get_spec. unfold LS_read, LS_store. rewrite Hj, Ha. cbn.
    rewrite Hfit. cbn. rewrite lookup_insert_eq. cbn.
    rewrite JSON_parse_null. reflexivity.
Qed.

(** ** Running the script *)

Lemma await_fulfilled (c : Client) (q : Request) (w : World) (v : JSValue) :
  respond c (requests w) q = Fulfilled v ->
  await c q w = (Ret v, log_request q w).
Proof. unfold await. intros ->. reflexivity. Qed.

Ltac run :=
  cbv beta iota zeta delta
    [bind ret lift throw get_supabase obind redirect_to try_catch
     set_location_href].

(** C2, as the script has it: without a backend client every operation
    leaves the world as it found it (no request, no cache write, no
    event, no redirect); the two syncs, update and delete answer
    undefined, as create does for a payload that can be destructured,
    and [requireAdminOrRedirect] answers false. *)
Theorem no_client_is_inert (w : World) (loginUrl id fields payload : JSValue) :
  supabase w = None ->
  syncPublicCatalogToLocal w = (Ret VUndef, w) /\
  requireAdminOrRedirect loginUrl w = (Ret (VBool false), w) /\
  syncAdminDataToLocal w = (Ret VUndef, w) /\
  (is_nullish payload = false -> createReservationSB payload w = (Ret VUndef, w)) /\
  updateReservationSB id fields w = (Ret VUndef, w) /\
  deleteReservationSB id w = (Ret VUndef, w).
Proof.
  intros Hsb. repeat split.
  - unfold syncPublicCatalogToLocal. run. rewrite Hsb. reflexivity.
  - unfold requireAdminOrRedirect. run. rewrite Hsb. reflexivity.
  - unfold syncAdminDataToLocal. run. rewrite Hsb. reflexivity.
  - intros Hp. unfold createReservationSB. run.
    rewrite !(getprop_field payload) by exact Hp. run.
    rewrite Hsb. reflexivity.
  - unfold updateReservationSB. run. rewrite Hsb. reflexivity.
  - unfold deleteReservationSB. run. rewrite Hsb. reflexivity.
Qed.

Lemma LS_read_log_request (k : string) (def : JSValue) (q : Request) (w : World) :
  LS_read k def (log_request q w) = LS_read k def w.
Proof. reflexivity. Qed.

Lemma filterO_other_id (id : JSValue) (l : list JSValue) :
  Forall (fun x => is_nullish x = false) l ->
  filterO (other_id id) l =
    Ret (filter (fun x => ToString (field x "id") <> ToString id) l).
Proof.
  induction 1 as [|x l Hx _ IH]; [reflexivity|].
  cbn [filterO]. unfold other_id at 1. rewrite (getprop_field x) by exact Hx.
  cbn [obind]. rewrite IH. cbn [obind].
  destruct (String.eqb_spec (ToString (field x "id")) (ToString id)) as [He|He]; cbn [negb].
  - rewrite filter_cons_False; [reflexivity | intros Hn; exact (Hn He)].
  - rewrite filter_cons_True; [reflexivity | exact He].
Qed.

(** C5: when the backend delete succeeds, [deleteReservationSB(id)] writes
    back the cached list without the entries whose id has the same string
    as [id]: what stays is exactly the entries with another id, in the
    order they had, each as it was; the event [sb:admin-synced] is
    dispatched once, and the call answers true. *)
Theorem deleteReservationSB_removes_entry
    (w : World) (c : Client) (id r : JSValue) (l : list JSValue) :
  supabase w = Some c ->
  respond c (requests w) (delete_query id) = Fulfilled r ->
  ok_response r ->
  LS_read "reservations" (VArr []) w = VArr l ->
  Forall (fun x => is_nullish x = false) l ->
  let next := filter (fun x => ToString (field x "id") <> ToString id) l in
  let w' := emit "sb:admin-synced"
              (LS_store "reservations" (VArr next) (log_request (delete_query id) w)) in
  deleteReservationSB id w = (Ret (VBool true), w') /\
  (forall x, x ∈ next <-> x ∈ l /\ ToString (field x "id") <> ToString id) /\
  next `sublist_of` l /\
  events w' = (events w ++ ["sb:admin-synced"])%list.
Proof.
  intros Hsb Hresp Hok Hread Hl next w'. split; [|split; [|split]].
  - unfold deleteReservationSB. run. rewrite Hsb. run.
    rewrite (await_fulfilled _ _ _ _ Hresp).
    rewrite (throw_if_error_ok _ _ Hok).
    rewrite LS_get_spec, LS_read_log_request, Hread.
    cbv beta iota delta [array_filter]. rewrite (filterO_other_id id l Hl).
    run. rewrite LS_set_spec, fireSyncedEvent_spec. reflexivity.
  - intros x. subst next. rewrite list_elem_of_filter. tauto.
  - apply sublist_filter.
  - subst w'. cbn [events emit]. rewrite LS_store_events. reflexivity.
Qed.

(** ** Coercions *)

Lemma number_or_cases (v : JSValue) (d : float) :
  number_or v d =
    VNum (if truthy (VNum (ToNumber v)) then ToNumber v else d).
Proof. unfold number_or, js_or. destruct (truthy _); reflexivity. Qed.

Lemma number_or_nan (v : JSValue) (d : float) :
  PrimFloat.is_nan (ToNumber v) = true -> number_or v d = VNum d.
Proof.
  intros Hn. rewrite number_or_cases. cbn [truthy]. rewrite Hn, orb_true_r.
  reflexivity.
Qed.

Lemma number_or_is_number (v : JSValue) (d : float) :
  PrimFloat.is_nan d = false ->
  exists x, number_or v d = VNum x /\ PrimFloat.is_nan x = false.
Proof.
  intros Hd. rewrite number_or_cases. eexists; split; [reflexivity|].
  cbn [truthy]. destruct (PrimFloat.is_nan (ToNumber v)) eqn:Hn.
  - rewrite orb_true_r. exact Hd.
  - destruct (PrimFloat.is_zero _); cbn [orb negb]; assumption.
Qed.

Lemma number_or_cases_90 : number_or (VNum 90) 90 = VNum 90.
Proof. rewrite number_or_cases. destruct (truthy _); reflexivity. Qed.

(** C6: when the backend insert succeeds, [createReservationSB] writes
    back the cached list with one entry put in front of it, the entries
    cached before following unchanged; the new entry has the id [tmp_]
    followed by the time stamp, the status [new], and the duration 90 when
    the payload has no [duration_minutes]; the event is dispatched and the
    call answers true. *)
Theorem createReservationSB_prepends
    (w : World) (c : Client) (payload r : JSValue) (l : list JSValue) :
  supabase w = Some c ->
  is_nullish payload = false ->
  respond c (requests w) (insert_query (insert_row payload)) = Fulfilled r ->
  ok_response r ->
  LS_read "reservations" (VArr []) w = VArr l ->
  let entry := optimistic_entry payload (clock (ticks w)) (clock (S (ticks w))) in
  let w' := emit "sb:admin-synced"
              (LS_store "reservations" (VArr (entry :: l))
                 (tick (tick (log_request (insert_query (insert_row payload)) w)))) in
  createReservationSB payload w = (Ret (VBool true), w') /\
  field entry "id" = VStr ("tmp_" ++ NumberToString (clock (ticks w))) /\
  field entry "status" = VStr "new" /\
  (field payload "duration_minutes" = VUndef -> field entry "duration" = VNum 90) /\
  events w' = (events w ++ ["sb:admin-synced"])%list.
Proof.
  intros Hsb Hp Hresp Hok Hread entry w'. split; [|split; [|split; [|split]]].
  - unfold createReservationSB. run.
    rewrite !(getprop_field payload) by exact Hp. run.
    rewrite Hsb. run.
    fold (insert_row payload).
    rewrite (await_fulfilled _ _ _ _ Hresp).
    rewrite (throw_if_error_ok _ _ Hok).
    rewrite LS_get_spec, LS_read_log_request, Hread.
    unfold Date_now at 1. rewrite nowISO_spec.
    cbv beta iota delta [array_unshift].
    rewrite LS_set_spec, fireSyncedEvent_spec. reflexivity.
  - reflexivity.
  - reflexivity.
  - intros Hd. subst entry. unfold optimistic_entry. rewrite Hd.
    cbn [default_arg]. cbv [field getprop obj_get obj_lookup String.eqb Ascii.eqb Bool.eqb default].
    apply number_or_cases_90.
  - subst w'. cbn [events emit]. rewrite LS_store_events. reflexivity.
Qed.

(** ** The two syncs *)

Lemma adapt_reservation_spec (r : JSValue) (w : World) :
  is_nullish r = false ->
  adapt_reservation r w = (Ret (reservation_of_row r (clock (ticks w))), tick w).
Proof.
  intros Hr. unfold adapt_reservation. run.
  rewrite !(getprop_field r) by exact Hr. run.
  rewrite nowISO_spec. reflexivity.
Qed.

Lemma ticks_tick_n (n : nat) (w : World) : ticks (tick_n n w) = ticks w + n.
Proof.
  revert w. induction n as [|n IH]; intros w; cbn [tick_n].
  - lia.
  - rewrite IH. cbn [ticks tick]. lia.
Qed.

Lemma mapM_adapt_reservation (rows : list JSValue) (w : World) :
  Forall (fun x => is_nullish x = false) rows ->
  mapM adapt_reservation rows w =
    (Ret (imap (fun i r => reservation_of_row r (clock (ticks w + i))) rows),
     tick_n (length rows) w).
Proof.
  intros Hrows. revert w.
  induction Hrows as [|r rows Hr _ IH]; intros w; [reflexivity|].
  cbn [mapM]. run. rewrite (adapt_reservation_spec r w Hr).
  rewrite IH. cbn [imap length tick_n]. do 2 f_equal.
  rewrite Nat.add_0_r. f_equal.
  apply imap_ext. intros i x _. cbn [ticks tick compose].
  do 2 f_equal. lia.
Qed.

Lemma adapt_item_spec (it : JSValue) :
  is_nullish it = false -> adapt_item it = Ret (item_of_row it).
Proof.
  intros Hr. unfold adapt_item.
  rewrite !(getprop_field it) by exact Hr. reflexivity.
Qed.

Lemma mapM_adapt_item (rows : list JSValue) (w : World) :
  Forall (fun x => is_nullish x = false) rows ->
  mapM (fun it w0 => (adapt_item it, w0)) rows w = (Ret (item_of_row <$> rows), w).
Proof.
  induction 1 as [|r rows Hr _ IH]; [reflexivity|].
  cbn [mapM]. run. rewrite (adapt_item_spec r Hr). run.
  rewrite IH. reflexivity.
Qed.

Lemma tick_n_events (n : nat) (w : World) : events (tick_n n w) = events w.
Proof. revert w. induction n as [|n IH]; intros w; [reflexivity|]. cbn [tick_n]. by rewrite IH. Qed.

(** C7: when the backend answers the reservations query without error and
    with rows, [syncAdminDataToLocal] writes to the cache, and answers,
    the list that has for each row, in order, the entry with [id], [name]
    and [date] as in the row, [table] taken from [table_no] and [duration]
    from [duration_minutes], [people] and [duration] as numbers with
    defaults 1 and 90, [status] with default [new], [phone], [notes] and
    [table] with default the empty string, and [updatedAt] the clock
    reading made for that row; then the event is dispatched. *)
Theorem syncAdminDataToLocal_maps_rows
    (w : World) (c : Client) (rs data : JSValue) (rows : list JSValue) :
  supabase w = Some c ->
  respond c (requests w) reservations_query = Fulfilled rs ->
  ok_response rs ->
  getprop rs "data" = Ret data ->
  js_or data (VArr []) = VArr rows ->
  Forall (fun x => is_nullish x = false) rows ->
  let entries :=
    imap (fun i r => reservation_of_row r (clock (ticks w + i))) rows in
  let w' := emit "sb:admin-synced"
              (LS_store "reservations" (VArr entries)
                 (tick_n (length rows) (log_request reservations_query w))) in
  syncAdminDataToLocal w = (Ret (VObj [("reservations", VArr entries)]), w') /\
  events w' = (events w ++ ["sb:admin-synced"])%list /\
  length entries = length rows /\
  (forall i r, rows !! i = Some r ->
     exists e, entries !! i = Some e /\
       field e "id" = field r "id" /\
       field e "name" = field r "name" /\
       field e "date" = field r "date" /\
       field e "table" = js_or (field r "table_no") (VStr "") /\
       field e "duration" = number_or (field r "duration_minutes") 90 /\
       field e "people" = number_or (field r "people") 1 /\
       field e "status" = js_or (field r "status") (VStr "new") /\
       field e "phone" = js_or (field r "phone") (VStr "") /\
       field e "notes" = js_or (field r "notes") (VStr "") /\
       field e "updatedAt" = VStr (toISOString (clock (ticks w + i))) /\
       (exists x, field e "people" = VNum x /\ PrimFloat.is_nan x = false) /\
       (exists x, field e "duration" = VNum x /\ PrimFloat.is_nan x = false) /\
       (field r "people" = VUndef -> field e "people" = VNum 1) /\
       (field r "duration_minutes" = VUndef -> field e "duration" = VNum 90) /\
       (field r "status" = VUndef -> field e "status" = VStr "new") /\
       (field r "phone" = VUndef -> field e "phone" = VStr "") /\
       (field r "notes" = VUndef -> field e "notes" = VStr "") /\
       (field r "table_no" = VUndef -> field e "table" = VStr "")).
Proof.
  intros Hsb Hresp Hok Hdata Hrows Hnn entries w'.
  split; [|split; [|split]].
  - unfold syncAdminDataToLocal. run. rewrite Hsb. run.
    rewrite (await_fulfilled _ _ _ _ Hresp).
    rewrite (throw_if_error_ok _ _ Hok).
    rewrite Hdata. run. rewrite Hrows.
    cbv beta iota delta [array_map]. run.
    rewrite (mapM_adapt_reservation rows _ Hnn).
    rewrite LS_set_spec, fireSyncedEvent_spec. reflexivity.
  - subst w'. cbn [events emit]. rewrite LS_store_events, tick_n_events.
    reflexivity.
  - subst entries. apply length_imap.
  - intros i r Hi. exists (reservation_of_row r (clock (ticks w + i))).
    split. { subst entries. rewrite list_lookup_imap, Hi. reflexivity. }
    do 10 (split; [reflexivity|]).
    split. { apply number_or_is_number. reflexivity. }
    split. { apply number_or_is_number. reflexivity. }
    assert (Hundef : PrimFloat.is_nan (ToNumber VUndef) = true) by reflexivity.
    split. { intros Hu. change (number_or (field r "people") 1 = VNum 1).
             rewrite Hu. apply number_or_nan, Hundef. }
    split. { intros Hu. change (number_or (field r "duration_minutes") 90 = VNum 90).
             rewrite Hu. apply number_or_nan, Hundef. }
    split. { intros Hu. change (js_or (field r "status") (VStr "new") = VStr "new").
             rewrite Hu. reflexivity. }
    split. { intros Hu. change (js_or (field r "phone") (VStr "") = VStr "").
             rewrite Hu. reflexivity. }
    split. { intros Hu. change (js_or (field r "notes") (VStr "") = VStr "").
             rewrite Hu. reflexivity. }
    intros Hu. change (js_or (field r "table_no") (VStr "") = VStr "").
    rewrite Hu. reflexivity.
Qed.

(** C3: when both queries are answered without error,
    [syncPublicCatalogToLocal] answers, and writes to the cache, the list
    made of one item per row answered to the query on [menu_items], a
    query that carries the filter [available = true]; in each item
    [price], [rating_avg] and [rating_count] are numbers, 0 when the row
    has none or has one that is not a number; [available] and [fresh] are
    booleans; [desc] and [img] are the empty string when the row has
    none. *)
Theorem syncPublicCatalogToLocal_normalizes
    (w : World) (c : Client) (cats items idata : JSValue) (rows : list JSValue) :
  supabase w = Some c ->
  respond c (requests w) categories_query = Fulfilled cats ->
  ok_response cats ->
  respond c (requests w ++ [categories_query]) menu_items_query = Fulfilled items ->
  ok_response items ->
  getprop items "data" = Ret idata ->
  js_or idata (VArr []) = VArr rows ->
  Forall (fun x => is_nullish x = false) rows ->
  let adapted := item_of_row <$> rows in
  let categories := js_or (field cats "data") (VArr []) in
  let w' := LS_store "menuItemsVisible" (VArr adapted)
              (LS_store "categories" categories
                 (log_request menu_items_query (log_request categories_query w))) in
  syncPublicCatalogToLocal w =
    (Ret (VObj [("categories", categories); ("items", VArr adapted)]), w') /\
  requests w' = (requests w ++ [categories_query; menu_items_query])%list /\
  (exists steps, menu_items_query = Query "menu_items" steps /\
                 q_eq "available" (VBool true) ∈ steps) /\
  length adapted = length rows /\
  (forall i it, rows !! i = Some it ->
     exists e, adapted !! i = Some e /\
       (forall k, k ∈ ["price"; "rating_avg"; "rating_count"] ->
          (exists x, field e k = VNum x /\ PrimFloat.is_nan x = false) /\
          (field it k = VUndef -> field e k = VNum 0) /\
          (PrimFloat.is_nan (ToNumber (field it k)) = true -> field e k = VNum 0) /\
          (truthy (VNum (ToNumber (field it k))) = true ->
             field e k = VNum (ToNumber (field it k)))) /\
       field e "available" = VBool (truthy (field it "available")) /\
       field e "fresh" = VBool (truthy (field it "fresh")) /\
       (is_nullish (field it "desc") = true -> field e "desc" = VStr "") /\
       (is_nullish (field it "desc") = false -> field e "desc" = field it "desc") /\
       (field it "img" = VUndef -> field e "img" = VStr "") /\
       (truthy (field it "img") = true -> field e "img" = field it "img")).
Proof.
  intros Hsb Hc Hcok Hi Hiok Hdata Hrows Hnn adapted categories w'.
  split; [|split; [|split; [|split]]].
  - unfold syncPublicCatalogToLocal. run. rewrite Hsb. run.
    rewrite (await_fulfilled _ _ _ _ Hc).
    rewrite (throw_if_error_ok _ _ Hcok).
    rewrite (await_fulfilled c menu_items_query (log_request categories_query w) items)
      by exact Hi.
    rewrite (throw_if_error_ok _ _ Hiok).
    rewrite Hdata. run. rewrite Hrows.
    cbv beta iota delta [array_map]. run.
    rewrite (mapM_adapt_item rows _ Hnn).
    rewrite (getprop_field cats) by (apply ok_response_not_nullish, Hcok).
    rewrite !LS_set_spec. reflexivity.
  - subst w'. rewrite !LS_store_requests. cbn [requests log_request].
    rewrite <- app_assoc. reflexivity.
  - eexists. split; [reflexivity|]. apply list_elem_of_In. cbn. tauto.
  - subst adapted. apply length_fmap.
  - intros i it Hit. exists (item_of_row it).
    split. { subst adapted. rewrite list_lookup_fmap, Hit. reflexivity. }
    split.
    { assert (Hk : forall k, field (item_of_row it) k = number_or (field it k) 0 ->
                (exists x, field (item_of_row it) k = VNum x /\ PrimFloat.is_nan x = false) /\
                (field it k = VUndef -> field (item_of_row it) k = VNum 0) /\
                (PrimFloat.is_nan (ToNumber (field it k)) = true ->
                   field (item_of_row it) k = VNum 0) /\
                (truthy (VNum (ToNumber (field it k))) = true ->
                   field (item_of_row it) k = VNum (ToNumber (field it k)))).
      { intros k ->. split; [|split; [|split]].
        - apply number_or_is_number. reflexivity.
        - intros ->. apply number_or_nan. reflexivity.
        - apply number_or_nan.
        - intros Ht. rewrite number_or_cases, Ht. reflexivity. }
      intros k Hk'. apply Hk.
      apply list_elem_of_In in Hk'. cbn in Hk'.
      destruct Hk' as [<- | [<- | [<- | []]]]; reflexivity. }
    split; [reflexivity|]. split; [reflexivity|].
    split. { intros Hn. change (js_coalesce (js_coalesce (field it "desc") (field it "desc"))
                                  (VStr "") = VStr "").
             unfold js_coalesce. rewrite !Hn. reflexivity. }
    split. { intros Hn. change (js_coalesce (js_coalesce (field it "desc") (field it "desc"))
                                  (VStr "") = field it "desc").
             unfold js_coalesce. rewrite !Hn. reflexivity. }
    split. { intros Hn. change (js_or (field it "img") (VStr "") = VStr "").
             rewrite Hn. reflexivity. }
    intros Hn. change (js_or (field it "img") (VStr "") = field it "img").
    unfold js_or. rewrite Hn. reflexivity.
Qed.

(** ** The admin guard *)

Lemma optprop_spec (v : JSValue) (k : string) : optprop v k = Ret (opt_field v k).
Proof.
  unfold optprop, opt_field. destruct (is_nullish v) eqn:Hn; [reflexivity|].
  apply getprop_field, Hn.
Qed.

Lemma truthy_opt_field (v : JSValue) (k : string) :
  truthy (opt_field v k) = true -> is_nullish v = false /\ opt_field v k = field v k.
Proof.
  unfold opt_field. destruct (is_nullish v); [discriminate|]. intros _. split; reflexivity.
Qed.

Lemma isCurrentUserAdminRPC_spec (c : Client) (uid : JSValue) (w : World) :
  supabase w = Some c ->
  let q := Rpc "is_admin" (VObj [("u", uid)]) in
  isCurrentUserAdminRPC uid w =
    (Ret (VBool (rpc_affirms (respond c (requests w) q))), log_request q w).
Proof.
  intros Hsb q. unfold isCurrentUserAdminRPC, await_global. run.
  rewrite Hsb. unfold await, rpc_affirms. fold q.
  destruct (respond c (requests w) q) as [r|e]; [|reflexivity].
  destruct (getprop r "data") as [d|]; [|reflexivity].
  destruct (getprop r "error") as [e|]; [|reflexivity].
  unfold js_bool. destruct (truthy e); reflexivity.
Qed.

Lemma probeAdminBySelect_spec (c : Client) (w : World) :
  supabase w = Some c ->
  probeAdminBySelect w =
    (Ret (VBool (probe_succeeds (respond c (requests w) probe_query))),
     log_request probe_query w).
Proof.
  intros Hsb. unfold probeAdminBySelect, await_global. run.
  rewrite Hsb. unfold await, probe_succeeds.
  destruct (respond c (requests w) probe_query) as [r|e]; [|reflexivity].
  destruct (getprop r "error") as [e|]; reflexivity.
Qed.

(** C1: with a backend client that answers [getSession] with a session
    slot, [requireAdminOrRedirect] (i) assigns the login URL to
    [location.href] and answers false when the session has no user id;
    (ii) answers true, with no redirect and no probe, when the [is_admin]
    procedure affirms; (iii) answers true with no redirect when the
    procedure fails, reports an error or answers falsy and the restricted
    read of [reservations] goes through; (iv) redirects and answers false
    when both fail. *)
Theorem requireAdminOrRedirect_cases
    (w : World) (c : Client) (loginUrl r data session : JSValue) :
  supabase w = Some c ->
  respond c (requests w) GetSession = Fulfilled r ->
  getprop r "data" = Ret data ->
  getprop data "session" = Ret session ->
  let url := default_arg loginUrl (VStr "login.html") in
  let uid := opt_field (opt_field session "user") "id" in
  let w1 := log_request GetSession w in
  let rpc := Rpc "is_admin" (VObj [("u", uid)]) in
  let w2 := log_request rpc w1 in
  let w3 := log_request probe_query w2 in
  (truthy uid = false ->
     requireAdminOrRedirect loginUrl w = (Ret (VBool false), navigate url w1)) /\
  (truthy uid = true ->
     rpc_affirms (respond c (requests w1) rpc) = true ->
     requireAdminOrRedirect loginUrl w = (Ret (VBool true), w2) /\
     redirects w2 = redirects w) /\
  (truthy uid = true ->
     rpc_affirms (respond c (requests w1) rpc) = false ->
     probe_succeeds (respond c (requests w2) probe_query) = true ->
     requireAdminOrRedirect loginUrl w = (Ret (VBool true), w3) /\
     redirects w3 = redirects w) /\
  (truthy uid = true ->
     rpc_affirms (respond c (requests w1) rpc) = false ->
     probe_succeeds (respond c (requests w2) probe_query) = false ->
     requireAdminOrRedirect loginUrl w = (Ret (VBool false), navigate url w3)).
Proof.
  intros Hsb Hresp Hdata Hsession url uid w1 rpc w2 w3.
  assert (Hno : truthy uid = false ->
            requireAdminOrRedirect loginUrl w = (Ret (VBool false), navigate url w1)).
  { intros Hu. unfold requireAdminOrRedirect. run. rewrite Hsb. run.
    rewrite (await_fulfilled _ _ _ _ Hresp). rewrite Hdata, Hsession.
    rewrite !optprop_spec. fold uid. rewrite Hu. reflexivity. }
  assert (Hyes : truthy uid = true ->
            requireAdminOrRedirect loginUrl w =
              match isCurrentUserAdminRPC uid w1 with
              | (Ret rpcv, wa) =>
                  match (if truthy rpcv then ret rpcv else probeAdminBySelect) wa with
                  | (Ret ok, wb) =>
                      if negb (truthy ok) then (Ret (VBool false), navigate url wb)
                      else (Ret (VBool true), wb)
                  | (Throw e, wb) => (Throw e, wb)
                  end
              | (Throw e, wa) => (Throw e, wa)
              end).
  { intros Hu. unfold requireAdminOrRedirect. run. rewrite Hsb. run.
    rewrite (await_fulfilled _ _ _ _ Hresp). rewrite Hdata, Hsession.
    rewrite !optprop_spec. fold uid. rewrite Hu. cbn [negb].
    destruct (truthy_opt_field _ _ Hu) as [Huser Heq].
    assert (Hsess : is_nullish session = false).
    { unfold opt_field in Huser. destruct (is_nullish session); [discriminate|reflexivity]. }
    assert (Huf : opt_field session "user" = field session "user").
    { unfold opt_field. rewrite Hsess. reflexivity. }
    rewrite (getprop_field session) by exact Hsess.
    rewrite <- Huf. rewrite (getprop_field (opt_field session "user")) by exact Huser.
    rewrite <- Heq. fold uid. fold w1.
    destruct (isCurrentUserAdminRPC uid w1) as [[rpcv|e] wa]; [|reflexivity].
    destruct (truthy rpcv) eqn:Ht; [run; rewrite Ht; reflexivity|].
    destruct (probeAdminBySelect wa) as [[ok|e] wb]; [|reflexivity].
    destruct (truthy ok); reflexivity. }
  assert (Hsb1 : supabase w1 = Some c) by exact Hsb.
  assert (Hsb2 : supabase w2 = Some c) by exact Hsb.
  split; [exact Hno|]. split; [|split].
  - intros Hu Hrpc. split; [|reflexivity].
    rewrite (Hyes Hu), (isCurrentUserAdminRPC_spec c uid w1 Hsb1).
    fold rpc. rewrite Hrpc. reflexivity.
  - intros Hu Hrpc Hprobe. split; [|reflexivity].
    rewrite (Hyes Hu), (isCurrentUserAdminRPC_spec c uid w1 Hsb1).
    fold rpc. rewrite Hrpc. cbn [truthy]. fold w2.
    rewrite (probeAdminBySelect_spec c w2 Hsb2), Hprobe. reflexivity.
  - intros Hu Hrpc Hprobe.
    rewrite (Hyes Hu), (isCurrentUserAdminRPC_spec c uid w1 Hsb1).
    fold rpc. rewrite Hrpc. cbn [truthy]. fold w2.
    rewrite (probeAdminBySelect_spec c w2 Hsb2), Hprobe. reflexivity.
Qed.

(** ** Objects and patches *)

Lemma obj_lookup_set (fs : list (string * JSValue)) (k k' : string) (v : JSValue) :
  obj_lookup (obj_set fs k v) k' =
    if String.eqb k k' then Some v else obj_lookup fs k'.
Proof.
  induction fs as [|[k0 v0] fs IH]; cbn [obj_set obj_lookup].
  - reflexivity.
  - destruct (String.eqb_spec k0 k) as [->|Hne]; cbn [obj_lookup].
    + destruct (String.eqb k k'); reflexivity.
    + rewrite IH. destruct (String.eqb_spec k0 k') as [->|Hne'].
      * destruct (String.eqb_spec k k') as [->|_]; [congruence|reflexivity].
      * reflexivity.
Qed.

Lemma obj_set_keys (fs : list (string * JSValue)) (k : string) (v : JSValue) (x : string) :
  x ∈ (obj_set fs k v).*1 -> x = k \/ x ∈ fs.*1.
Proof.
  induction fs as [|[k0 v0] fs IH]; cbn [obj_set].
  - cbn. rewrite list_elem_of_singleton. tauto.
  - destruct (String.eqb_spec k0 k) as [->|Hne]; cbn; rewrite !elem_of_cons.
    + tauto.
    + intros [->|Hx]; [tauto|]. destruct (IH Hx); tauto.
Qed.

Lemma obj_set_NoDup (fs : list (string * JSValue)) (k : string) (v : JSValue) :
  NoDup fs.*1 -> NoDup (obj_set fs k v).*1.
Proof.
  induction fs as [|[k0 v0] fs IH]; cbn [obj_set]; intros Hnd.
  - cbn. apply NoDup_singleton.
  - cbn in Hnd. apply NoDup_cons in Hnd as [Hk0 Hnd].
    destruct (String.eqb_spec k0 k) as [->|Hne]; cbn; apply NoDup_cons.
    + split; assumption.
    + split; [|apply IH, Hnd].
      intros Hin. apply obj_set_keys in Hin as [->|Hin]; [congruence|contradiction].
Qed.

Lemma obj_lookup_not_key (fs : list (string * JSValue)) (k : string) :
  k ∉ fs.*1 -> obj_lookup fs k = None.
Proof.
  induction fs as [|[k0 v0] fs IH]; [reflexivity|]. cbn.
  rewrite not_elem_of_cons. intros [Hne Hk].
  destruct (String.eqb_spec k0 k) as [->|_]; [congruence|]. apply IH, Hk.
Qed.

(** A spread of properties with distinct names overrides those it names
    and leaves the others. *)
Lemma obj_lookup_assign (fs src : list (string * JSValue)) (k : string) :
  NoDup src.*1 ->
  obj_lookup (obj_assign fs src) k =
    match obj_lookup src k with
    | Some v => Some v
    | None => obj_lookup fs k
    end.
Proof.
  unfold obj_assign. revert fs.
  induction src as [|[k1 v1] src IH]; intros fs Hnd; [reflexivity|].
  cbn in Hnd. apply NoDup_cons in Hnd as [Hk1 Hnd].
  cbn [fold_left fst snd obj_lookup]. rewrite (IH _ Hnd), obj_lookup_set.
  destruct (String.eqb_spec k1 k) as [->|_]; [|reflexivity].
  rewrite (obj_lookup_not_key _ _ Hk1). reflexivity.
Qed.

Lemma patch_one_lookup (ffs p : list (string * JSValue)) (k k' x : string) :
  obj_lookup (patch_one ffs k k' p) x =
    if String.eqb k' x
    then match obj_lookup ffs k with
         | Some v => Some v
         | None => obj_lookup p x
         end
    else obj_lookup p x.
Proof.
  unfold patch_one. destruct (obj_lookup ffs k).
  - apply obj_lookup_set.
  - destruct (String.eqb k' x); reflexivity.
Qed.

Lemma patch_one_NoDup (ffs p : list (string * JSValue)) (k k' : string) :
  NoDup p.*1 -> NoDup (patch_one ffs k k' p).*1.
Proof.
  unfold patch_one. destruct (obj_lookup ffs k); [apply obj_set_NoDup | trivial].
Qed.

Lemma patch_of_NoDup (ffs : list (string * JSValue)) : NoDup (patch_of ffs).*1.
Proof. unfold patch_of. do 8 apply patch_one_NoDup. apply NoDup_nil_2. Qed.

(** The patch holds, under each cache name, what the input has under the
    server name, and nothing else. *)
Lemma patch_of_lookup (ffs : list (string * JSValue)) (x : string) :
  obj_lookup (patch_of ffs) x =
    match server_column x with
    | Some k => obj_lookup ffs k
    | None => None
    end.
Proof.
  unfold patch_of. rewrite !patch_one_lookup. unfold server_column.
  repeat match goal with
  | |- context [String.eqb ?a x] =>
      destruct (String.eqb_spec a x) as [<-|?];
        [cbn; repeat (destruct (obj_lookup ffs _)); reflexivity|]
  end.
  repeat match goal with
  | |- context [String.eqb x ?a] =>
      destruct (String.eqb_spec x a) as [->|?]; [congruence|]
  end.
  reflexivity.
Qed.

Lemma patch_field_spec (ffs p : list (string * JSValue)) (k k' : string) :
  patch_field (VObj ffs) k k' p = Ret (patch_one ffs k k' p).
Proof.
  unfold patch_field, patch_one, hasprop, getprop, obj_get.
  destruct (obj_lookup ffs k); reflexivity.
Qed.

Lemma build_patch_spec (ffs : list (string * JSValue)) :
  build_patch (VObj ffs) = Ret (patch_of ffs).
Proof.
  unfold build_patch. cbn zeta.
  repeat (rewrite patch_field_spec; cbn [obind]). reflexivity.
Qed.

Lemma same_id_spec (id x : JSValue) :
  is_nullish x = false ->
  same_id id x = Ret (String.eqb (ToString (field x "id")) (ToString id)).
Proof. intros Hx. unfold same_id. rewrite (getprop_field x) by exact Hx. reflexivity. Qed.

Lemma findIndexO_none (id : JSValue) (l : list JSValue) :
  Forall (fun x => is_nullish x = false) l ->
  (forall x, x ∈ l -> ToString (field x "id") <> ToString id) ->
  findIndexO (same_id id) l = Ret None.
Proof.
  induction 1 as [|x l Hx _ IH]; intros Hno; [reflexivity|].
  cbn [findIndexO]. rewrite (same_id_spec id x Hx). cbn [obind].
  destruct (String.eqb_spec (ToString (field x "id")) (ToString id)) as [He|_].
  - exfalso. apply (Hno x); [left | exact He].
  - rewrite IH; [reflexivity|]. intros y Hy. apply Hno. right. exact Hy.
Qed.

Lemma findIndexO_first (id x : JSValue) (l : list JSValue) (i : nat) :
  Forall (fun x => is_nullish x = false) l ->
  l !! i = Some x ->
  ToString (field x "id") = ToString id ->
  (forall j y, j < i -> l !! j = Some y -> ToString (field y "id") <> ToString id) ->
  findIndexO (same_id id) l = Ret (Some i).
Proof.
  intros Hl. revert i.
  induction Hl as [|y l Hy _ IH]; intros i Hi Hx Hbefore; [discriminate|].
  cbn [findIndexO]. rewrite (same_id_spec id y Hy). cbn [obind].
  destruct i as [|i].
  - injection Hi as ->. rewrite (proj2 (String.eqb_eq _ _) Hx). reflexivity.
  - destruct (String.eqb_spec (ToString (field y "id")) (ToString id)) as [He|_].
    + exfalso. apply (Hbefore 0 y); [lia | reflexivity | exact He].
    + rewrite (IH i); [reflexivity | exact Hi | exact Hx |].
      intros j z Hj Hz. apply (Hbefore (S j) z); [lia | exact Hz].
Qed.

(** C4, as the script has it: when the backend update succeeds and the
    cached list has entries with the id, the first of them is replaced
    by a copy in which each field present in the input is set under its
    cache name ([table_no] as [table], [duration_minutes] as [duration]),
    [updatedAt] is the time of the call and every other field is as it
    was (so a patch of [status] alone changes [status] and [updatedAt]
    only); all other entries stay, the list is written back and the event
    is dispatched.  When no cached entry has the id, nothing is written
    and no event is dispatched.  In both cases the call answers the row
    the backend selected. *)
Theorem updateReservationSB_patches_entry
    (w : World) (c : Client) (id r : JSValue) (ffs : list (string * JSValue))
    (l : list JSValue) :
  supabase w = Some c ->
  respond c (requests w) (update_query id (VObj ffs)) = Fulfilled r ->
  ok_response r ->
  LS_read "reservations" (VArr []) w = VArr l ->
  Forall (fun x => is_nullish x = false) l ->
  let w1 := log_request (update_query id (VObj ffs)) w in
  let now := VStr (toISOString (clock (ticks w))) in
  (forall i old,
     l !! i = Some (VObj old) ->
     ToString (obj_get old "id") = ToString id ->
     (forall j y, j < i -> l !! j = Some y ->
        ToString (field y "id") <> ToString id) ->
     let entry := VObj (obj_set (obj_assign old (patch_of ffs)) "updatedAt" now) in
     let w' := emit "sb:admin-synced"
                 (LS_store "reservations" (VArr (<[i := entry]> l)) (tick w1)) in
     updateReservationSB id (VObj ffs) w = (Ret (field r "data"), w') /\
     events w' = (events w ++ ["sb:admin-synced"])%list /\
     (forall k' k v, server_column k' = Some k -> obj_lookup ffs k = Some v ->
        field entry k' = v) /\
     field entry "updatedAt" = now /\
     (forall k', k' <> "updatedAt" ->
        (forall k, server_column k' = Some k -> obj_lookup ffs k = None) ->
        field entry k' = obj_get old k') /\
     (forall v, ffs = [("status", v)] ->
        field entry "status" = v /\
        forall k', k' <> "status" -> k' <> "updatedAt" ->
          field entry k' = obj_get old k') /\
     length (<[i := entry]> l) = length l /\
     (forall j, j <> i -> <[i := entry]> l !! j = l !! j)) /\
  ((forall x, x ∈ l -> ToString (field x "id") <> ToString id) ->
     updateReservationSB id (VObj ffs) w = (Ret (field r "data"), w1) /\
     storage w1 = storage w /\ events w1 = events w).
Proof.
  intros Hsb Hresp Hok Hread Hl w1 now.
  assert (Hr : is_nullish r = false) by (apply ok_response_not_nullish, Hok).
  assert (Hrun : updateReservationSB id (VObj ffs) w =
            match findIndexO (same_id id) l with
            | Ret (Some i) =>
                (Ret (field r "data"),
                 emit "sb:admin-synced"
                   (LS_store "reservations"
                      (VArr (<[i := VObj (obj_set
                                 (obj_assign (own_props (default VUndef (l !! i)))
                                    (patch_of ffs)) "updatedAt" now)]> l))
                      (tick w1)))
            | Ret None => (Ret (field r "data"), w1)
            | Throw e => (Throw e, w1)
            end).
  { unfold updateReservationSB. run. rewrite Hsb. run. cbn [default_arg].
    rewrite (await_fulfilled _ _ _ _ Hresp).
    rewrite (throw_if_error_ok _ _ Hok).
    rewrite LS_get_spec, LS_read_log_request, Hread.
    cbv beta iota delta [array_findIndex].
    destruct (findIndexO (same_id id) l) as [[i|]|e].
    - cbn [default_arg js_or truthy]. rewrite build_patch_spec. run.
      rewrite nowISO_spec, LS_set_spec, fireSyncedEvent_spec.
      rewrite (getprop_field r) by exact Hr. reflexivity.
    - rewrite (getprop_field r) by exact Hr. reflexivity.
    - reflexivity. }
  split.
  - intros i old Hi Hid Hbefore entry w'.
    rewrite Hrun, (findIndexO_first id (VObj old) l i Hl Hi Hid Hbefore).
    rewrite Hi. split; [reflexivity|].
    split. { subst w'. cbn [events emit]. rewrite LS_store_events. reflexivity. }
    assert (Hlook : forall x, obj_lookup (obj_set (obj_assign old (patch_of ffs))
                                 "updatedAt" now) x =
              if String.eqb "updatedAt" x then Some now
              else match server_column x with
                   | Some k => match obj_lookup ffs k with
                               | Some v => Some v
                               | None => obj_lookup old x
                               end
                   | None => obj_lookup old x
                   end).
    { intros x. rewrite obj_lookup_set.
      rewrite (obj_lookup_assign _ _ _ (patch_of_NoDup ffs)), patch_of_lookup.
      destruct (server_column x); reflexivity. }
    assert (Hset : forall k' k v, server_column k' = Some k ->
              obj_lookup ffs k = Some v -> field entry k' = v).
    { intros k' k v Hcol Hv. unfold entry, field, getprop, obj_get. rewrite Hlook.
      destruct (String.eqb_spec "updatedAt" k') as [<-|_]; [discriminate|].
      rewrite Hcol, Hv. reflexivity. }
    assert (Hkeep : forall k', k' <> "updatedAt" ->
              (forall k, server_column k' = Some k -> obj_lookup ffs k = None) ->
              field entry k' = obj_get old k').
    { intros k' Hne Hnone. unfold entry, field, getprop, obj_get. rewrite Hlook.
      destruct (String.eqb_spec "updatedAt" k') as [<-|_]; [congruence|].
      destruct (server_column k') as [k|]; [|reflexivity].
      rewrite (Hnone k eq_refl). reflexivity. }
    split; [exact Hset|]. split; [|split; [exact Hkeep|split; [|split]]].
    + unfold entry, field, getprop, obj_get. rewrite Hlook. reflexivity.
    + intros v Hffs. split.
      * apply (Hset "status" "status"); [reflexivity|]. rewrite Hffs. reflexivity.
      * intros k' Hk1 Hk2. apply Hkeep; [exact Hk2|].
        intros k. rewrite Hffs. unfold server_column.
        repeat match goal with
        | |- context [String.eqb k' ?a] =>
            destruct (String.eqb_spec k' a) as [->|?];
              [try congruence; intros [= <-]; reflexivity|]
        end.
        discriminate.
    + apply length_insert.
    + intros j Hj. apply list_lookup_insert_ne. congruence.
  - intros Hno. rewrite Hrun, (findIndexO_none id l Hl Hno).
    split; [reflexivity|]. split; reflexivity.
Qed.

(** ** Throws come before writes *)

Lemma preserves_throws {A} (m : M A) : preserves_cache m -> throws_before_write m.
Proof. intros H w e w' Hm. exact (H _ _ _ Hm). Qed.

Lemma never_throws_before_write {A} (m : M A) : never_throws m -> throws_before_write m.
Proof. intros H w e w' Hm. destruct (H w) as (a & w'' & Ha). congruence. Qed.

Lemma preserves_bind {A B} (m : M A) (k : A -> M B) :
  preserves_cache m -> (forall a, preserves_cache (k a)) -> preserves_cache (bind m k).
Proof.
  intros Hm Hk w o w'. unfold bind.
  destruct (m w) as [[a|e] w1] eqn:Em; intros Hr.
  - destruct (Hm _ _ _ Em) as [? ?], (Hk a _ _ _ Hr) as [? ?].
    split; congruence.
  - injection Hr as <- <-. exact (Hm _ _ _ Em).
Qed.

Lemma throws_bind {A B} (m : M A) (k : A -> M B) :
  preserves_cache m -> (forall a, throws_before_write (k a)) ->
  throws_before_write (bind m k).
Proof.
  intros Hm Hk w e w'. unfold bind.
  destruct (m w) as [[a|e'] w1] eqn:Em; intros Hr.
  - destruct (Hm _ _ _ Em) as [? ?], (Hk a _ _ _ Hr) as [? ?].
    split; congruence.
  - injection Hr as <- <-. exact (Hm _ _ _ Em).
Qed.

Lemma throws_bind_tail {A B} (m : M A) (k : A -> M B) :
  throws_before_write m -> (forall a, never_throws (k a)) ->
  throws_before_write (bind m k).
Proof.
  intros Hm Hk w e w'. unfold bind.
  destruct (m w) as [[a|e'] w1] eqn:Em; intros Hr.
  - destruct (Hk a w1) as (b & w2 & Hb). congruence.
  - injection Hr as <- <-. exact (Hm _ _ _ Em).
Qed.

Lemma never_bind {A B} (m : M A) (k : A -> M B) :
  never_throws m -> (forall a, never_throws (k a)) -> never_throws (bind m k).
Proof.
  intros Hm Hk w. unfold bind. destruct (Hm w) as (a & w1 & ->). apply Hk.
Qed.

Lemma preserves_ret {A} (a : A) : preserves_cache (ret a).
Proof. intros w o w' [= <- <-]. split; reflexivity. Qed.

Lemma preserves_throw {A} (e : Exn) : preserves_cache (@throw A e).
Proof. intros w o w' [= <- <-]. split; reflexivity. Qed.

Lemma preserves_lift {A} (o : Outcome A) : preserves_cache (lift o).
Proof. intros w o' w' [= <- <-]. split; reflexivity. Qed.

Lemma preserves_get_supabase : preserves_cache get_supabase.
Proof. intros w o w' [= <- <-]. split; reflexivity. Qed.

Lemma preserves_await (c : Client) (q : Request) : preserves_cache (await c q).
Proof.
  intros w o w'. unfold await.
  destruct (respond c (requests w) q); intros [= <- <-]; split; reflexivity.
Qed.

Lemma preserves_LS_get (k : string) (def : JSValue) : preserves_cache (LS_get k def).
Proof. intros w o w'. rewrite LS_get_spec. intros [= <- <-]. split; reflexivity. Qed.

Lemma preserves_Date_now : preserves_cache Date_now.
Proof. intros w o w' [= <- <-]. split; reflexivity. Qed.

Lemma preserves_nowISO : preserves_cache nowISO.
Proof. intros w o w'. rewrite nowISO_spec. intros [= <- <-]. split; reflexivity. Qed.

Lemma preserves_throw_if_error (r : JSValue) : preserves_cache (throw_if_error r).
Proof.
  apply preserves_bind; [apply preserves_lift|].
  intros e. destruct (truthy e); [apply preserves_throw | apply preserves_ret].
Qed.

Lemma preserves_mapM {A B} (f : A -> M B) (l : list A) :
  (forall x, preserves_cache (f x)) -> preserves_cache (mapM f l).
Proof.
  intros Hf. induction l as [|x l IH]; cbn [mapM]; [apply preserves_ret|].
  apply preserves_bind; [apply Hf|]. intros y.
  apply preserves_bind; [apply IH|]. intros ys. apply preserves_ret.
Qed.

Lemma preserves_array_map (f : JSValue -> M JSValue) (v : JSValue) :
  (forall x, preserves_cache (f x)) -> preserves_cache (array_map f v).
Proof.
  intros Hf. destruct v; try apply preserves_throw. cbn [array_map].
  apply preserves_bind; [apply preserves_mapM, Hf|]. intros l'. apply preserves_ret.
Qed.

Lemma preserves_adapt_reservation (r : JSValue) : preserves_cache (adapt_reservation r).
Proof.
  unfold adapt_reservation.
  repeat (apply preserves_bind; [first [apply preserves_lift | apply preserves_nowISO]|]; intros ?).
  apply preserves_ret.
Qed.

Lemma never_ret {A} (a : A) : never_throws (ret a).
Proof. intros w. eexists _, _. reflexivity. Qed.

Lemma never_LS_set (k : string) (v : JSValue) : never_throws (LS_set k v).
Proof. intros w. eexists _, _. apply LS_set_spec. Qed.

Lemma never_fireSyncedEvent : never_throws fireSyncedEvent.
Proof. intros w. eexists _, _. apply fireSyncedEvent_spec. Qed.

Lemma never_getprop (v : JSValue) (k : string) :
  is_nullish v = false -> never_throws (lift (getprop v k)).
Proof. intros Hv w. rewrite (getprop_field v k Hv). eexists _, _. reflexivity. Qed.

(** After [if (r.error) throw r.error;] the answer [r] is an object. *)
Lemma throws_after_error_check {B} (r : JSValue) (k : M B) :
  (is_nullish r = false -> throws_before_write k) ->
  throws_before_write (bind (throw_if_error r) (fun _ => k)).
Proof.
  intros Hk. destruct (is_nullish r) eqn:Hn.
  - apply preserves_throws. intros w o w'. unfold bind, throw_if_error, bind, lift.
    destruct r; try discriminate; intros [= <- <-]; split; reflexivity.
  - apply throws_bind; [apply preserves_throw_if_error|]. intros _. apply Hk. reflexivity.
Qed.

Create HintDb frame.

#[local] Hint Resolve preserves_ret preserves_throw preserves_lift
  preserves_get_supabase preserves_await preserves_LS_get preserves_Date_now
  preserves_nowISO preserves_throw_if_error preserves_array_map
  preserves_adapt_reservation never_ret never_LS_set never_fireSyncedEvent
  never_getprop preserves_throws : frame.

Ltac frame :=
  repeat first
    [ progress intros
    | apply throws_after_error_check
    | apply throws_bind; [solve [auto with frame]|]
    | apply never_throws_before_write
    | apply never_bind
    | solve [auto with frame] ].

Lemma throws_syncPublicCatalogToLocal : throws_before_write syncPublicCatalogToLocal.
Proof.
  unfold syncPublicCatalogToLocal.
  apply throws_bind; [auto with frame|]. intros [c|]; [|auto with frame].
  frame.
Qed.

Lemma throws_syncAdminDataToLocal : throws_before_write syncAdminDataToLocal.
Proof.
  unfold syncAdminDataToLocal.
  apply throws_bind; [auto with frame|]. intros [c|]; [|auto with frame].
  frame.
Qed.

Lemma throws_createReservationSB (payload : JSValue) :
  throws_before_write (createReservationSB payload).
Proof.
  unfold createReservationSB.
  repeat (apply throws_bind; [solve [auto with frame]|]; intros ?; cbv zeta).
  match goal with
  | |- throws_before_write (match ?sb with _ => _ end) =>
      destruct sb as [c|]; [|auto with frame]
  end.
  frame.
Qed.

Lemma throws_deleteReservationSB (id : JSValue) :
  throws_before_write (deleteReservationSB id).
Proof.
  unfold deleteReservationSB.
  apply throws_bind; [auto with frame|]. intros [c|]; [|auto with frame].
  frame.
Qed.

Lemma throws_updateReservationSB (id fields : JSValue) :
  throws_before_write (updateReservationSB id fields).
Proof.
  unfold updateReservationSB. cbv zeta.
  apply throws_bind; [auto with frame|]. intros [c|]; [|auto with frame].
  apply throws_bind; [auto with frame|]. intros up.
  apply throws_after_error_check. intros Hup.
  apply throws_bind; [auto with frame|]. intros list.
  apply throws_bind; [auto with frame|]. intros i.
  apply throws_bind_tail; [|intros; apply never_getprop, Hup].
  destruct i as [i|]; [|auto with frame].
  destruct list; auto with frame.
  frame.
Qed.

(** C9: in each of the two syncs, create, update and delete, a call that
    throws has left the stored strings and the event log as they were:
    every throw comes before the first cache write and the first
    dispatch.  And a backend query that reports an error makes the call
    throw that error, after the request and nothing else. *)
Theorem failed_call_leaves_cache :
  (throws_before_write syncPublicCatalogToLocal /\
   throws_before_write syncAdminDataToLocal /\
   (forall payload, throws_before_write (createReservationSB payload)) /\
   (forall id fields, throws_before_write (updateReservationSB id fields)) /\
   (forall id, throws_before_write (deleteReservationSB id))) /\
  (forall w c r e,
     supabase w = Some c ->
     respond c (requests w) categories_query = Fulfilled r ->
     reports_error r e ->
     syncPublicCatalogToLocal w =
       (Throw (ExnValue e), log_request categories_query w)) /\
  (forall w c r1 r e,
     supabase w = Some c ->
     respond c (requests w) categories_query = Fulfilled r1 ->
     ok_response r1 ->
     respond c (requests w ++ [categories_query]) menu_items_query = Fulfilled r ->
     reports_error r e ->
     syncPublicCatalogToLocal w =
       (Throw (ExnValue e),
        log_request menu_items_query (log_request categories_query w))) /\
  (forall w c r e,
     supabase w = Some c ->
     respond c (requests w) reservations_query = Fulfilled r ->
     reports_error r e ->
     syncAdminDataToLocal w =
       (Throw (ExnValue e), log_request reservations_query w)) /\
  (forall w c payload r e,
     supabase w = Some c ->
     is_nullish payload = false ->
     respond c (requests w) (insert_query (insert_row payload)) = Fulfilled r ->
     reports_error r e ->
     createReservationSB payload w =
       (Throw (ExnValue e), log_request (insert_query (insert_row payload)) w)) /\
  (forall w c id fields r e,
     supabase w = Some c ->
     let q := update_query id (default_arg fields (VObj [])) in
     respond c (requests w) q = Fulfilled r ->
     reports_error r e ->
     updateReservationSB id fields w = (Throw (ExnValue e), log_request q w)) /\
  (forall w c id r e,
     supabase w = Some c ->
     respond c (requests w) (delete_query id) = Fulfilled r ->
     reports_error r e ->
     deleteReservationSB id w =
       (Throw (ExnValue e), log_request (delete_query id) w)).
Proof.
  split.
  { split; [apply throws_syncPublicCatalogToLocal|].
    split; [apply throws_syncAdminDataToLocal|].
    split; [apply throws_createReservationSB|].
    split; [apply throws_updateReservationSB | apply throws_deleteReservationSB]. }
  split; [|split; [|split; [|split; [|split]]]].
  - intros w c r e Hsb Hresp Herr.
    unfold syncPublicCatalogToLocal. run. rewrite Hsb. run.
    rewrite (await_fulfilled _ _ _ _ Hresp).
    rewrite (throw_if_error_reported _ _ _ Herr). reflexivity.
  - intros w c r1 r e Hsb Hresp1 Hok Hresp Herr.
    unfold syncPublicCatalogToLocal. run. rewrite Hsb. run.
    rewrite (await_fulfilled _ _ _ _ Hresp1).
    rewrite (throw_if_error_ok _ _ Hok).
    rewrite (await_fulfilled c menu_items_query (log_request categories_query w) r)
      by exact Hresp.
    rewrite (throw_if_error_reported _ _ _ Herr). reflexivity.
  - intros w c r e Hsb Hresp Herr.
    unfold syncAdminDataToLocal. run. rewrite Hsb. run.
    rewrite (await_fulfilled _ _ _ _ Hresp).
    rewrite (throw_if_error_reported _ _ _ Herr). reflexivity.
  - intros w c payload r e Hsb Hp Hresp Herr.
    unfold createReservationSB. run.
    rewrite !(getprop_field payload) by exact Hp. run.
    rewrite Hsb. run. fold (insert_row payload).
    rewrite (await_fulfilled _ _ _ _ Hresp).
    rewrite (throw_if_error_reported _ _ _ Herr). reflexivity.
  - intros w c id fields r e Hsb q Hresp Herr.
    unfold updateReservationSB. run. rewrite Hsb. run. fold q.
    rewrite (await_fulfilled _ _ _ _ Hresp).
    rewrite (throw_if_error_reported _ _ _ Herr). reflexivity.
  - intros w c id r e Hsb Hresp Herr.
    unfold deleteReservationSB. run. rewrite Hsb. run.
    rewrite (await_fulfilled _ _ _ _ Hresp).
    rewrite (throw_if_error_reported _ _ _ Herr). reflexivity.
Qed.

(** ** Footprints *)

Lemma within_refl (fp : Footprint) (w : World) : within fp w w.
Proof. repeat split. Qed.

Lemma within_trans (fp : Footprint) (w1 w2 w3 : World) :
  within fp w1 w2 -> within fp w2 w3 -> within fp w1 w3.
Proof.
  intros (A1 & A2 & A3 & A4 & A5 & A6) (B1 & B2 & B3 & B4 & B5 & B6).
  split; [congruence|]. split; [intros H; rewrite (B2 H); auto|].
  split; [intros k H; rewrite (B3 k H); auto|].
  split; [intros H; rewrite (B4 H); auto|].
  split; [intros H; rewrite (B5 H); auto|intros H; rewrite (B6 H); auto].
Qed.

Lemma stays_bind {A B} (fp : Footprint) (m : M A) (k : A -> M B) :
  stays_within fp m -> (forall a, stays_within fp (k a)) ->
  stays_within fp (bind m k).
Proof.
  intros Hm Hk w o w'. unfold bind.
  destruct (m w) as [[a|e] w1] eqn:Em; intros Hr.
  - exact (within_trans _ _ _ _ (Hm _ _ _ Em) (Hk a _ _ _ Hr)).
  - injection Hr as <- <-. exact (Hm _ _ _ Em).
Qed.

Lemma stays_try_catch {A} (fp : Footprint) (m h : M A) :
  stays_within fp m -> stays_within fp h -> stays_within fp (try_catch m h).
Proof.
  intros Hm Hh w o w'. unfold try_catch.
  destruct (m w) as [[a|e] w1] eqn:Em; intros Hr.
  - injection Hr as <- <-. exact (Hm _ _ _ Em).
  - exact (within_trans _ _ _ _ (Hm _ _ _ Em) (Hh _ _ _ Hr)).
Qed.

Lemma stays_ret {A} (fp : Footprint) (a : A) : stays_within fp (ret a).
Proof. intros w o w' [= <- <-]. apply within_refl. Qed.

Lemma stays_throw {A} (fp : Footprint) (e : Exn) : stays_within fp (@throw A e).
Proof. intros w o w' [= <- <-]. apply within_refl. Qed.

Lemma stays_lift {A} (fp : Footprint) (o : Outcome A) : stays_within fp (lift o).
Proof. intros w o' w' [= <- <-]. apply within_refl. Qed.

Lemma stays_get_supabase (fp : Footprint) : stays_within fp get_supabase.
Proof. intros w o w' [= <- <-]. apply within_refl. Qed.

Lemma stays_await (fp : Footprint) (c : Client) (q : Request) :
  may_request fp = true -> stays_within fp (await c q).
Proof.
  intros Hfp w o w'. unfold await.
  destruct (respond c (requests w) q); intros [= <- <-];
    (split; [reflexivity|]; split; [congruence|]; repeat split).
Qed.

Lemma stays_LS_get (fp : Footprint) (k : string) (def : JSValue) :
  stays_within fp (LS_get k def).
Proof. intros w o w'. rewrite LS_get_spec. intros [= <- <-]. apply within_refl. Qed.

Lemma stays_LS_set (fp : Footprint) (k : string) (v : JSValue) :
  may_store fp k = true -> stays_within fp (LS_set k v).
Proof.
  intros Hfp w o w'. rewrite LS_set_spec. intros [= <- <-].
  destruct (LS_store_cases k v w) as [-> | [s ->]]; [apply within_refl|].
  split; [reflexivity|]. split; [reflexivity|]. split; [|repeat split].
  intros k' Hk'. cbn [storage store_item]. apply lookup_insert_ne. congruence.
Qed.

Lemma stays_dispatchEvent (fp : Footprint) (name : string) :
  may_emit fp = true -> stays_within fp (dispatchEvent name).
Proof.
  intros Hfp w o w' [= <- <-].
  split; [reflexivity|]. split; [reflexivity|]. split; [reflexivity|].
  split; [congruence|]. split; reflexivity.
Qed.

Lemma stays_set_location_href (fp : Footprint) (url : JSValue) :
  may_redirect fp = true -> stays_within fp (set_location_href url).
Proof.
  intros Hfp w o w' [= <- <-].
  split; [reflexivity|]. split; [reflexivity|]. split; [reflexivity|].
  split; [reflexivity|]. split; [congruence|reflexivity].
Qed.

Lemma stays_Date_now (fp : Footprint) :
  may_tick fp = true -> stays_within fp Date_now.
Proof.
  intros Hfp w o w' [= <- <-].
  split; [reflexivity|]. split; [reflexivity|]. split; [reflexivity|].
  split; [reflexivity|]. split; [reflexivity|congruence].
Qed.

Lemma stays_mapM {A B} (fp : Footprint) (f : A -> M B) (l : list A) :
  (forall x, stays_within fp (f x)) -> stays_within fp (mapM f l).
Proof.
  intros Hf. induction l as [|x l IH]; cbn [mapM]; [apply stays_ret|].
  apply stays_bind; [apply Hf|]. intros y.
  apply stays_bind; [apply IH|]. intros ys. apply stays_ret.
Qed.

Lemma stays_array_map (fp : Footprint) (f : JSValue -> M JSValue) (v : JSValue) :
  (forall x, stays_within fp (f x)) -> stays_within fp (array_map f v).
Proof.
  intros Hf. destruct v; try apply stays_throw. cbn [array_map].
  apply stays_bind; [apply stays_mapM, Hf|]. intros l'. apply stays_ret.
Qed.

(** Follows the script through its binds, branches and handlers. *)
Ltac foot :=
  unfold throw_if_error, fireSyncedEvent, nowISO, adapt_reservation,
    redirect_to, await_global, isCurrentUserAdminRPC, probeAdminBySelect;
  cbv zeta;
  repeat first
    [ progress intros
    | apply stays_LS_get
    | apply stays_LS_set; reflexivity
    | apply stays_await; reflexivity
    | apply stays_dispatchEvent; reflexivity
    | apply stays_set_location_href; reflexivity
    | apply stays_Date_now; reflexivity
    | apply stays_array_map
    | apply stays_ret
    | apply stays_throw
    | apply stays_lift
    | apply stays_get_supabase
    | apply stays_bind
    | apply stays_try_catch
    | match goal with
      | |- stays_within _ (match ?x with _ => _ end) => destruct x
      end ].

Lemma stays_syncPublicCatalogToLocal : stays_within fp_catalog syncPublicCatalogToLocal.
Proof. unfold syncPublicCatalogToLocal. foot. Qed.

Lemma stays_syncAdminDataToLocal : stays_within fp_reservations syncAdminDataToLocal.
Proof. unfold syncAdminDataToLocal. foot. Qed.

Lemma stays_createReservationSB (payload : JSValue) :
  stays_within fp_reservations (createReservationSB payload).
Proof. unfold createReservationSB. foot. Qed.

Lemma stays_updateReservationSB (id fields : JSValue) :
  stays_within fp_reservations (updateReservationSB id fields).
Proof. unfold updateReservationSB. foot. Qed.

Lemma stays_deleteReservationSB (id : JSValue) :
  stays_within fp_reservations (deleteReservationSB id).
Proof. unfold deleteReservationSB. foot. Qed.

(** X9: The four reservation operations, however they end, store under no
    key but [reservations], assign nothing to [location.href] and leave
    the client in place. *)
Theorem reservation_operations_footprint
    (id fields payload : JSValue) (w w' : World) (o : Outcome JSValue) :
  syncAdminDataToLocal w = (o, w') \/
  createReservationSB payload w = (o, w') \/
  updateReservationSB id fields w = (o, w') \/
  deleteReservationSB id w = (o, w') ->
  (forall k, k <> "reservations" -> storage w' !! k = storage w !! k) /\
  redirects w' = redirects w /\
  supabase w' = supabase w.
Proof.
  intros Hrun.
  assert (Hw : within fp_reservations w w').
  { destruct Hrun as [H | [H | [H | H]]].
    - exact (stays_syncAdminDataToLocal _ _ _ H).
    - exact (stays_createReservationSB _ _ _ _ H).
    - exact (stays_updateReservationSB _ _ _ _ _ H).
    - exact (stays_deleteReservationSB _ _ _ _ H). }
  destruct Hw as (Hsb & _ & Hst & _ & Hre & _).
  split; [|split; [apply Hre; reflexivity | exact Hsb]].
  intros k Hk. apply Hst. cbn. apply String.eqb_neq, Hk.
Qed.

(** X10: [syncPublicCatalogToLocal], however it ends, stores under no key but
    [categories] and [menuItemsVisible], dispatches no event, assigns
    nothing to [location.href] and does not read the clock. *)
Theorem syncPublicCatalogToLocal_footprint (w w' : World) (o : Outcome JSValue) :
  syncPublicCatalogToLocal w = (o, w') ->
  (forall k, k <> "categories" -> k <> "menuItemsVisible" ->
     storage w' !! k = storage w !! k) /\
  events w' = events w /\
  redirects w' = redirects w /\
  ticks w' = ticks w.
Proof.
  intros Hrun.
  destruct (stays_syncPublicCatalogToLocal _ _ _ Hrun) as (_ & _ & Hst & Hev & Hre & Hti).
  split; [|split; [apply Hev; reflexivity|split; [apply Hre|apply Hti]; reflexivity]].
  intros k Hk1 Hk2. apply Hst. cbn.
  rewrite (proj2 (String.eqb_neq _ _) Hk1), (proj2 (String.eqb_neq _ _) Hk2).
  reflexivity.
Qed.

(** ** One request per call *)

Lemma bind_get_supabase {A} (k : option Client -> M A) (w : World) :
  bind get_supabase k w = k (supabase w) w.
Proof. reflexivity. Qed.

Lemma bind_lift_Ret {A B} (a : A) (k : A -> M B) (w : World) :
  bind (lift (Ret a)) k w = k a w.
Proof. reflexivity. Qed.

Lemma request_then_local {A} (c : Client) (q : Request) (k : JSValue -> M A) :
  (forall r, stays_within fp_local (k r)) ->
  forall w o w', bind (await c q) k w = (o, w') ->
    requests w' = (requests w ++ [q])%list.
Proof.
  intros Hk w o w'. unfold bind, await.
  destruct (respond c (requests w) q) as [r|e].
  - intros Hr. destruct (Hk r _ _ _ Hr) as (_ & Hreq & _).
    rewrite Hreq; reflexivity.
  - intros [= <- <-]. reflexivity.
Qed.

Lemma throw_if_error_world (r : JSValue) (w w' : World) (o : Outcome unit) :
  throw_if_error r w = (o, w') -> w' = w.
Proof.
  unfold throw_if_error, bind, lift.
  destruct (getprop r "error") as [e|]; [|intros [= <- <-]; reflexivity].
  destruct (truthy e); intros [= <- <-]; reflexivity.
Qed.

(** X8: With a client, every call of a reservation operation sends exactly
    one request, however the call ends; the catalog sync sends the
    categories query, and after it the menu query unless the first was
    rejected or reported an error.  Nothing is sent twice. *)
Theorem one_request_per_call
    (w w' : World) (c : Client) (id fields payload : JSValue) (o : Outcome JSValue) :
  supabase w = Some c ->
  (syncAdminDataToLocal w = (o, w') ->
     requests w' = (requests w ++ [reservations_query])%list) /\
  (is_nullish payload = false -> createReservationSB payload w = (o, w') ->
     requests w' = (requests w ++ [insert_query (insert_row payload)])%list) /\
  (updateReservationSB id fields w = (o, w') ->
     requests w' =
       (requests w ++ [update_query id (default_arg fields (VObj []))])%list) /\
  (deleteReservationSB id w = (o, w') ->
     requests w' = (requests w ++ [delete_query id])%list) /\
  (syncPublicCatalogToLocal w = (o, w') ->
     (requests w' = (requests w ++ [categories_query])%list /\
      forall v, o <> Ret v) \/
     requests w' = (requests w ++ [categories_query; menu_items_query])%list).
Proof.
  intros Hsb. split; [|split; [|split; [|split]]].
  - unfold syncAdminDataToLocal. rewrite bind_get_supabase, Hsb.
    apply request_then_local. foot.
  - intros Hp. unfold createReservationSB.
    rewrite !(getprop_field payload) by exact Hp.
    repeat (rewrite bind_lift_Ret; cbv beta zeta).
    rewrite bind_get_supabase, Hsb. fold (insert_row payload).
    apply request_then_local. foot.
  - unfold updateReservationSB. cbv zeta. rewrite bind_get_supabase, Hsb.
    apply request_then_local. foot.
  - unfold deleteReservationSB. rewrite bind_get_supabase, Hsb.
    apply request_then_local. foot.
  - unfold syncPublicCatalogToLocal. rewrite bind_get_supabase, Hsb.
    unfold bind at 1. unfold await at 1.
    destruct (respond c (requests w) categories_query) as [cats|e].
    + unfold bind at 1.
      destruct (throw_if_error cats (log_request categories_query w))
        as [[[]|e] w1] eqn:Ee.
      * apply throw_if_error_world in Ee. subst w1. intros Hr. right.
        apply request_then_local in Hr; [|foot].
        rewrite Hr. cbn [requests log_request]. rewrite <- app_assoc. reflexivity.
      * apply throw_if_error_world in Ee. subst w1. intros [= <- <-].
        left. split; [reflexivity | discriminate].
    + intros [= <- <-]. left. split; [reflexivity | discriminate].
Qed.

(** ** The guard on every path *)

Lemma isCurrentUserAdminRPC_no_client (uid : JSValue) (w : World) :
  supabase w = None -> isCurrentUserAdminRPC uid w = (Ret (VBool false), w).
Proof.
  intros Hsb. unfold isCurrentUserAdminRPC, await_global. run. rewrite Hsb. reflexivity.
Qed.

Lemma probeAdminBySelect_no_client (w : World) :
  supabase w = None -> probeAdminBySelect w = (Ret (VBool false), w).
Proof.
  intros Hsb. unfold probeAdminBySelect, await_global. run. rewrite Hsb. reflexivity.
Qed.

Lemma rpc_affirms_true (a : Await) :
  rpc_affirms a = true ->
  exists r d e, a = Fulfilled r /\ getprop r "data" = Ret d /\ truthy d = true /\
                getprop r "error" = Ret e /\ truthy e = false.
Proof.
  unfold rpc_affirms. destruct a as [r|]; [|discriminate].
  destruct (getprop r "data") as [d|] eqn:Ed; [|discriminate].
  destruct (getprop r "error") as [e|] eqn:Ee; [|discriminate].
  intros H. apply andb_true_iff in H as [He Hd]. apply negb_true_iff in He.
  exists r, d, e. repeat split; first [assumption | reflexivity].
Qed.

Lemma probe_succeeds_true (a : Await) :
  probe_succeeds a = true ->
  exists r e, a = Fulfilled r /\ getprop r "error" = Ret e /\ truthy e = false.
Proof.
  unfold probe_succeeds. destruct a as [r|]; [|discriminate].
  destruct (getprop r "error") as [e|] eqn:Ee; [|discriminate].
  intros He. apply negb_true_iff in He. exists r, e.
  repeat split; first [assumption | reflexivity].
Qed.

(** X4: [isCurrentUserAdminRPC] and [probeAdminBySelect] never throw and
    answer a boolean; they change nothing but the list of requests, to
    which they add at most their own; without a client they answer false
    and send nothing; and they answer true only when the backend has
    answered, without an error and, for the procedure, with truthy
    data: a rejection, a reported error or a malformed answer is a
    false. *)
Theorem admin_checks_never_throw (uid : JSValue) (w : World) :
  let rpc := Rpc "is_admin" (VObj [("u", uid)]) in
  exists b1 b2 w1 w2,
    isCurrentUserAdminRPC uid w = (Ret (VBool b1), w1) /\
    probeAdminBySelect w = (Ret (VBool b2), w2) /\
    (w1 = w \/ w1 = log_request rpc w) /\
    (w2 = w \/ w2 = log_request probe_query w) /\
    (supabase w = None -> b1 = false /\ b2 = false /\ w1 = w /\ w2 = w) /\
    (b1 = true ->
       exists c r d e, supabase w = Some c /\
         respond c (requests w) rpc = Fulfilled r /\
         getprop r "data" = Ret d /\ truthy d = true /\
         getprop r "error" = Ret e /\ truthy e = false) /\
    (b2 = true ->
       exists c r e, supabase w = Some c /\
         respond c (requests w) probe_query = Fulfilled r /\
         getprop r "error" = Ret e /\ truthy e = false).
Proof.
  intros rpc. destruct (supabase w) as [c|] eqn:Hsb.
  - exists (rpc_affirms (respond c (requests w) rpc)),
           (probe_succeeds (respond c (requests w) probe_query)),
           (log_request rpc w), (log_request probe_query w).
    split; [apply (isCurrentUserAdminRPC_spec c uid w Hsb)|].
    split; [apply (probeAdminBySelect_spec c w Hsb)|].
    split; [right; reflexivity|]. split; [right; reflexivity|].
    split; [discriminate|]. split.
    + intros Hb. destruct (rpc_affirms_true _ Hb) as (r & d & e & H1 & H2 & H3 & H4 & H5).
      exists c, r, d, e. repeat split; first [assumption | reflexivity].
    + intros Hb. destruct (probe_succeeds_true _ Hb) as (r & e & H1 & H2 & H3).
      exists c, r, e. repeat split; first [assumption | reflexivity].
  - exists false, false, w, w.
    split; [apply isCurrentUserAdminRPC_no_client, Hsb|].
    split; [apply probeAdminBySelect_no_client, Hsb|].
    split; [left; reflexivity|]. split; [left; reflexivity|].
    split; [intros _; repeat split|]. split; discriminate.
Qed.

(** The guard with a client, path by path. *)
Lemma requireAdminOrRedirect_run (w : World) (c : Client) (loginUrl : JSValue) :
  supabase w = Some c ->
  requireAdminOrRedirect loginUrl w =
    let url := default_arg loginUrl (VStr "login.html") in
    let w1 := log_request GetSession w in
    match respond c (requests w) GetSession with
    | Rejected e => (Throw e, w1)
    | Fulfilled r =>
        match (let? data := getprop r "data" in getprop data "session") with
        | Throw e => (Throw e, w1)
        | Ret session =>
            let uid := opt_field (opt_field session "user") "id" in
            let rpc := Rpc "is_admin" (VObj [("u", uid)]) in
            let w2 := log_request rpc w1 in
            let w3 := log_request probe_query w2 in
            if truthy uid then
              if rpc_affirms (respond c (requests w1) rpc)
              then (Ret (VBool true), w2)
              else if probe_succeeds (respond c (requests w2) probe_query)
                   then (Ret (VBool true), w3)
                   else (Ret (VBool false), navigate url w3)
            else (Ret (VBool false), navigate url w1)
        end
    end.
Proof.
  intros Hsb. cbv zeta. unfold requireAdminOrRedirect. run. rewrite Hsb. run.
  unfold await at 1.
  destruct (respond c (requests w) GetSession) as [r|e]; [|reflexivity].
  destruct (getprop r "data") as [data|e]; [|reflexivity]. cbn [obind].
  destruct (getprop data "session") as [session|e]; [|reflexivity].
  rewrite !optprop_spec.
  destruct (truthy (opt_field (opt_field session "user") "id")) eqn:Hu;
    [|reflexivity].
  cbn [negb].
  destruct (truthy_opt_field _ _ Hu) as [Huser Heq].
  assert (Hsess : is_nullish session = false).
  { unfold opt_field in Huser. destruct (is_nullish session); [discriminate|reflexivity]. }
  assert (Huf : opt_field session "user" = field session "user").
  { unfold opt_field. rewrite Hsess. reflexivity. }
  rewrite (getprop_field session) by exact Hsess.
  rewrite <- Huf. rewrite (getprop_field (opt_field session "user")) by exact Huser.
  rewrite <- Heq.
  rewrite (isCurrentUserAdminRPC_spec c _ (log_request GetSession w) Hsb).
  destruct (rpc_affirms _); [reflexivity|]. cbn [truthy].
  rewrite (probeAdminBySelect_spec c (log_request _ (log_request GetSession w)) Hsb).
  destruct (probe_succeeds _); reflexivity.
Qed.

Lemma requireAdminOrRedirect_no_client (w : World) (loginUrl : JSValue) :
  supabase w = None -> requireAdminOrRedirect loginUrl w = (Ret (VBool false), w).
Proof. intros Hsb. unfold requireAdminOrRedirect. run. rewrite Hsb. reflexivity. Qed.

(** X5: The guard fails closed: it answers true only when there is a client,
    the session read went through and has a user id, and either the
    [is_admin] procedure affirmed or the restricted read succeeded; and
    then nothing was assigned to [location.href]. *)
Theorem requireAdminOrRedirect_true_only_if_affirmed
    (w w' : World) (loginUrl : JSValue) :
  requireAdminOrRedirect loginUrl w = (Ret (VBool true), w') ->
  exists c r data session,
    supabase w = Some c /\
    respond c (requests w) GetSession = Fulfilled r /\
    getprop r "data" = Ret data /\
    getprop data "session" = Ret session /\
    let uid := opt_field (opt_field session "user") "id" in
    let w1 := log_request GetSession w in
    let rpc := Rpc "is_admin" (VObj [("u", uid)]) in
    let w2 := log_request rpc w1 in
    truthy uid = true /\
    (rpc_affirms (respond c (requests w1) rpc) = true \/
     probe_succeeds (respond c (requests w2) probe_query) = true) /\
    redirects w' = redirects w.
Proof.
  destruct (supabase w) as [c|] eqn:Hsb.
  2:{ rewrite (requireAdminOrRedirect_no_client w loginUrl Hsb). discriminate. }
  rewrite (requireAdminOrRedirect_run w c loginUrl Hsb). cbv zeta.
  destruct (respond c (requests w) GetSession) as [r|e] eqn:Hr; [|discriminate].
  destruct (getprop r "data") as [data|e] eqn:Hd; [|discriminate]. cbn [obind].
  destruct (getprop data "session") as [session|e] eqn:Hs; [|discriminate].
  destruct (truthy (opt_field (opt_field session "user") "id")) eqn:Hu; [|discriminate].
  intros Hrun. exists c, r, data, session.
  split; [reflexivity|]. split; [exact Hr|]. split; [exact Hd|].
  split; [exact Hs|]. split; [exact Hu|].
  destruct (rpc_affirms _) eqn:Hrpc.
  - injection Hrun as <-. split; [left|]; reflexivity.
  - destruct (probe_succeeds _) eqn:Hp; [|discriminate].
    injection Hrun as <-. split; [right|]; reflexivity.
Qed.

(** X6: Whatever the guard does, it leaves the store, the event log and the
    clock alone.  When it returns, it returns a boolean: true with no
    redirect, or false, and then, if there is a client, after exactly
    one assignment of the login URL to [location.href] (without a
    client, after nothing at all).  When it throws, it has not
    redirected. *)
Theorem requireAdminOrRedirect_redirects_iff_false
    (w w' : World) (loginUrl : JSValue) (o : Outcome JSValue) :
  requireAdminOrRedirect loginUrl w = (o, w') ->
  storage w' = storage w /\ events w' = events w /\ ticks w' = ticks w /\
  match o with
  | Ret v =>
      (v = VBool true /\ redirects w' = redirects w) \/
      (v = VBool false /\
       match supabase w with
       | Some _ =>
           redirects w' =
             (redirects w ++ [default_arg loginUrl (VStr "login.html")])%list
       | None => w' = w
       end)
  | Throw _ => redirects w' = redirects w
  end.
Proof.
  destruct (supabase w) as [c|] eqn:Hsb.
  2:{ rewrite (requireAdminOrRedirect_no_client w loginUrl Hsb).
      intros [= <- <-]. repeat split. right. split; reflexivity. }
  rewrite (requireAdminOrRedirect_run w c loginUrl Hsb). cbv zeta.
  destruct (respond c (requests w) GetSession) as [r|e];
    [|intros [= <- <-]; repeat split].
  destruct (let? data := getprop r "data" in getprop data "session")
    as [session|e]; [|intros [= <- <-]; repeat split].
  destruct (truthy _).
  - destruct (rpc_affirms _).
    + intros [= <- <-]. repeat split. left. split; reflexivity.
    + destruct (probe_succeeds _); intros [= <- <-]; repeat split;
        [left | right]; split; reflexivity.
  - intros [= <- <-]. repeat split. right. split; reflexivity.
Qed.

(** X7: With a client, the guard throws exactly when the session cannot be
    read: [getSession] is rejected, or its answer has no [data] or no
    [data.session] to destructure.  It then throws that very error, with
    one request sent.  A failure of the [is_admin] procedure or of the
    restricted read never makes it throw. *)
Theorem requireAdminOrRedirect_throws_iff_no_session
    (w w' : World) (c : Client) (loginUrl : JSValue) (e : Exn) :
  supabase w = Some c ->
  (requireAdminOrRedirect loginUrl w = (Throw e, w') <->
   w' = log_request GetSession w /\
   (respond c (requests w) GetSession = Rejected e \/
    exists r, respond c (requests w) GetSession = Fulfilled r /\
      (let? data := getprop r "data" in getprop data "session") = Throw e)).
Proof.
  intros Hsb. rewrite (requireAdminOrRedirect_run w c loginUrl Hsb). cbv zeta.
  destruct (respond c (requests w) GetSession) as [r|e0].
  - destruct (let? data := getprop r "data" in getprop data "session")
      as [session|e0] eqn:Hs.
    + split.
      * destruct (truthy _); [destruct (rpc_affirms _); [|destruct (probe_succeeds _)]|];
          discriminate.
      * intros (_ & [H | (r0 & [= <-] & H)]); [discriminate | congruence].
    + split.
      * intros [= <- <-]. split; [reflexivity|]. right. exists r. split; [reflexivity|exact Hs].
      * intros (-> & [H | (r0 & [= <-] & H)]); [discriminate|].
        rewrite Hs in H. injection H as ->. reflexivity.
  - split.
    + intros [= <- <-]. split; [reflexivity | left; reflexivity].
    + intros (-> & [[= ->] | (r0 & H & _)]); [reflexivity | discriminate].
Qed.

(** ** The store through the helpers *)

(** X1: [LS.set(k, v)] reaches no key but [k]: whatever it does, every other
    key holds what it held and reads as it read, and nothing else in the
    world changes. *)
Theorem LS_set_touches_one_key
    (k k' : string) (v def : JSValue) (w w' : World) :
  k <> k' ->
  LS_set k v w = (Ret tt, w') ->
  storage w' !! k' = storage w !! k' /\
  (LS_get k' def w').1 = (LS_get k' def w).1 /\
  events w' = events w /\ redirects w' = redirects w /\
  requests w' = requests w /\ ticks w' = ticks w /\ supabase w' = supabase w.
Proof.
  intros Hk. rewrite LS_set_spec. intros [= <-].
  assert (Hst : storage (LS_store k v w) !! k' = storage w !! k').
  { destruct (LS_store_cases k v w) as [-> | [s ->]]; [reflexivity|].
    cbn [storage store_item]. apply lookup_insert_ne, Hk. }
  split; [exact Hst|]. split.
  { rewrite !LS_get_spec. cbn [fst]. unfold LS_read. rewrite Hst. reflexivity. }
  destruct (LS_store_cases k v w) as [-> | [s ->]]; repeat split.
Qed.

(** X2: A set that goes through followed by a get: when the value is
    serialised to [s], the store takes it and [s] parses to [v'], the key
    holds [s] (whatever it held) and [LS.get] answers [v'], or the
    default when [v'] is null. *)
Theorem LS_set_then_get
    (k s : string) (v v' def : JSValue) (w : World) :
  storage_available = true ->
  JSON_stringify v = Ret (Some s) ->
  storage_fits (storage w) k s = true ->
  JSON_parse s = Ret v' ->
  exists w',
    LS_set k v w = (Ret tt, w') /\
    storage w' = <[k := s]> (storage w) /\
    LS_get k def w' = (Ret (js_coalesce v' def), w').
Proof.
  intros Ha Hj Hfit Hp. exists (store_item k s w).
  assert (Hset : LS_store k v w = store_item k s w).
  { unfold LS_store. rewrite Hj, Ha. cbn. rewrite Hfit. reflexivity. }
  split; [rewrite LS_set_spec, Hset; reflexivity|]. split; [reflexivity|].
  rewrite LS_get_spec. unfold LS_read. rewrite Ha. cbn [storage store_item].
  rewrite lookup_insert_eq. cbn. rewrite Hp. reflexivity.
Qed.

(** X3: [LS.set(k, v)] for a [v] that [JSON.stringify] turns into undefined
    does not clear the key: [setItem] is handed undefined and stores the
    text [undefined]; as that text is no JSON, a later [LS.get] answers
    the default. *)
Theorem LS_set_undefined_stores_text
    (k : string) (v def : JSValue) (w : World) :
  storage_available = true ->
  JSON_stringify v = Ret None ->
  storage_fits (storage w) k "undefined" = true ->
  exists w',
    LS_set k v w = (Ret tt, w') /\
    storage w' !! k = Some "undefined" /\
    (forall e, JSON_parse "undefined" = Throw e ->
       LS_get k def w' = (Ret def, w')).
Proof.
  intros Ha Hj Hfit. exists (store_item k "undefined" w).
  assert (Hset : LS_store k v w = store_item k "undefined" w).
  { unfold LS_store. rewrite Hj, Ha. cbn. rewrite Hfit. reflexivity. }
  split; [rewrite LS_set_spec, Hset; reflexivity|].
  split; [cbn [storage store_item]; apply lookup_insert_eq|].
  intros e He. rewrite LS_get_spec. unfold LS_read. rewrite Ha.
  cbn [storage store_item]. rewrite lookup_insert_eq. cbn. rewrite He. reflexivity.
Qed.

(** ** Computations that do not read the store *)

Lemma same_view_refl (w : World) : same_view w w.
Proof. repeat split. Qed.

















(** ** The CRUD operations after a successful request *)

Lemma deleteReservationSB_run (w : World) (c : Client) (id r : JSValue) :
  supabase w = Some c ->
  respond c (requests w) (delete_query id) = Fulfilled r ->
  ok_response r ->
  deleteReservationSB id w =
    match array_filter (other_id id) (LS_read "reservations" (VArr []) w) with
    | Ret next =>
        (Ret (VBool true),
         emit "sb:admin-synced"
           (LS_store "reservations" next (log_request (delete_query id) w)))
    | Throw e => (Throw e, log_request (delete_query id) w)
    end.
Proof.
  intros Hsb Hresp Hok. unfold deleteReservationSB. run. rewrite Hsb. run.
  rewrite (await_fulfilled _ _ _ _ Hresp), (throw_if_error_ok _ _ Hok).
  rewrite LS_get_spec, LS_read_log_request.
  destruct (array_filter _ _) as [next|e]; [|reflexivity].
  rewrite LS_set_spec, fireSyncedEvent_spec. reflexivity.
Qed.

Lemma createReservationSB_run (w : World) (c : Client) (payload r : JSValue) :
  supabase w = Some c ->
  is_nullish payload = false ->
  respond c (requests w) (insert_query (insert_row payload)) = Fulfilled r ->
  ok_response r ->
  let w1 := tick (tick (log_request (insert_query (insert_row payload)) w)) in
  createReservationSB payload w =
    match array_unshift
            (optimistic_entry payload (clock (ticks w)) (clock (S (ticks w))))
            (LS_read "reservations" (VArr []) w) with
    | Ret list =>
        (Ret (VBool true), emit "sb:admin-synced" (LS_store "reservations" list w1))
    | Throw e => (Throw e, w1)
    end.
Proof.
  intros Hsb Hp Hresp Hok w1. unfold createReservationSB. run.
  rewrite !(getprop_field payload) by exact Hp. run.
  rewrite Hsb. run. fold (insert_row payload).
  rewrite (await_fulfilled _ _ _ _ Hresp), (throw_if_error_ok _ _ Hok).
  rewrite LS_get_spec, LS_read_log_request.
  unfold Date_now at 1. rewrite nowISO_spec.
  fold (optimistic_entry payload (clock (ticks w)) (clock (S (ticks w)))).
  destruct (array_unshift _ _) as [list|e]; [|reflexivity].
  rewrite LS_set_spec, fireSyncedEvent_spec. reflexivity.
Qed.

Lemma updateReservationSB_run (w : World) (c : Client) (id fields r : JSValue) :
  supabase w = Some c ->
  let q := update_query id (default_arg fields (VObj [])) in
  respond c (requests w) q = Fulfilled r ->
  ok_response r ->
  let w1 := log_request q w in
  updateReservationSB id fields w =
    match LS_read "reservations" (VArr []) w with
    | VArr l =>
        match findIndexO (same_id id) l with
        | Ret (Some i) =>
            match build_patch (js_or (default_arg fields (VObj [])) (VObj [])) with
            | Ret patch =>
                (Ret (field r "data"),
                 emit "sb:admin-synced"
                   (LS_store "reservations"
                      (VArr (<[i := VObj (obj_set
                                 (obj_assign (own_props (default VUndef (l !! i))) patch)
                                 "updatedAt" (VStr (toISOString (clock (ticks w)))))]> l))
                      (tick w1)))
            | Throw e => (Throw e, w1)
            end
        | Ret None => (Ret (field r "data"), w1)
        | Throw e => (Throw e, w1)
        end
    | _ => (Throw TypeError, w1)
    end.
Proof.
  intros Hsb q Hresp Hok w1.
  assert (Hr : is_nullish r = false) by (apply ok_response_not_nullish, Hok).
  unfold updateReservationSB. run. rewrite Hsb. run. fold q.
  rewrite (await_fulfilled _ _ _ _ Hresp), (throw_if_error_ok _ _ Hok).
  rewrite LS_get_spec, LS_read_log_request.
  destruct (LS_read "reservations" (VArr []) w) as [| |b|x|t|l|fs]; try reflexivity.
  cbv beta iota delta [array_findIndex].
  destruct (findIndexO (same_id id) l) as [[i|]|e].
  - destruct (build_patch _) as [patch|e]; [|reflexivity]. run.
    rewrite nowISO_spec, LS_set_spec, fireSyncedEvent_spec.
    rewrite (getprop_field r) by exact Hr. reflexivity.
  - rewrite (getprop_field r) by exact Hr. reflexivity.
  - reflexivity.
Qed.

Lemma filter_all {A} (P : A -> Prop) `{!forall x, Decision (P x)} (l : list A) :
  (forall x, x ∈ l -> P x) -> filter P l = l.
Proof.
  induction l as [|x l IH]; intros Hall; [reflexivity|].
  rewrite filter_cons_True by (apply Hall; left). f_equal. apply IH.
  intros y Hy. apply Hall. right. exact Hy.
Qed.

(** X12: Deleting an id that no cached entry carries: the backend delete
    having succeeded, [deleteReservationSB] writes the cached list back
    as it was and still dispatches the event (where
    [updateReservationSB], for an id not cached, writes and dispatches
    nothing). *)
Theorem deleteReservationSB_unknown_id
    (w : World) (c : Client) (id r : JSValue) (l : list JSValue) :
  supabase w = Some c ->
  respond c (requests w) (delete_query id) = Fulfilled r ->
  ok_response r ->
  LS_read "reservations" (VArr []) w = VArr l ->
  Forall (fun x => is_nullish x = false) l ->
  (forall x, x ∈ l -> ToString (field x "id") <> ToString id) ->
  let w' := emit "sb:admin-synced"
              (LS_store "reservations" (VArr l) (log_request (delete_query id) w)) in
  deleteReservationSB id w = (Ret (VBool true), w') /\
  events w' = (events w ++ ["sb:admin-synced"])%list.
Proof.
  intros Hsb Hresp Hok Hread Hl Hno w'. split.
  - rewrite (deleteReservationSB_run w c id r Hsb Hresp Hok), Hread.
    cbv beta iota delta [array_filter].
    rewrite (filterO_other_id id l Hl). cbn [obind].
    rewrite (filter_all _ l Hno). reflexivity.
  - subst w'. cbn [events emit]. rewrite LS_store_events. reflexivity.
Qed.

(** X13: A cache that holds something other than a list under [reservations]
    (a stored object, number, string or boolean; [LS.get] only defaults
    on null): the backend request having succeeded, create, update and
    delete throw a [TypeError], after the server row was written, and
    leave the store and the event log as they were. *)
Theorem corrupt_cache_throws_after_request
    (w : World) (c : Client) (id fields payload r : JSValue) :
  supabase w = Some c ->
  ok_response r ->
  is_array (LS_read "reservations" (VArr []) w) = false ->
  (is_nullish payload = false ->
   respond c (requests w) (insert_query (insert_row payload)) = Fulfilled r ->
   createReservationSB payload w =
     (Throw TypeError,
      tick (tick (log_request (insert_query (insert_row payload)) w)))) /\
  (respond c (requests w) (update_query id (default_arg fields (VObj []))) = Fulfilled r ->
   updateReservationSB id fields w =
     (Throw TypeError,
      log_request (update_query id (default_arg fields (VObj []))) w)) /\
  (respond c (requests w) (delete_query id) = Fulfilled r ->
   deleteReservationSB id w = (Throw TypeError, log_request (delete_query id) w)).
Proof.
  intros Hsb Hok Harr. split; [|split].
  - intros Hp Hresp.
    rewrite (createReservationSB_run w c payload r Hsb Hp Hresp Hok).
    destruct (LS_read "reservations" (VArr []) w); try discriminate; reflexivity.
  - intros Hresp. rewrite (updateReservationSB_run w c id fields r Hsb Hresp Hok).
    destruct (LS_read "reservations" (VArr []) w); try discriminate; reflexivity.
  - intros Hresp. rewrite (deleteReservationSB_run w c id r Hsb Hresp Hok).
    destruct (LS_read "reservations" (VArr []) w); try discriminate; reflexivity.
Qed.

Lemma build_patch_no_fields (fields : JSValue) :
  fields = VUndef \/ truthy fields = false \/ is_array fields = true ->
  build_patch (js_or (default_arg fields (VObj [])) (VObj [])) = Ret [].
Proof.
  intros [-> | [Hf | Ha]]; [reflexivity| |].
  - destruct fields; try discriminate; try reflexivity;
      cbn [default_arg]; unfold js_or; rewrite Hf; reflexivity.
  - destruct fields; try discriminate. reflexivity.
Qed.

(** X14: An update that names no field: when [fields] is omitted, falsy (such
    as null) or an array, and the backend update succeeds, the first
    cached entry with the id gets a fresh [updatedAt] and nothing else
    changes in it; the list is written back and the event dispatched. *)
Theorem updateReservationSB_without_fields
    (w : World) (c : Client) (id fields r : JSValue) (l : list JSValue)
    (i : nat) (old : list (string * JSValue)) :
  supabase w = Some c ->
  fields = VUndef \/ truthy fields = false \/ is_array fields = true ->
  let q := update_query id (default_arg fields (VObj [])) in
  respond c (requests w) q = Fulfilled r ->
  ok_response r ->
  LS_read "reservations" (VArr []) w = VArr l ->
  Forall (fun x => is_nullish x = false) l ->
  l !! i = Some (VObj old) ->
  ToString (obj_get old "id") = ToString id ->
  (forall j y, j < i -> l !! j = Some y -> ToString (field y "id") <> ToString id) ->
  let entry := VObj (obj_set old "updatedAt" (VStr (toISOString (clock (ticks w))))) in
  updateReservationSB id fields w =
    (Ret (field r "data"),
     emit "sb:admin-synced"
       (LS_store "reservations" (VArr (<[i := entry]> l)) (tick (log_request q w)))) /\
  (forall k, k <> "updatedAt" -> field entry k = obj_get old k).
Proof.
  intros Hsb Hf q Hresp Hok Hread Hl Hi Hid Hbefore entry. split.
  - rewrite (updateReservationSB_run w c id fields r Hsb Hresp Hok), Hread.
    rewrite (findIndexO_first id (VObj old) l i Hl Hi Hid Hbefore).
    rewrite (build_patch_no_fields fields Hf), Hi. reflexivity.
  - intros k Hk. unfold entry, field, getprop, obj_get. rewrite obj_lookup_set.
    destruct (String.eqb_spec "updatedAt" k) as [<-|_]; [congruence|reflexivity].
Qed.

(** X15: An update never changes an id in the cache: whatever the input
    fields are (an [id] among them or not), after a successful update
    that found the entry, the list written back has the length of the
    cached one and, position by position, entries with the ids they had;
    the patched entry also keeps every field that is not one of the
    eight cache names or [updatedAt]. *)
Theorem updateReservationSB_keeps_ids
    (w : World) (c : Client) (id r : JSValue) (ffs : list (string * JSValue))
    (l : list JSValue) (i : nat) (old : list (string * JSValue)) :
  supabase w = Some c ->
  respond c (requests w) (update_query id (VObj ffs)) = Fulfilled r ->
  ok_response r ->
  LS_read "reservations" (VArr []) w = VArr l ->
  Forall (fun x => is_nullish x = false) l ->
  l !! i = Some (VObj old) ->
  ToString (obj_get old "id") = ToString id ->
  (forall j y, j < i -> l !! j = Some y -> ToString (field y "id") <> ToString id) ->
  let entry := VObj (obj_set (obj_assign old (patch_of ffs)) "updatedAt"
                       (VStr (toISOString (clock (ticks w))))) in
  let l' := <[i := entry]> l in
  updateReservationSB id (VObj ffs) w =
    (Ret (field r "data"),
     emit "sb:admin-synced"
       (LS_store "reservations" (VArr l')
          (tick (log_request (update_query id (VObj ffs)) w)))) /\
  length l' = length l /\
  (forall j x, l !! j = Some x ->
     exists y, l' !! j = Some y /\ field y "id" = field x "id") /\
  (forall k, server_column k = None -> k <> "updatedAt" ->
     field entry k = obj_get old k).
Proof.
  intros Hsb Hresp Hok Hread Hl Hi Hid Hbefore entry l'.
  assert (Hkeep : forall k, server_column k = None -> k <> "updatedAt" ->
            field entry k = obj_get old k).
  { intros k Hcol Hk. unfold entry, field, getprop, obj_get.
    rewrite obj_lookup_set.
    destruct (String.eqb_spec "updatedAt" k) as [<-|_]; [congruence|].
    rewrite (obj_lookup_assign _ _ _ (patch_of_NoDup ffs)), patch_of_lookup, Hcol.
    reflexivity. }
  assert (Hlt : i < length l) by (apply lookup_lt_is_Some; eauto).
  split; [|split; [|split]].
  - rewrite (updateReservationSB_run w c id (VObj ffs) r Hsb Hresp Hok), Hread.
    rewrite (findIndexO_first id (VObj old) l i Hl Hi Hid Hbefore).
    cbn [default_arg js_or truthy]. rewrite build_patch_spec, Hi. reflexivity.
  - apply length_insert.
  - intros j x Hj. destruct (decide (j = i)) as [->|Hne].
    + exists entry. split; [apply list_lookup_insert_eq, Hlt|].
      rewrite Hi in Hj. injection Hj as <-.
      apply (Hkeep "id"); [reflexivity | discriminate].
    + exists x. split; [|reflexivity].
      unfold l'. rewrite list_lookup_insert_ne by congruence. exact Hj.
  - exact Hkeep.
Qed.

(** ** Create, then delete or sync *)

(** X16: Deleting by the temporary id undoes the optimistic insert.  After a
    successful create whose list is stored and read back as written, a
    successful [deleteReservationSB] of the new entry's [tmp_] id writes
    back exactly the list cached before the create, provided no entry of
    that list carries the same id; the event has then been dispatched
    twice. *)
Theorem create_then_delete_restores
    (w : World) (c : Client) (payload r1 r2 : JSValue) (l : list JSValue)
    (s : string) :
  supabase w = Some c ->
  is_nullish payload = false ->
  respond c (requests w) (insert_query (insert_row payload)) = Fulfilled r1 ->
  ok_response r1 ->
  LS_read "reservations" (VArr []) w = VArr l ->
  Forall (fun x => is_nullish x = false) l ->
  let entry := optimistic_entry payload (clock (ticks w)) (clock (S (ticks w))) in
  let tmp := VStr ("tmp_" ++ NumberToString (clock (ticks w))) in
  (forall x, x ∈ l -> ToString (field x "id") <> ToString tmp) ->
  storage_available = true ->
  JSON_stringify (VArr (entry :: l)) = Ret (Some s) ->
  storage_fits (storage w) "reservations" s = true ->
  JSON_parse s = Ret (VArr (entry :: l)) ->
  let w1 := (createReservationSB payload w).2 in
  respond c (requests w1) (delete_query tmp) = Fulfilled r2 ->
  ok_response r2 ->
  (createReservationSB payload w).1 = Ret (VBool true) /\
  LS_read "reservations" (VArr []) w1 = VArr (entry :: l) /\
  deleteReservationSB tmp w1 =
    (Ret (VBool true),
     emit "sb:admin-synced"
       (LS_store "reservations" (VArr l) (log_request (delete_query tmp) w1))) /\
  events (deleteReservationSB tmp w1).2 =
    (events w ++ ["sb:admin-synced"; "sb:admin-synced"])%list.
Proof.
  intros Hsb Hp Hresp1 Hok1 Hread Hl entry tmp Hfresh Ha Hj Hfit Hparse w1.
  assert (Hrun : createReservationSB payload w =
            (Ret (VBool true),
             emit "sb:admin-synced"
               (store_item "reservations" s
                  (tick (tick (log_request (insert_query (insert_row payload)) w)))))).
  { rewrite (createReservationSB_run w c payload r1 Hsb Hp Hresp1 Hok1), Hread.
    cbv beta iota delta [array_unshift]. fold entry.
    unfold LS_store. rewrite Hj, Ha. cbn [from_option ToString storage tick log_request].
    rewrite Hfit. reflexivity. }
  subst w1. rewrite Hrun. cbn [fst snd].
  set (w1 := emit _ _).
  intros Hresp2 Hok2.
  assert (Hread1 : LS_read "reservations" (VArr []) w1 = VArr (entry :: l)).
  { unfold LS_read. rewrite Ha. subst w1. cbn [storage emit store_item].
    rewrite lookup_insert_eq. cbn [from_option ToString]. rewrite Hparse.
    reflexivity. }
  assert (Hdel : deleteReservationSB tmp w1 =
            (Ret (VBool true),
             emit "sb:admin-synced"
               (LS_store "reservations" (VArr l) (log_request (delete_query tmp) w1)))).
  { rewrite (deleteReservationSB_run w1 c tmp r2 Hsb Hresp2 Hok2), Hread1.
    cbv beta iota delta [array_filter].
    rewrite (filterO_other_id tmp (entry :: l)) by (constructor; [reflexivity|exact Hl]).
    cbn [obind]. rewrite filter_cons_False.
    - rewrite (filter_all _ l Hfresh). reflexivity.
    - intros Hne. apply Hne. reflexivity. }
  split; [reflexivity|]. split; [exact Hread1|]. split; [exact Hdel|].
  rewrite Hdel. cbn [snd events emit]. rewrite LS_store_events.
  subst w1. cbn [events emit log_request store_item tick].
  rewrite <- app_assoc. reflexivity.
Qed.

Lemma number_or_idempotent (v : JSValue) (d : float) :
  number_or (number_or v d) d = number_or v d.
Proof.
  rewrite (number_or_cases v d). rewrite number_or_cases. cbn [ToNumber].
  destruct (truthy (VNum (ToNumber v))) eqn:Ht.
  - rewrite Ht. reflexivity.
  - destruct (truthy (VNum d)); reflexivity.
Qed.

Lemma js_or_idempotent (a b : JSValue) : js_or (js_or a b) b = js_or a b.
Proof.
  unfold js_or. destruct (truthy a) eqn:Ha; [rewrite Ha; reflexivity|].
  destruct (truthy b); reflexivity.
Qed.

Lemma js_coalesce_idempotent (a b : JSValue) :
  js_coalesce (js_coalesce a b) b = js_coalesce a b.
Proof.
  unfold js_coalesce. destruct (is_nullish a) eqn:Ha; [|rewrite Ha; reflexivity].
  destruct (is_nullish b); reflexivity.
Qed.

Lemma item_of_row_idempotent (it : JSValue) :
  item_of_row (item_of_row it) = item_of_row it.
Proof.
  unfold item_of_row at 1 3.
  change (field (item_of_row it) "id") with (field it "id").
  change (field (item_of_row it) "name") with (field it "name").
  change (field (item_of_row it) "desc")
    with (js_coalesce (js_coalesce (field it "desc") (field it "desc")) (VStr "")).
  change (field (item_of_row it) "price") with (number_or (field it "price") 0).
  change (field (item_of_row it) "img") with (js_or (field it "img") (VStr "")).
  change (field (item_of_row it) "cat_id") with (js_or (field it "cat_id") VNull).
  change (field (item_of_row it) "available") with (js_bool (field it "available")).
  change (field (item_of_row it) "fresh") with (js_bool (field it "fresh")).
  change (field (item_of_row it) "rating_avg") with (number_or (field it "rating_avg") 0).
  change (field (item_of_row it) "rating_count")
    with (number_or (field it "rating_count") 0).
  change (field (item_of_row it) "created_at") with (field it "created_at").
  rewrite !number_or_idempotent, !js_or_idempotent.
  assert (Hd : forall a b, js_coalesce (js_coalesce (js_coalesce a a) b)
                             (js_coalesce (js_coalesce a a) b) = js_coalesce (js_coalesce a a) b).
  { intros a b. unfold js_coalesce. destruct (is_nullish a) eqn:Ha; rewrite ?Ha;
      destruct (is_nullish b) eqn:Hb; rewrite ?Ha, ?Hb; reflexivity. }
  rewrite Hd, js_coalesce_idempotent.
  reflexivity.
Qed.

(** X17: The item normalisation is idempotent: an item that
    [syncPublicCatalogToLocal] has adapted goes through the same
    adaptation unchanged, so what is cached under [menuItemsVisible] is
    a fixed point of it. *)
Theorem adapt_item_idempotent (it x : JSValue) :
  adapt_item it = Ret x -> adapt_item x = Ret x.
Proof.
  intros Hx.
  assert (Hit : is_nullish it = false).
  { destruct it; try reflexivity; discriminate. }
  rewrite (adapt_item_spec it Hit) in Hx. injection Hx as <-.
  rewrite (adapt_item_spec (item_of_row it)) by reflexivity.
  rewrite item_of_row_idempotent. reflexivity.
Qed.

(** X18: The optimistic entry against the next sync.  If the backend stored
    the row [createReservationSB] sends and gave it back,
    [syncAdminDataToLocal]'s mapping of that row agrees with the
    optimistic entry on [name], [date], [status], [notes], [table] and
    [duration]: the two write paths apply the same renaming and the same
    defaults there.  ([id] and [updatedAt] differ by design; [phone] and
    [people] are cached raw by create and defaulted by the sync.) *)
Theorem optimistic_entry_agrees_with_sync
    (w w2 : World) (c : Client) (payload r : JSValue) (l : list JSValue)
    (k : string) :
  supabase w = Some c ->
  is_nullish payload = false ->
  respond c (requests w) (insert_query (insert_row payload)) = Fulfilled r ->
  ok_response r ->
  LS_read "reservations" (VArr []) w = VArr l ->
  k ∈ ["name"; "date"; "status"; "notes"; "table"; "duration"] ->
  let row := insert_row payload in
  let entry := optimistic_entry payload (clock (ticks w)) (clock (S (ticks w))) in
  let synced := reservation_of_row row (clock (ticks w2)) in
  createReservationSB payload w =
    (Ret (VBool true),
     emit "sb:admin-synced"
       (LS_store "reservations" (VArr (entry :: l))
          (tick (tick (log_request (insert_query row) w))))) /\
  adapt_reservation row w2 = (Ret synced, tick w2) /\
  field synced k = field entry k.
Proof.
  intros Hsb Hp Hresp Hok Hread Hk row entry synced.
  split; [|split; [apply adapt_reservation_spec; reflexivity|]].
  - rewrite (createReservationSB_run w c payload r Hsb Hp Hresp Hok), Hread.
    reflexivity.
  - apply list_elem_of_In in Hk. cbn in Hk.
    destruct Hk as [<- | [<- | [<- | [<- | [<- | [<- | []]]]]]]; reflexivity.
Qed.

End Properties.

(** * Loading the script *)

Section PageProperties.
Import Page.
Context {V : Type}.

Lemma get_put (fs : list (string * V)) (k k' : string) (v : V) :
  get (put fs k v) k' = if String.eqb k k' then Some v else get fs k'.
Proof.
  induction fs as [|[k0 v0] fs IH]; cbn [put get].
  - reflexivity.
  - destruct (String.eqb_spec k0 k) as [->|Hne]; cbn [get].
    + destruct (String.eqb k k'); reflexivity.
    + rewrite IH. destruct (String.eqb_spec k0 k') as [->|_]; [|reflexivity].
      destruct (String.eqb_spec k k') as [->|_]; [congruence|reflexivity].
Qed.

Lemma put_fresh (fs : list (string * V)) (k : string) (v : V) :
  k ∉ fs.*1 -> put fs k v = (fs ++ [(k, v)])%list.
Proof.
  induction fs as [|[k0 v0] fs IH]; [reflexivity|]. cbn.
  rewrite not_elem_of_cons. intros [Hne Hk].
  destruct (String.eqb_spec k0 k) as [->|_]; [congruence|].
  rewrite (IH Hk). reflexivity.
Qed.


Lemma get_not_key (fs : list (string * V)) (k : string) :
  k ∉ fs.*1 -> get fs k = None.
Proof.
  induction fs as [|[k0 v0] fs IH]; [reflexivity|]. cbn.
  rewrite not_elem_of_cons. intros [Hne Hk].
  destruct (String.eqb_spec k0 k) as [->|_]; [congruence|]. apply IH, Hk.
Qed.

Lemma get_assign (fs src : list (string * V)) (k : string) :
  NoDup src.*1 ->
  get (assign fs src) k =
    match get src k with
    | Some v => Some v
    | None => get fs k
    end.
Proof.
  unfold assign. revert fs.
  induction src as [|[k1 v1] src IH]; intros fs Hnd; [reflexivity|].
  cbn in Hnd. apply NoDup_cons in Hnd as [Hk1 Hnd].
  cbn [fold_left fst snd get]. rewrite (IH _ Hnd), get_put.
  destruct (String.eqb_spec k1 k) as [->|_]; [|reflexivity].
  rewrite (get_not_key _ _ Hk1). reflexivity.
Qed.

Lemma assign_fresh (acc fs : list (string * V)) :
  NoDup ((acc ++ fs)%list).*1 -> assign acc fs = (acc ++ fs)%list.
Proof.
  unfold assign. revert acc.
  induction fs as [|[k v] fs IH]; intros acc Hnd; cbn [fold_left fst snd].
  - rewrite app_nil_r. reflexivity.
  - assert (Hk : k ∉ acc.*1).
    { rewrite fmap_app in Hnd. apply NoDup_app in Hnd as (_ & Hd & _).
      intros Hin. apply (Hd k Hin). cbn. left. }
    rewrite (put_fresh acc k v Hk), IH.
    + rewrite <- app_assoc. reflexivity.
    + rewrite <- app_assoc. exact Hnd.
Qed.





End PageProperties.

Section LoadProperties.
Import Page.
Context {Foreign : Type}.

Lemma operations_NoDup : NoDup (@operations Foreign).*1.
Proof.
  cbn. apply (bool_decide_unpack _). vm_compute. exact I.
Qed.

Lemma loaded_bridge_get (win : Window Foreign) (name : string) :
  get (bridge_props (win_supabaseBridge (load win))) name =
    match get operations name with
    | Some f => Some f
    | None => get (assign [] (props_or_empty (win_supabaseBridge win))) name
    end.
Proof. cbn [load win_supabaseBridge bridge_props]. apply get_assign, operations_NoDup. Qed.

(** X19: Loading the script publishes the bridge whether or not the client is
    there: afterwards each of the six names on [window.supabaseBridge]
    is bound to this script's function, whatever was bound to it before;
    every other property that a previous bridge object had is still
    there with its value; [window.LS] is kept when it was set and is
    this script's helper otherwise; and one warning is printed exactly
    when [window.supabase] is missing. *)
Theorem load_publishes_bridge (win : Window Foreign) :
  (forall name f, (name, f) ∈ operations ->
     get (bridge_props (win_supabaseBridge (load win))) name = Some f) /\
  (forall name, name ∉ (@operations Foreign).*1 ->
     NoDup (bridge_props (win_supabaseBridge win)).*1 ->
     get (bridge_props (win_supabaseBridge (load win))) name =
       if bridge_truthy (win_supabaseBridge win)
       then get (bridge_props (win_supabaseBridge win)) name
       else None) /\
  (forall h, win_LS win = Some h -> win_LS (load win) = Some h) /\
  (win_LS win = None -> win_LS (load win) = Some our_LS) /\
  (has_supabase win = true -> console (load win) = console win) /\
  (has_supabase win = false -> console (load win) = (console win ++ [warning])%list).
Proof.
  split; [|split; [|split; [|split; [|split]]]].
  - intros name f Hin. rewrite loaded_bridge_get.
    apply list_elem_of_In in Hin. cbn in Hin.
    repeat (destruct Hin as [[= <- <-]|Hin]; [reflexivity|]). destruct Hin.
  - intros name Hname Hnd. rewrite loaded_bridge_get.
    rewrite (get_not_key _ _ Hname). unfold props_or_empty.
    destruct (bridge_truthy (win_supabaseBridge win)); [|reflexivity].
    rewrite assign_fresh by exact Hnd. reflexivity.
  - intros h Hh. cbn [load win_LS]. rewrite Hh. reflexivity.
  - intros Hh. cbn [load win_LS]. rewrite Hh. reflexivity.
  - intros Hs. cbn [load console]. rewrite Hs. reflexivity.
  - intros Hs. cbn [load console]. rewrite Hs. reflexivity.
Qed.


End LoadProperties.

(** * The properties on sample inputs *)

Section Samples.
Import Sample.

Ltac calc := vm_compute; reflexivity.

Lemma LS_never_throws_sample :
  (@LS_get rt0 "reservations" (VArr []) (world None ∅)).1 = Ret (VArr []) /\
  (@LS_get rt0 "reservations" (VArr []) (world None {[ "reservations" := "{oops" ]})).1
    = Ret (VArr []) /\
  (@LS_get rt_off "reservations" (VArr []) (world None stored)).1 = Ret (VArr []) /\
  @LS_set rt_small "reservations" (VArr cached_list) (world None ∅)
    = (Ret tt, world None ∅) /\
  @LS_get rt_small "reservations" (VArr []) (world None ∅)
    = (Ret (VArr []), world None ∅).
Proof.
  assert (Hfail : @set_fails rt_small "reservations" (VArr cached_list) (world None ∅)).
  { right. right. eexists. split; calc. }
  split; [|split; [|split; [|split]]].
  - destruct (@LS_never_throws rt0 "reservations" (VArr []) VNull (world None ∅))
      as (_ & H & _).
    rewrite H by calc. reflexivity.
  - destruct (@LS_never_throws rt0 "reservations" (VArr []) VNull
                (world None {[ "reservations" := "{oops" ]}))
      as (_ & _ & H & _).
    rewrite (H "{oops" SyntaxError) by calc. reflexivity.
  - destruct (@LS_never_throws rt_off "reservations" (VArr []) VNull (world None stored))
      as (_ & _ & _ & H & _).
    rewrite H by calc. reflexivity.
  - destruct (@LS_never_throws rt_small "reservations" (VArr []) (VArr cached_list)
                (world None ∅))
      as (_ & _ & _ & _ & _ & H & _).
    apply H, Hfail.
  - destruct (@LS_never_throws rt_small "reservations" (VArr []) (VArr cached_list)
                (world None ∅))
      as (_ & _ & _ & _ & _ & Hset & H).
    apply H; [exact Hfail | calc | apply Hset, Hfail].
Defined.

Lemma LS_get_null_is_default_sample :
  @LS_get rt0 "flag" (VStr "dflt") (world None {[ "flag" := "null" ]})
    = (Ret (VStr "dflt"), world None {[ "flag" := "null" ]}) /\
  @LS_get rt0 "flag" (VStr "dflt") (world None {[ "flag" := "false" ]})
    = (Ret (VBool false), world None {[ "flag" := "false" ]}) /\
  @LS_get rt0 "flag" (VStr "dflt") (world None {[ "flag" := "0" ]})
    = (Ret (VNum 0), world None {[ "flag" := "0" ]}) /\
  @LS_get rt0 "flag" (VStr "dflt") (world None {[ "flag" := quoted "" ]})
    = (Ret (VStr ""), world None {[ "flag" := quoted "" ]}) /\
  @LS_get rt0 "flag" (VStr "dflt") (store_item "flag" "null" (world None ∅))
    = (Ret (VStr "dflt"), store_item "flag" "null" (world None ∅)).
Proof.
  split; [|split; [|split; [|split]]].
  - destruct (@LS_get_null_is_default rt0 "flag" "null" (VStr "dflt")
                (world None {[ "flag" := "null" ]})) as (H & _); [calc | calc |].
    apply H. calc.
  - destruct (@LS_get_null_is_default rt0 "flag" "false" (VStr "dflt")
                (world None {[ "flag" := "false" ]})) as (_ & H & _); [calc | calc |].
    apply H. calc.
  - destruct (@LS_get_null_is_default rt0 "flag" "0" (VStr "dflt")
                (world None {[ "flag" := "0" ]})) as (_ & _ & H & _); [calc | calc |].
    apply H. calc.
  - destruct (@LS_get_null_is_default rt0 "flag" (quoted "") (VStr "dflt")
                (world None {[ "flag" := quoted "" ]})) as (_ & _ & _ & H & _);
      [calc | calc |].
    apply H. calc.
  - destruct (@LS_get_null_is_default rt0 "flag" "null" (VStr "dflt")
                (world None {[ "flag" := "null" ]})) as (_ & _ & _ & _ & _ & H);
      [calc | calc |].
    apply (H (world None ∅)); calc.
Defined.

(** C2 as the spec words it fails: without a client the guard answers
    false, which is not undefined. *)
Lemma requireAdminOrRedirect_no_client_answers_false :
  supabase (world None stored) = None /\
  (requireAdminOrRedirect VUndef (world None stored)).1 = Ret (VBool false) /\
  (requireAdminOrRedirect VUndef (world None stored)).1 <> Ret VUndef.
Proof.
  split; [reflexivity|]. split; [calc|].
  vm_compute. discriminate.
Qed.

Lemma no_client_is_inert_sample :
  @syncPublicCatalogToLocal rt0 (world None stored) = (Ret VUndef, world None stored) /\
  requireAdminOrRedirect (VStr "login.html") (world None stored)
    = (Ret (VBool false), world None stored) /\
  @syncAdminDataToLocal rt0 (world None stored) = (Ret VUndef, world None stored) /\
  @createReservationSB rt0 payload (world None stored) = (Ret VUndef, world None stored) /\
  @updateReservationSB rt0 (VStr "r2") (VObj confirm) (world None stored)
    = (Ret VUndef, world None stored) /\
  @deleteReservationSB rt0 (VStr "r2") (world None stored)
    = (Ret VUndef, world None stored).
Proof.
  destruct (@no_client_is_inert rt0 (world None stored) (VStr "login.html")
              (VStr "r2") (VObj confirm) payload eq_refl)
    as (H1 & H2 & H3 & H4 & H5 & H6).
  split; [exact H1|]. split; [exact H2|]. split; [exact H3|].
  split; [exact (H4 eq_refl)|]. split; [exact H5 | exact H6].
Defined.

Lemma requireAdminOrRedirect_cases_sample :
  ((requireAdminOrRedirect VUndef w_guest).1 = Ret (VBool false) /\
   redirects (requireAdminOrRedirect VUndef w_guest).2 = [VStr "login.html"]) /\
  ((requireAdminOrRedirect VUndef w_admin).1 = Ret (VBool true) /\
   redirects (requireAdminOrRedirect VUndef w_admin).2 = []) /\
  ((requireAdminOrRedirect VUndef w_probe).1 = Ret (VBool true) /\
   redirects (requireAdminOrRedirect VUndef w_probe).2 = []) /\
  ((requireAdminOrRedirect VUndef w_denied).1 = Ret (VBool false) /\
   redirects (requireAdminOrRedirect VUndef w_denied).2 = [VStr "login.html"]).
Proof.
  split; [|split; [|split]].
  - destruct (requireAdminOrRedirect_cases w_guest _ VUndef _ _ VNull
                eq_refl eq_refl eq_refl eq_refl) as (H & _).
    rewrite H by calc. split; reflexivity.
  - destruct (requireAdminOrRedirect_cases w_admin _ VUndef _ _ (session_of "u1")
                eq_refl eq_refl eq_refl eq_refl) as (_ & H & _).
    destruct H as [H Hr]; [calc | calc |]. rewrite H. split; reflexivity.
  - destruct (requireAdminOrRedirect_cases w_probe _ VUndef _ _ (session_of "u1")
                eq_refl eq_refl eq_refl eq_refl) as (_ & _ & H & _).
    destruct H as [H Hr]; [calc | calc | calc |]. rewrite H. split; reflexivity.
  - destruct (requireAdminOrRedirect_cases w_denied _ VUndef _ _ (session_of "u1")
                eq_refl eq_refl eq_refl eq_refl) as (_ & _ & _ & H).
    rewrite H by calc. split; reflexivity.
Defined.

Lemma nonnullish_cached : Forall (fun x => is_nullish x = false) cached_list.
Proof. repeat constructor. Defined.

Lemma ok_answer (data : JSValue) : ok_response (answer data).
Proof. exists VNull. split; reflexivity. Defined.

Lemma syncPublicCatalogToLocal_normalizes_sample :
  (@syncPublicCatalogToLocal rt0 w_catalog).1 =
    Ret (VObj [("categories", VArr menu_rows);
               ("items", VArr (@item_of_row rt0 <$> menu_rows))]) /\
  @item_of_row rt0 <$> menu_rows =
    [VObj [("id", VNum 1); ("name", VStr "Soup"); ("desc", VStr "hot");
           ("price", VNum 12); ("img", VStr "soup.png"); ("cat_id", VNum 3);
           ("available", VBool true); ("fresh", VBool true);
           ("rating_avg", VNum 4); ("rating_count", VNum 10);
           ("created_at", VStr "2024-01-01")];
     VObj [("id", VNum 2); ("name", VStr "Tea"); ("desc", VStr "");
           ("price", VNum 0); ("img", VStr ""); ("cat_id", VNull);
           ("available", VBool true); ("fresh", VBool false);
           ("rating_avg", VNum 0); ("rating_count", VNum 0);
           ("created_at", VUndef)]].
Proof.
  destruct (@syncPublicCatalogToLocal_normalizes rt0 w_catalog _ _ _ (VArr menu_rows)
              menu_rows eq_refl eq_refl (ok_answer _) eq_refl (ok_answer _)
              eq_refl eq_refl)
    as (H & _).
  { repeat constructor. }
  rewrite H. split; [reflexivity | calc].
Defined.

Lemma updateReservationSB_patches_entry_sample :
  ((@updateReservationSB rt0 (VStr "r2") (VObj confirm) w_known).1
     = Ret (reservation "r2" "Bob" "confirmed") /\
   events (@updateReservationSB rt0 (VStr "r2") (VObj confirm) w_known).2
     = ["sb:admin-synced"] /\
   @LS_read rt0 "reservations" (VArr []) w_known = VArr cached_list /\
   exists entry,
     (@updateReservationSB rt0 (VStr "r2") (VObj confirm) w_known).2 =
       emit "sb:admin-synced"
         (@LS_store rt0 "reservations"
            (VArr [reservation "r1" "Ann" "new"; entry;
                   reservation "r3" "Cyd" "confirmed"])
            (tick (log_request (update_query (VStr "r2") (VObj confirm)) w_known))) /\
     field entry "status" = VStr "confirmed" /\
     field entry "updatedAt" = VStr (@toISOString rt0 (@clock rt0 0)) /\
     forall k, k <> "status" -> k <> "updatedAt" ->
       field entry k = field (reservation "r2" "Bob" "new") k) /\
  @updateReservationSB rt0 (VStr "r9") (VObj confirm) w_unknown =
    (Ret (reservation "r9" "Zed" "confirmed"),
     log_request (update_query (VStr "r9") (VObj confirm)) w_unknown).
Proof.
  split.
  - destruct (@updateReservationSB_patches_entry rt0 w_known _ (VStr "r2") _ confirm
                cached_list eq_refl eq_refl (ok_answer _)) as (H & _);
      [calc | exact nonnullish_cached |].
    destruct (H 1 (reservation_fields "r2" "Bob" "new") eq_refl eq_refl)
      as (Hrun & Hev & _ & Hnow & _ & Honly & _ & _).
    { intros [|j] y Hj Hy; [|lia]. vm_compute in Hy. injection Hy as <-.
      vm_compute. discriminate. }
    rewrite Hrun. split; [reflexivity|]. split; [exact Hev|].
    split; [calc|]. eexists. split; [reflexivity|].
    destruct (Honly (VStr "confirmed") eq_refl) as [Hstatus Hothers].
    split; [exact Hstatus|]. split; [exact Hnow|].
    intros k Hk1 Hk2. apply Hothers; assumption.
  - destruct (@updateReservationSB_patches_entry rt0 w_unknown _ (VStr "r9") _ confirm
                cached_list eq_refl eq_refl (ok_answer _)) as (_ & H);
      [calc | exact nonnullish_cached |].
    apply H. intros x Hx. apply list_elem_of_In in Hx. cbn in Hx.
    destruct Hx as [<- | [<- | [<- | []]]]; vm_compute; discriminate.
Defined.

(** C4 as the spec words it fails: the backend update of [r9] succeeds,
    no cached entry has that id, and no event is dispatched. *)
Lemma updateReservationSB_unknown_id_no_event :
  respond (client_ok (reservation "r9" "Zed" "confirmed")) (requests w_unknown)
    (update_query (VStr "r9") (VObj confirm))
    = Fulfilled (answer (reservation "r9" "Zed" "confirmed")) /\
  ok_response (answer (reservation "r9" "Zed" "confirmed")) /\
  (@updateReservationSB rt0 (VStr "r9") (VObj confirm) w_unknown).1
    = Ret (reservation "r9" "Zed" "confirmed") /\
  events (@updateReservationSB rt0 (VStr "r9") (VObj confirm) w_unknown).2 = [] /\
  events (@updateReservationSB rt0 (VStr "r9") (VObj confirm) w_unknown).2
    <> (events w_unknown ++ ["sb:admin-synced"])%list.
Proof.
  split; [reflexivity|]. split; [apply ok_answer|].
  split; [calc|]. split; [calc|]. vm_compute. discriminate.
Qed.

Lemma deleteReservationSB_removes_entry_sample :
  @deleteReservationSB rt0 (VStr "r2") w_known =
    (Ret (VBool true),
     emit "sb:admin-synced"
       (@LS_store rt0 "reservations"
          (VArr [reservation "r1" "Ann" "new"; reservation "r3" "Cyd" "confirmed"])
          (log_request (delete_query (VStr "r2")) w_known))) /\
  events (@deleteReservationSB rt0 (VStr "r2") w_known).2 = ["sb:admin-synced"].
Proof.
  destruct (@deleteReservationSB_removes_entry rt0 w_known _ (VStr "r2") _ cached_list
              eq_refl eq_refl (ok_answer _)) as (H & _ & _ & Hev);
    [calc | exact nonnullish_cached |].
  rewrite H. split; [|exact Hev].
  f_equal.
Defined.

Lemma createReservationSB_prepends_sample :
  (@createReservationSB rt0 payload w_create).1 = Ret (VBool true) /\
  events (@createReservationSB rt0 payload w_create).2 = ["sb:admin-synced"] /\
  (@createReservationSB rt0 payload w_create).2 =
    emit "sb:admin-synced"
      (@LS_store rt0 "reservations"
         (VArr (VObj [("id", VStr "tmp_1700000000000"); ("name", VStr "A");
                      ("phone", VStr "1"); ("date", VStr "2024-01-01T10:00:00Z");
                      ("people", VNum 2); ("status", VStr "new"); ("notes", VStr "");
                      ("table", VStr ""); ("duration", VNum 90);
                      ("updatedAt", VStr "T1700000000001")]
                :: cached_list))
         (tick (tick (log_request (insert_query (@insert_row payload)) w_create)))).
Proof.
  destruct (@createReservationSB_prepends rt0 w_create _ payload _ cached_list
              eq_refl eq_refl eq_refl (ok_answer _)) as (H & _ & _ & _ & Hev); [calc|].
  rewrite H. split; [reflexivity|]. split; [exact Hev|].
  calc.
Defined.

Lemma syncAdminDataToLocal_maps_rows_sample :
  (@syncAdminDataToLocal rt0 w_rows).1 =
    Ret (VObj [("reservations",
      VArr [VObj [("id", VNum 7); ("name", VStr "Ann"); ("phone", VStr "555");
                  ("date", VStr "2024-01-01T10:00:00Z"); ("people", VNum 4);
                  ("status", VStr "confirmed"); ("notes", VStr "window");
                  ("table", VStr "T4"); ("duration", VNum 60);
                  ("updatedAt", VStr "T1700000000000")];
            VObj [("id", VNum 8); ("name", VStr "Bob"); ("phone", VStr "");
                  ("date", VStr "2024-01-02T10:00:00Z"); ("people", VNum 1);
                  ("status", VStr "new"); ("notes", VStr "");
                  ("table", VStr ""); ("duration", VNum 90);
                  ("updatedAt", VStr "T1700000000001")]])]) /\
  events (@syncAdminDataToLocal rt0 w_rows).2 = ["sb:admin-synced"].
Proof.
  destruct (@syncAdminDataToLocal_maps_rows rt0 w_rows _ _ (VArr reservation_rows)
              reservation_rows eq_refl eq_refl (ok_answer _) eq_refl eq_refl)
    as (H & Hev & _).
  { repeat constructor. }
  rewrite H. split; [|exact Hev]. calc.
Defined.

Lemma failed_call_leaves_cache_sample :
  (storage (@syncPublicCatalogToLocal rt0 w_failing).2 = stored /\
   events (@syncPublicCatalogToLocal rt0 w_failing).2 = []) /\
  (storage (@syncPublicCatalogToLocal rt0 w_failing_second).2 = stored /\
   events (@syncPublicCatalogToLocal rt0 w_failing_second).2 = []) /\
  (storage (@syncAdminDataToLocal rt0 w_failing).2 = stored /\
   events (@syncAdminDataToLocal rt0 w_failing).2 = []) /\
  (storage (@createReservationSB rt0 payload w_failing).2 = stored /\
   events (@createReservationSB rt0 payload w_failing).2 = []) /\
  (storage (@updateReservationSB rt0 (VStr "r2") (VObj confirm) w_failing).2 = stored /\
   events (@updateReservationSB rt0 (VStr "r2") (VObj confirm) w_failing).2 = []) /\
  (storage (@deleteReservationSB rt0 (VStr "r2") w_failing).2 = stored /\
   events (@deleteReservationSB rt0 (VStr "r2") w_failing).2 = []).
Proof.
  assert (Herr : reports_error answer_error refusal) by (split; reflexivity).
  destruct (@failed_call_leaves_cache rt0)
    as ((T1 & T2 & T3 & T4 & T5) & E1 & E1' & E2 & E3 & E4 & E5).
  split; [|split; [|split; [|split; [|split]]]].
  - exact (T1 w_failing _ _
             (E1 w_failing _ _ _ eq_refl eq_refl Herr)).
  - exact (T1 w_failing_second _ _
             (E1' w_failing_second _ _ _ _ eq_refl eq_refl (ok_answer _) eq_refl Herr)).
  - exact (T2 w_failing _ _ (E2 w_failing _ _ _ eq_refl eq_refl Herr)).
  - exact (T3 payload w_failing _ _
             (E3 w_failing _ payload _ _ eq_refl eq_refl eq_refl Herr)).
  - exact (T4 (VStr "r2") (VObj confirm) w_failing _ _
             (E4 w_failing _ (VStr "r2") (VObj confirm) _ _ eq_refl eq_refl Herr)).
  - exact (T5 (VStr "r2") w_failing _ _
             (E5 w_failing _ (VStr "r2") _ _ eq_refl eq_refl Herr)).
Defined.

(** ** The further properties on sample inputs *)

Lemma LS_set_touches_one_key_sample :
  (@LS_set rt0 "categories" (VArr []) (world None stored)).1 = Ret tt /\
  storage (@LS_set rt0 "categories" (VArr []) (world None stored)).2 !! "reservations"
    = Some stored_text /\
  (@LS_get rt0 "reservations" (VArr [])
     (@LS_set rt0 "categories" (VArr []) (world None stored)).2).1
    = Ret (VArr cached_list).
Proof.
  assert (Hset : @LS_set rt0 "categories" (VArr []) (world None stored)
                 = (Ret tt, store_item "categories" "[]" (world None stored))) by calc.
  destruct (@LS_set_touches_one_key rt0 "categories" "reservations" (VArr []) (VArr [])
              (world None stored) _ ltac:(discriminate) Hset) as (H1 & H2 & _).
  rewrite Hset. cbn [fst snd]. split; [reflexivity|].
  split; [rewrite H1; calc | rewrite H2; calc].
Defined.

Lemma LS_set_then_get_sample :
  exists w',
    @LS_set rt0 "reservations" (VArr cached_list) (world None ∅) = (Ret tt, w') /\
    storage w' = <[ "reservations" := stored_text ]> ∅ /\
    @LS_get rt0 "reservations" (VArr []) w' = (Ret (VArr cached_list), w').
Proof.
  apply (@LS_set_then_get rt0 "reservations" stored_text (VArr cached_list)
           (VArr cached_list) (VArr []) (world None ∅)); calc.
Defined.

Lemma LS_set_undefined_stores_text_sample :
  exists w',
    @LS_set rt0 "reservations" VUndef (world None stored) = (Ret tt, w') /\
    storage w' !! "reservations" = Some "undefined" /\
    @LS_get rt0 "reservations" (VArr []) w' = (Ret (VArr []), w').
Proof.
  destruct (@LS_set_undefined_stores_text rt0 "reservations" VUndef (VArr [])
              (world None stored)) as (w' & H1 & H2 & H3); [calc | calc | calc |].
  exists w'. split; [exact H1|]. split; [exact H2|].
  apply (H3 SyntaxError). calc.
Defined.

Lemma admin_checks_never_throw_sample :
  (isCurrentUserAdminRPC (VStr "u1") w_admin).1 = Ret (VBool true) /\
  (probeAdminBySelect w_admin).1 = Ret (VBool false) /\
  (isCurrentUserAdminRPC (VStr "u1") w_rejecting).1 = Ret (VBool false) /\
  (probeAdminBySelect w_rejecting).1 = Ret (VBool false) /\
  isCurrentUserAdminRPC (VStr "u1") (world None stored)
    = (Ret (VBool false), world None stored).
Proof.
  split; [|split; [|split; [|split]]].
  - destruct (admin_checks_never_throw (VStr "u1") w_admin)
      as (b1 & b2 & w1 & w2 & H1 & H2 & _).
    rewrite H1 in *. revert H1. vm_compute. intros [= <- _]. reflexivity.
  - destruct (admin_checks_never_throw (VStr "u1") w_admin)
      as (b1 & b2 & w1 & w2 & H1 & H2 & _).
    rewrite H2 in *. revert H2. vm_compute. intros [= <- _]. reflexivity.
  - destruct (admin_checks_never_throw (VStr "u1") w_rejecting)
      as (b1 & b2 & w1 & w2 & H1 & H2 & _ & _ & _ & Hb1 & _).
    rewrite H1. cbn [fst]. destruct b1; [|reflexivity].
    destruct (Hb1 eq_refl) as (c & r & d & e & Hc & Hr & _).
    injection Hc as <-. discriminate Hr.
  - destruct (admin_checks_never_throw (VStr "u1") w_rejecting)
      as (b1 & b2 & w1 & w2 & H1 & H2 & _ & _ & _ & _ & Hb2).
    rewrite H2. cbn [fst]. destruct b2; [|reflexivity].
    destruct (Hb2 eq_refl) as (c & r & e & Hc & Hr & _).
    injection Hc as <-. discriminate Hr.
  - destruct (admin_checks_never_throw (VStr "u1") (world None stored))
      as (b1 & b2 & w1 & w2 & H1 & H2 & _ & _ & Hnone & _).
    destruct (Hnone eq_refl) as (-> & _ & -> & _). exact H1.
Defined.

Lemma requireAdminOrRedirect_true_only_if_affirmed_sample :
  exists c r data session,
    supabase w_admin = Some c /\
    respond c (requests w_admin) GetSession = Fulfilled r /\
    getprop r "data" = Ret data /\
    getprop data "session" = Ret session /\
    truthy (opt_field (opt_field session "user") "id") = true.
Proof.
  destruct (requireAdminOrRedirect_true_only_if_affirmed w_admin
              (requireAdminOrRedirect VUndef w_admin).2 VUndef)
    as (c & r & data & session & H1 & H2 & H3 & H4 & H5 & _); [calc|].
  exists c, r, data, session. repeat split; assumption.
Defined.

Lemma requireAdminOrRedirect_redirects_iff_false_sample :
  storage (requireAdminOrRedirect VUndef w_denied).2 = storage w_denied /\
  events (requireAdminOrRedirect VUndef w_denied).2 = events w_denied /\
  redirects (requireAdminOrRedirect VUndef w_denied).2 = [VStr "login.html"] /\
  redirects (requireAdminOrRedirect VUndef w_rejecting).2 = [].
Proof.
  destruct (requireAdminOrRedirect_redirects_iff_false w_denied
              (requireAdminOrRedirect VUndef w_denied).2 VUndef
              (requireAdminOrRedirect VUndef w_denied).1)
    as (H1 & H2 & _ & H4); [calc|].
  destruct (requireAdminOrRedirect_redirects_iff_false w_rejecting
              (requireAdminOrRedirect VUndef w_rejecting).2 VUndef
              (Throw (ExnValue refusal)))
    as (_ & _ & _ & H5); [calc|].
  split; [exact H1|]. split; [exact H2|]. split; [calc | exact H5].
Defined.

Lemma requireAdminOrRedirect_throws_iff_no_session_sample :
  requireAdminOrRedirect VUndef w_rejecting =
    (Throw (ExnValue refusal), log_request GetSession w_rejecting).
Proof.
  apply (requireAdminOrRedirect_throws_iff_no_session w_rejecting _ client_rejecting
           VUndef (ExnValue refusal) eq_refl).
  split; [reflexivity | left; reflexivity].
Defined.

Lemma one_request_per_call_sample :
  requests (@deleteReservationSB rt0 (VStr "r2") w_known).2
    = [delete_query (VStr "r2")] /\
  requests (@updateReservationSB rt0 (VStr "r2") VUndef w_failing).2
    = [update_query (VStr "r2") (VObj [])] /\
  requests (@createReservationSB rt0 payload w_create).2
    = [insert_query (@insert_row payload)] /\
  requests (@syncAdminDataToLocal rt0 w_rows).2 = [reservations_query] /\
  requests (@syncPublicCatalogToLocal rt0 w_catalog).2
    = [categories_query; menu_items_query].
Proof.
  split; [|split; [|split; [|split]]].
  - destruct (@one_request_per_call rt0 w_known
                (@deleteReservationSB rt0 (VStr "r2") w_known).2 _ (VStr "r2") VUndef
                payload (@deleteReservationSB rt0 (VStr "r2") w_known).1 eq_refl)
      as (_ & _ & _ & H & _).
    apply H. calc.
  - destruct (@one_request_per_call rt0 w_failing
                (@updateReservationSB rt0 (VStr "r2") VUndef w_failing).2 _ (VStr "r2")
                VUndef payload (@updateReservationSB rt0 (VStr "r2") VUndef w_failing).1
                eq_refl)
      as (_ & _ & H & _).
    apply H. calc.
  - destruct (@one_request_per_call rt0 w_create
                (@createReservationSB rt0 payload w_create).2 _ (VStr "r2")
                VUndef payload (@createReservationSB rt0 payload w_create).1 eq_refl)
      as (_ & H & _).
    apply H; calc.
  - destruct (@one_request_per_call rt0 w_rows
                (@syncAdminDataToLocal rt0 w_rows).2 _ (VStr "r2")
                VUndef payload (@syncAdminDataToLocal rt0 w_rows).1 eq_refl)
      as (H & _).
    apply H. calc.
  - destruct (@one_request_per_call rt0 w_catalog
                (@syncPublicCatalogToLocal rt0 w_catalog).2 _ (VStr "r2")
                VUndef payload (@syncPublicCatalogToLocal rt0 w_catalog).1 eq_refl)
      as (_ & _ & _ & _ & H).
    destruct H as [[_ H] | H]; [calc | | exact H].
    exfalso. revert H. vm_compute. intros H. eapply H. reflexivity.
Defined.

Lemma reservation_operations_footprint_sample :
  storage (@deleteReservationSB rt0 (VStr "r2") w_known).2 !! "categories" = None /\
  redirects (@deleteReservationSB rt0 (VStr "r2") w_known).2 = [].
Proof.
  destruct (@reservation_operations_footprint rt0 (VStr "r2") VUndef payload w_known
              (@deleteReservationSB rt0 (VStr "r2") w_known).2
              (@deleteReservationSB rt0 (VStr "r2") w_known).1)
    as (H1 & H2 & _).
  { right. right. right. calc. }
  split; [rewrite H1 by discriminate; calc | exact H2].
Defined.

Lemma syncPublicCatalogToLocal_footprint_sample :
  events (@syncPublicCatalogToLocal rt0 w_catalog).2 = [] /\
  ticks (@syncPublicCatalogToLocal rt0 w_catalog).2 = 0 /\
  storage (@syncPublicCatalogToLocal rt0 w_catalog).2 !! "reservations" = None.
Proof.
  destruct (@syncPublicCatalogToLocal_footprint rt0 w_catalog
              (@syncPublicCatalogToLocal rt0 w_catalog).2
              (@syncPublicCatalogToLocal rt0 w_catalog).1)
    as (H1 & H2 & _ & H4); [calc|].
  split; [exact H2|]. split; [exact H4|].
  rewrite H1 by discriminate. calc.
Defined.


Lemma deleteReservationSB_unknown_id_sample :
  @deleteReservationSB rt0 (VStr "r9") w_unknown =
    (Ret (VBool true),
     emit "sb:admin-synced"
       (@LS_store rt0 "reservations" (VArr cached_list)
          (log_request (delete_query (VStr "r9")) w_unknown))) /\
  events (@deleteReservationSB rt0 (VStr "r9") w_unknown).2 = ["sb:admin-synced"].
Proof.
  destruct (@deleteReservationSB_unknown_id rt0 w_unknown _ (VStr "r9") _ cached_list
              eq_refl eq_refl (ok_answer _)) as (H & Hev);
    [calc | exact nonnullish_cached | |].
  { intros x Hx. apply list_elem_of_In in Hx. cbn in Hx.
    destruct Hx as [<- | [<- | [<- | []]]]; vm_compute; discriminate. }
  rewrite H. split; [reflexivity | exact Hev].
Defined.

Lemma corrupt_cache_throws_after_request_sample :
  (@createReservationSB rt0 payload w_corrupt).1 = Throw TypeError /\
  @updateReservationSB rt0 (VStr "r2") (VObj confirm) w_corrupt =
    (Throw TypeError,
     log_request (update_query (VStr "r2") (VObj confirm)) w_corrupt) /\
  @deleteReservationSB rt0 (VStr "r2") w_corrupt =
    (Throw TypeError, log_request (delete_query (VStr "r2")) w_corrupt).
Proof.
  destruct (@corrupt_cache_throws_after_request rt0 w_corrupt _ (VStr "r2")
              (VObj confirm) payload _ eq_refl (ok_answer VNull))
    as (H1 & H2 & H3); [calc|].
  rewrite (H1 eq_refl eq_refl).
  split; [reflexivity|]. split; [exact (H2 eq_refl) | exact (H3 eq_refl)].
Defined.

Lemma updateReservationSB_without_fields_sample :
  @updateReservationSB rt0 (VStr "r2") VUndef w_known =
    (Ret (reservation "r2" "Bob" "confirmed"),
     emit "sb:admin-synced"
       (@LS_store rt0 "reservations"
          (VArr [reservation "r1" "Ann" "new";
                 VObj (obj_set (reservation_fields "r2" "Bob" "new") "updatedAt"
                         (VStr "T1700000000000"));
                 reservation "r3" "Cyd" "confirmed"])
          (tick (log_request (update_query (VStr "r2") (VObj [])) w_known)))).
Proof.
  destruct (@updateReservationSB_without_fields rt0 w_known _ (VStr "r2") VUndef _
              cached_list 1 (reservation_fields "r2" "Bob" "new") eq_refl
              (or_introl eq_refl) eq_refl (ok_answer _)) as (H & _);
    [calc | exact nonnullish_cached | reflexivity | reflexivity | |].
  { intros [|j] y Hj Hy; [|lia]. vm_compute in Hy. injection Hy as <-.
    vm_compute. discriminate. }
  rewrite H. calc.
Defined.

Lemma updateReservationSB_keeps_ids_sample :
  (@updateReservationSB rt0 (VStr "r2")
     (VObj [("id", VStr "r7"); ("status", VStr "confirmed")]) w_known).1
    = Ret (reservation "r2" "Bob" "confirmed") /\
  exists y,
    <[1 := VObj (obj_set
                   (obj_assign (reservation_fields "r2" "Bob" "new")
                      (patch_of [("id", VStr "r7"); ("status", VStr "confirmed")]))
                   "updatedAt" (VStr "T1700000000000"))]> cached_list !! 1 = Some y /\
    field y "id" = VStr "r2".
Proof.
  destruct (@updateReservationSB_keeps_ids rt0 w_known _ (VStr "r2") _
              [("id", VStr "r7"); ("status", VStr "confirmed")]
              cached_list 1 (reservation_fields "r2" "Bob" "new")
              eq_refl eq_refl (ok_answer _)) as (Hrun & _ & Hids & _);
    [calc | exact nonnullish_cached | reflexivity | reflexivity | |].
  { intros [|j] y Hj Hy; [|lia]. vm_compute in Hy. injection Hy as <-.
    vm_compute. discriminate. }
  rewrite Hrun. split; [reflexivity|].
  exact (Hids 1 (reservation "r2" "Bob" "new") eq_refl).
Defined.

Lemma create_then_delete_restores_sample :
  (@createReservationSB rt_create payload w_create).1 = Ret (VBool true) /\
  @deleteReservationSB rt_create (VStr "tmp_1700000000000")
     (@createReservationSB rt_create payload w_create).2 =
    (Ret (VBool true),
     emit "sb:admin-synced"
       (@LS_store rt_create "reservations" (VArr cached_list)
          (log_request (delete_query (VStr "tmp_1700000000000"))
             (@createReservationSB rt_create payload w_create).2))).
Proof.
  destruct (@create_then_delete_restores rt_create w_create _ payload (answer VNull)
              (answer VNull) cached_list
              (default "" (stringify (VArr (new_entry :: cached_list))))
              eq_refl eq_refl eq_refl (ok_answer _))
    as (H1 & _ & H3 & _);
    [calc | exact nonnullish_cached | | calc | calc | calc | calc | calc
    | exact (ok_answer _) |].
  { intros x Hx. apply list_elem_of_In in Hx. cbn in Hx.
    destruct Hx as [<- | [<- | [<- | []]]]; vm_compute; discriminate. }
  split; [exact H1 | exact H3].
Defined.

Lemma adapt_item_idempotent_sample :
  @adapt_item rt0 (@item_of_row rt0 (VObj [("id", VNum 2); ("price", VStr "n/a")]))
    = Ret (@item_of_row rt0 (VObj [("id", VNum 2); ("price", VStr "n/a")])).
Proof.
  apply (@adapt_item_idempotent rt0 (VObj [("id", VNum 2); ("price", VStr "n/a")])).
  calc.
Defined.

Lemma optimistic_entry_agrees_with_sync_sample :
  (@createReservationSB rt0 payload w_create).1 = Ret (VBool true) /\
  field (@reservation_of_row rt0 (@insert_row payload) (@clock rt0 0)) "duration"
    = VNum 90 /\
  field (@optimistic_entry rt0 payload (@clock rt0 0) (@clock rt0 1)) "duration"
    = VNum 90.
Proof.
  destruct (@optimistic_entry_agrees_with_sync rt0 w_create w_rows _ payload _
              cached_list "duration" eq_refl eq_refl eq_refl (ok_answer _))
    as (H1 & _ & H3); [calc | apply list_elem_of_In; cbn; tauto |].
  rewrite H1. split; [reflexivity|]. split; [|calc].
  etransitivity; [exact H3 | calc].
Defined.

End Samples.

Section PageSamples.
Import Page SamplePage.

Lemma load_publishes_bridge_sample :
  get (bridge_props (win_supabaseBridge (load page))) "deleteReservationSB"
    = Some (ours op_deleteReservationSB) /\
  get (bridge_props (win_supabaseBridge (load page))) "version" = Some (theirs "v1") /\
  win_LS (load page) = Some (their_LS "older-LS") /\
  console (load page) = [warning].
Proof.
  destruct (load_publishes_bridge page) as (H1 & H2 & H3 & _ & _ & H6).
  split; [apply H1; apply list_elem_of_In; cbn; tauto|].
  split.
  { rewrite H2; [reflexivity | |].
    - intros Hin. apply list_elem_of_In in Hin. cbn in Hin.
      repeat (destruct Hin as [Hin|Hin]; [discriminate Hin|]). exact Hin.
    - apply (bool_decide_unpack _). vm_compute. exact I. }
  split; [apply H3; reflexivity | apply H6; reflexivity].
Defined.

End PageSamples.
